(** * toggl-mcp: the tool dispatcher and the weekly aggregation

    A shallow embedding of the server (the version of [index.ts] with the
    weekly tools): the [TogglClient] class, the three zod schemas and the
    [CallToolRequestSchema] handler, followed by the properties of the
    specification that concern them.

    Conventions of the embedding.
    - A JavaScript number that the code only ever uses as an integer
      (identifiers, durations in seconds, epoch milliseconds, week offsets)
      is a [Z]; [NaN] is added where the code can produce it.  The one
      place where the code leaves the integers, [seconds / 3600 * 100], is
      computed in binary64 by the module [F64] below.
    - A [Date] is its time value, milliseconds since the epoch in UTC, or
      an Invalid Date ([None]) once a computed instant leaves the range of
      time values.  Local time follows the rules of the host's time zone,
      a [JSDate.Zone].
    - A plain object used as a dictionary is an association list of its own
      properties in insertion order; [Js.entries] restores their
      enumeration order (array indices first, ascending).  Reading a key
      that is not an own property finds the members inherited from
      [Object.prototype] ([Js.inherited]).
    - Strings are byte strings; the code splits, concatenates and compares
      them.  [toLowerCase], which depends on the characters, is taken from
      the host ([lowerCase] in [World]). *)

From Stdlib Require Import ZArith List String Ascii Bool Lia Permutation Sorted.
From Stdlib Require Import DecimalString.
Import ListNotations.
Local Open Scope string_scope.
Local Open Scope Z_scope.

(** ** Decimal rendering of integers *)

Definition string_of_Z (z : Z) : string :=
  NilZero.string_of_int (Z.to_int z).

(** [String.prototype.padStart(n, "0")] on a digit string. *)
Fixpoint zeros (n : nat) : string :=
  match n with O => "" | S k => "0" ++ zeros k end.

Definition pad0 (width : nat) (z : Z) : string :=
  let s := string_of_Z z in
  zeros (width - String.length s) ++ s.

(** ** Dates (ECMAScript, Date objects) *)

Module JSDate.

Definition msPerDay : Z := 86400000.

Definition Day (t : Z) : Z := t / msPerDay.
Definition TimeWithinDay (t : Z) : Z := t mod msPerDay.

(** 1 January 1970 was a Thursday; Sunday is 0. *)
Definition WeekDay (t : Z) : Z := (Day t + 4) mod 7.

Definition DayFromYear (y : Z) : Z :=
  365 * (y - 1970) + (y - 1969) / 4 - (y - 1901) / 100 + (y - 1601) / 400.

Definition InLeapYear (y : Z) : bool :=
  ((y mod 4 =? 0) && negb (y mod 100 =? 0)) || (y mod 400 =? 0).

(** The year of a day number: the largest [y] with [DayFromYear y <= d]. *)
Definition YearFromDay (d : Z) : Z :=
  let y := 1970 + (d * 400) / 146097 in
  if d <? DayFromYear y then y - 1
  else if DayFromYear (y + 1) <=? d then y + 1
  else y.

(** Days before the first of month [m] (0 = January) in a year. *)
Definition DaysBeforeMonth (leap : bool) (m : Z) : Z :=
  let l := if leap then 1 else 0 in
  match m with
  | 0 => 0 | 1 => 31 | 2 => 59 + l | 3 => 90 + l | 4 => 120 + l
  | 5 => 151 + l | 6 => 181 + l | 7 => 212 + l | 8 => 243 + l
  | 9 => 273 + l | 10 => 304 + l | _ => 334 + l
  end.

Definition MonthFromDay (d : Z) : Z :=
  let y := YearFromDay d in
  let w := d - DayFromYear y in
  let leap := InLeapYear y in
  let fix find (k : nat) (m : Z) : Z :=
    match k with
    | O => m
    | S k' => if DaysBeforeMonth leap m <=? w then m else find k' (m - 1)
    end in
  find 11%nat 11.

(** Day number of the first day of the month that contains day [d]. *)
Definition MonthStart (d : Z) : Z :=
  let y := YearFromDay d in
  DayFromYear y + DaysBeforeMonth (InLeapYear y) (MonthFromDay d).

Definition DateFromDay (d : Z) : Z := d - MonthStart d + 1.

Definition MakeTime (h m s ms : Z) : Z :=
  h * 3600000 + m * 60000 + s * 1000 + ms.

Definition MakeDate (day time : Z) : Z := day * msPerDay + time.

(** A time zone as the host knows it: the offset of local time from UTC in
    force at a UTC instant, and the offset with which a local time is read
    back (LocalTZA with isUTC true and false).  Where the clocks are put
    forward a local time is skipped, where they are put back it occurs
    twice; both are read with the offset in force before the change. *)
Record Zone : Type := {
  offset_at_utc : Z -> Z;
  offset_at_local : Z -> Z
}.

Definition LocalTime (z : Zone) (t : Z) : Z := t + offset_at_utc z t.
Definition UTC (z : Zone) (l : Z) : Z := l - offset_at_local z l.

(** Time values end 100,000,000 days from the epoch on either side; what
    lies beyond is not a date. *)
Definition maxTime : Z := 8640000000000000.

Definition TimeClip (t : Z) : option Z :=
  if Z.abs t <=? maxTime then Some t else None.

(** The methods below are those of a valid date with time value [t]; on an
    Invalid Date the getters return NaN and the setters leave it invalid
    (see [weekMonday]). *)
Definition getDay (z : Zone) (t : Z) : Z := WeekDay (LocalTime z t).

Definition getDate (z : Zone) (t : Z) : Z := DateFromDay (Day (LocalTime z t)).

(** [setDate(dt)]: MakeDay of the year and month of [t] with the date [dt]
    (which may lie outside the month), keeping the local time within the
    day; the result is read as a local time and clipped. *)
Definition setDate (z : Zone) (t dt : Z) : option Z :=
  let l := LocalTime z t in
  TimeClip (UTC z (MakeDate (MonthStart (Day l) + dt - 1) (TimeWithinDay l))).

Definition setHours (z : Zone) (t h m s ms : Z) : option Z :=
  TimeClip (UTC z (MakeDate (Day (LocalTime z t)) (MakeTime h m s ms))).

(** A zone without changes of clocks. *)
Definition fixed_zone (offset : Z) : Zone :=
  {| offset_at_utc := fun _ => offset; offset_at_local := fun _ => offset |}.

(** A zone whose clocks change once, at the UTC instant [change], from the
    offset [before] to the offset [after]. *)
Definition changing_zone (before after change : Z) : Zone :=
  {| offset_at_utc := fun t => if t <? change then before else after;
     offset_at_local :=
       fun l => if l <? change + Z.max before after then before else after |}.

(** [toISOString().split('T')[0]]: the UTC calendar date. *)
Definition isoYear (y : Z) : string :=
  if (0 <=? y) && (y <=? 9999) then pad0 4 y
  else (if y <? 0 then "-" else "+") ++ pad0 6 (Z.abs y).

Definition isoDate (t : Z) : string :=
  let d := Day t in
  isoYear (YearFromDay d) ++ "-" ++ pad0 2 (MonthFromDay d + 1)
    ++ "-" ++ pad0 2 (DateFromDay d).

End JSDate.

(** ** The week window of [TogglClient.getWeeklyEntries] *)

Section WeekWindow.

Variable zone : JSDate.Zone.

(** [today] is the time value of [new Date()]. *)
Definition daysToMonday (today : Z) : Z :=
  let dayOfWeek := JSDate.getDay zone today in
  if dayOfWeek =? 0 then -6 else 1 - dayOfWeek.

(** [monday], after [setDate] and [setHours]; an Invalid Date stays one. *)
Definition weekMonday (today weekOffset : Z) : option Z :=
  let monday := today in
  match JSDate.setDate zone monday
          (JSDate.getDate zone today + daysToMonday today + weekOffset * 7)
  with
  | Some monday => JSDate.setHours zone monday 0 0 0 0
  | None => None
  end.

(** [sunday], a copy of [monday] moved six days on; of an Invalid Date
    [getDate()] is NaN and the copy stays invalid. *)
Definition weekSunday (monday : option Z) : option Z :=
  match monday with
  | Some monday =>
      let sunday := monday in
      match JSDate.setDate zone sunday (JSDate.getDate zone monday + 6) with
      | Some sunday => JSDate.setHours zone sunday 23 59 59 999
      | None => None
      end
  | None => None
  end.

End WeekWindow.

(** ** Binary64 arithmetic on the values the aggregation computes

    [seconds / 3600 * 100] is evaluated in IEEE 754 double precision: each
    of the two operations returns the double nearest to the exact result,
    ties to the even significand.  A finite non-negative double is kept as
    a dyadic number [mant * 2 ^ expo]; the operands that occur here (the
    quotient of a duration below [2 ^ 53] by 3600, and a hundred times it)
    are zero or in the normal range, so neither subnormals nor overflow
    arise. *)

Module F64.

Record t : Type := mk { mant : Z; expo : Z }.

(** Nearest integer to [num / den], ties to even ([den > 0]). *)
Definition nearest_even (num den : Z) : Z :=
  let q := num / den in
  let r := num mod den in
  match 2 * r ?= den with
  | Lt => q
  | Gt => q + 1
  | Eq => if Z.even q then q else q + 1
  end.

(** The double nearest to [num / den], for [0 <= num] and [0 < den].
    [big] is the quotient scaled to at least 53 bits, [shift] the number of
    bits above the 53 of a significand: the result is
    [num * 2 ^ K / (den * 2 ^ shift)] rounded to an integer, with the
    exponent [shift - K]. *)
Definition of_ratio (num den : Z) : t :=
  if num =? 0 then mk 0 0
  else
    let K := 53 + Z.log2 den in
    let big := num * 2 ^ K / den in
    let shift := Z.log2 big - 52 in
    mk (nearest_even (num * 2 ^ K) (den * 2 ^ shift)) (shift - K).

(** [x / y] for an integer [x] and a positive integer [y]. *)
Definition div_int (x y : Z) : t := of_ratio x y.

(** [x * k] for a double [x] and a positive integer [k]. *)
Definition mul_int (x : t) (k : Z) : t :=
  if 0 <=? expo x then of_ratio (mant x * k * 2 ^ expo x) 1
  else of_ratio (mant x * k) (2 ^ (- expo x)).

(** [Math.round]: the integer nearest to [x], ties towards plus infinity,
    that is the floor of [x + 1/2]. *)
Definition Math_round (x : t) : Z :=
  if 0 <=? expo x then mant x * 2 ^ expo x
  else (2 * mant x + 2 ^ (- expo x)) / (2 * 2 ^ (- expo x)).

End F64.

(** [Math.round(seconds / 3600 * 100) / 100], kept as the integer number
    of hundredths of an hour (the final division by 100 returns the double
    nearest to that many hundredths). *)
Definition roundHours (seconds : Z) : Z :=
  F64.Math_round (F64.mul_int (F64.div_int seconds 3600) 100).

(** The value defined by that rounding, in the words of the
    specification: round half away from zero. *)
Definition round_half_away_from_zero (x : F64.t) : Z :=
  let a := F64.mk (Z.abs (F64.mant x)) (F64.expo x) in
  Z.sgn (F64.mant x) *
  (if 0 <=? F64.expo a then F64.mant a * 2 ^ F64.expo a
   else (2 * F64.mant a + 2 ^ (- F64.expo a)) / (2 * 2 ^ (- F64.expo a))).

(** ** JavaScript values *)

(** A property of a record received from the remote service. *)
Inductive field (A : Type) : Type :=
| Undefined
| Null
| Val (a : A).
Arguments Undefined {A}.
Arguments Null {A}.
Arguments Val {A} a.

(** A number as the handlers see it. *)
Inductive jsnum : Type :=
| Num (z : Z)
| NaN.

Module Js.

(** [s || dflt] for a string property. *)
Definition str_or (s : field string) (dflt : string) : string :=
  match s with
  | Val v => if String.eqb v "" then dflt else v
  | _ => dflt
  end.

(** Truthiness of a string property. *)
Definition truthy_str (s : field string) : bool :=
  match s with
  | Val v => negb (String.eqb v "")
  | _ => false
  end.

(** [n || 0] for a numeric property. *)
Definition num_or_0 (n : field Z) : Z :=
  match n with Val z => z | _ => 0 end.

(** [ToNumber]: [undefined] is [NaN], [null] is 0. *)
Definition to_number (n : field Z) : jsnum :=
  match n with
  | Undefined => NaN
  | Null => Num 0
  | Val z => Num z
  end.

Definition abs (x : jsnum) : jsnum :=
  match x with Num z => Num (Z.abs z) | NaN => NaN end.

Definition add (x y : jsnum) : jsnum :=
  match x, y with Num a, Num b => Num (a + b) | _, _ => NaN end.

(** [Math.floor(x / k)] for a positive integer [k]: on the integers below
    [2 ^ 53] the rounded quotient has the floor of the exact one. *)
Definition floor_div (x : jsnum) (k : Z) : jsnum :=
  match x with Num z => Num (z / k) | NaN => NaN end.

(** [x % k]: the remainder has the sign of the dividend. *)
Definition rem (x : jsnum) (k : Z) : jsnum :=
  match x with Num z => Num (Z.rem z k) | NaN => NaN end.

Definition num_to_string (x : jsnum) : string :=
  match x with Num z => string_of_Z z | NaN => "NaN" end.

(** Template interpolation of a string property. *)
Definition interp_str (s : field string) : string :=
  match s with
  | Undefined => "undefined"
  | Null => "null"
  | Val v => v
  end.

(** [s.split('T')[0]]: the part of [s] before the first ['T']. *)
Fixpoint before_T (s : string) : string :=
  match s with
  | EmptyString => EmptyString
  | String c r => if Ascii.eqb c "T"%char then EmptyString
                  else String c (before_T r)
  end.

(** [s.startsWith(p)]. *)
Definition startsWith (s p : string) : bool := String.prefix p s.

(** Lowering the ASCII letters: what [toLowerCase()] does on a host whose
    strings are ASCII (used by the sample worlds). *)
Definition lower_char (c : ascii) : ascii :=
  let n := N_of_ascii c in
  if ((65 <=? n) && (n <=? 90))%N then ascii_of_N (n + 32) else c.

Fixpoint ascii_toLowerCase (s : string) : string :=
  match s with
  | EmptyString => EmptyString
  | String c r => String (lower_char c) (ascii_toLowerCase r)
  end.

(** [l.join(sep)]. *)
Fixpoint join (sep : string) (l : list string) : string :=
  match l with
  | [] => ""
  | [x] => x
  | x :: r => x ++ sep ++ join sep r
  end.

(** The names a plain object inherits from [Object.prototype]: reading
    one of them on [{}] yields a function (an object for [__proto__]). *)
Definition inherited_names : list string :=
  ["constructor"; "__defineGetter__"; "__defineSetter__"; "hasOwnProperty";
   "__lookupGetter__"; "__lookupSetter__"; "isPrototypeOf";
   "propertyIsEnumerable"; "toString"; "valueOf"; "__proto__";
   "toLocaleString"].

Definition inherited (k : string) : bool :=
  existsb (String.eqb k) inherited_names.

(** The string of the double nearest to [n / 100], [n] a non-negative
    number of hundredths: the shortest decimal that reads back as that
    double, which is [n / 100] written without trailing zeros. *)
Definition hundredths_to_string (n : Z) : string :=
  let i := n / 100 in
  let f := n mod 100 in
  string_of_Z i ++
  (if f =? 0 then ""
   else "." ++ (if f mod 10 =? 0 then string_of_Z (f / 10) else pad0 2 f)).

(** [`${hours}`] for the hours of a bucket. *)
Definition hours_to_string (hours : jsnum) : string :=
  match hours with
  | Num n => hundredths_to_string n
  | NaN => "NaN"
  end.

(** *** Plain objects as dictionaries *)

Definition obj (V : Type) : Type := list (string * V).

Fixpoint get {V} (o : obj V) (k : string) : option V :=
  match o with
  | [] => None
  | (k', v) :: r => if String.eqb k' k then Some v else get r k
  end.

(** [o[k] = v]: an existing property keeps its place, a new one is added
    last. *)
Fixpoint set {V} (o : obj V) (k : string) (v : V) : obj V :=
  match o with
  | [] => [(k, v)]
  | (k', v') :: r =>
      if String.eqb k' k then (k', v) :: r else (k', v') :: set r k v
  end.

Definition is_digit (c : ascii) : bool :=
  let n := N_of_ascii c in ((48 <=? n) && (n <=? 57))%N.

Fixpoint digits_value (acc : Z) (s : string) : option Z :=
  match s with
  | EmptyString => Some acc
  | String c r =>
      if is_digit c
      then digits_value (10 * acc + Z.of_N (N_of_ascii c) - 48) r
      else None
  end.

(** An array index: the canonical decimal of an integer in
    [0 .. 2 ^ 32 - 2]. *)
Definition array_index (k : string) : option Z :=
  match k with
  | EmptyString => None
  | String c r =>
      if Ascii.eqb c "0"%char && negb (String.eqb r "") then None
      else match digits_value 0 k with
           | Some n => if n <=? 4294967294 then Some n else None
           | None => None
           end
  end.

Section Sort.
Context {A : Type} (le : A -> A -> bool).

Fixpoint insert_sorted (x : A) (l : list A) : list A :=
  match l with
  | [] => [x]
  | y :: r => if le x y then x :: l else y :: insert_sorted x r
  end.

(** A stable sort: equal elements keep their order. *)
Fixpoint stable_sort (l : list A) : list A :=
  match l with
  | [] => []
  | x :: r => insert_sorted x (stable_sort r)
  end.
End Sort.

(** [Object.entries(o)]: own properties, array indices first in ascending
    order, then the other keys in insertion order. *)
Definition entries {V} (o : obj V) : list (string * V) :=
  let idx := List.filter (fun kv => match array_index (fst kv) with
                                   | Some _ => true | None => false end) o in
  let named := List.filter (fun kv => match array_index (fst kv) with
                                     | Some _ => false | None => true end) o in
  let key kv := match array_index (fst kv) with
                | Some n => n | None => 0 end in
  stable_sort (fun a b => key a <=? key b) idx ++ named.

(** [Object.fromEntries(l)]. *)
Definition fromEntries {V} (l : list (string * V)) : obj V :=
  fold_left (fun o kv => set o (fst kv) (snd kv)) l [].

(** [Object.keys(o).length]. *)
Definition keys_length {V} (o : obj V) : Z := Z.of_nat (List.length (entries o)).

End Js.

(** ** Records exchanged with the remote service *)

Record TimeEntry : Type := {
  id : Z;
  description : field string;
  start : field string;
  duration : field Z;
  project_name : field string
}.

Record Project : Type := {
  project_id : Z;
  name : string
}.

(** ** Requests, exceptions and the client monad *)

(** The requests the client issues through axios.  Dates are kept as time
    values instead of their ISO strings. *)
Inductive Request : Type :=
| GET_me
| GET_current
| GET_time_entries (start_date end_date : Z)
| GET_projects (workspaceId : Z)
| POST_time_entries (workspaceId : Z) (description : string)
    (project_id : option Z) (start : Z)
| PATCH_stop (workspaceId entryId : Z)
| DELETE_time_entry (workspaceId entryId : Z).

(** The codes of [ErrorCode] that the handler uses. *)
Inductive ErrorCode : Type :=
| InvalidRequest
| MethodNotFound
| InvalidParams
| InternalError.

Definition code_number (c : ErrorCode) : Z :=
  match c with
  | InvalidRequest => -32600
  | MethodNotFound => -32601
  | InvalidParams => -32602
  | InternalError => -32603
  end.

(** What can be thrown: a zod error with its issues' messages, an axios
    error with the status of the response when there is one, a plain
    [Error] or [TypeError], or an [McpError] (built from a code and a
    message). *)
Inductive Exn : Type :=
| ZodError (issues : list string)
| AxiosError (status : option Z) (message : string)
| JsError (message : string)
| McpError (code : ErrorCode) (message : string).

(** [error.message]; the constructor of [McpError] prefixes the code.  The
    handler never reads the message of a zod error, only its issues. *)
Definition exn_message (e : Exn) : string :=
  match e with
  | ZodError issues => Js.join ", " issues
  | AxiosError _ m => m
  | JsError m => m
  | McpError c m => "MCP error " ++ string_of_Z (code_number c) ++ ": " ++ m
  end.

Inductive Reply (A : Type) : Type :=
| Ok200 (data : A)
| Failed (status : option Z) (message : string).
Arguments Ok200 {A} data.
Arguments Failed {A} status message.

(** The remote service and the host (clock, time zone and
    [String.prototype.toLowerCase]), as the client observes them.  [now] is
    the reading of the clock, a valid time value. *)
Record World : Type := {
  now : Z;
  zone : JSDate.Zone;
  lowerCase : string -> string;
  reply_me : Reply Z;
  reply_current : Reply (option TimeEntry);
  reply_time_entries : Z -> Z -> Reply (option (list TimeEntry));
  reply_projects : Z -> Reply (option (list Project));
  reply_create : Z -> string -> option Z -> Z -> Reply TimeEntry;
  reply_stop : Z -> Z -> Reply TimeEntry;
  reply_delete : Z -> Z -> Reply unit
}.

(** The mutable part: the memoized workspace and the requests sent so far
    (most recent first). *)
Record ClientState : Type := {
  workspaceId : option Z;
  sent : list Request
}.

Inductive Outcome (A : Type) : Type :=
| Return (a : A)
| Throw (e : Exn).
Arguments Return {A} a.
Arguments Throw {A} e.

Definition M (A : Type) : Type := ClientState -> Outcome A * ClientState.

Definition ret {A} (a : A) : M A := fun st => (Return a, st).

Definition throw {A} (e : Exn) : M A := fun st => (Throw e, st).

Definition bind {A B} (m : M A) (k : A -> M B) : M B :=
  fun st => match m st with
            | (Return a, st') => k a st'
            | (Throw e, st') => (Throw e, st')
            end.

Definition try_catch {A} (m : M A) (h : Exn -> M A) : M A :=
  fun st => match m st with
            | (Return a, st') => (Return a, st')
            | (Throw e, st') => h e st'
            end.

Notation "x <- m ;; k" := (bind m (fun x => k))
  (at level 61, m at next level, right associativity).

(** An axios call: the request is recorded, a non-2xx reply is thrown. *)
Definition call {A} (r : Request) (reply : Reply A) : M A :=
  fun st =>
    let st' := {| workspaceId := workspaceId st; sent := r :: sent st |} in
    match reply with
    | Ok200 data => (Return data, st')
    | Failed status message => (Throw (AxiosError status message), st')
    end.

Definition set_workspaceId (w : Z) : M unit :=
  fun st => (Return tt, {| workspaceId := Some w; sent := sent st |}).

Definition get_workspaceId_field : M (option Z) :=
  fun st => (Return (workspaceId st), st).

Definition nl : string := String (ascii_of_nat 10) EmptyString.
Definition dq : string := String (ascii_of_nat 34) EmptyString.

(** ** class TogglClient *)

Record WeeklySummary : Type := {
  week_starting : string;
  week_ending : string;
  total_hours : Z;                (* hundredths of an hour *)
  daily_breakdown : Js.obj jsnum;     (* date -> hundredths *)
  project_breakdown : Js.obj jsnum;   (* project -> hundredths *)
  entry_count : Z;
  entries : list TimeEntry
}.

(** The message of the [TypeError] raised by reading a property of
    [undefined] or [null] (as Node words it). *)
Definition cannot_read (of_what prop : string) : Exn :=
  JsError ("Cannot read properties of " ++ of_what
             ++ " (reading '" ++ prop ++ "')").

(** The value of a bucket: the seconds added so far, or the text that
    [+] produces once an operand is not a number. *)
Inductive dval : Type :=
| DNum (seconds : Z)
| DText.

(** [dict[key] = (dict[key] || 0) + duration] on a plain [{}].  An own
    number is added to.  An own text, or a member inherited from
    [Object.prototype], is truthy and not a number: [+] concatenates, and
    the text is stored, except under [__proto__], whose setter ignores a
    string.  Any other key starts from 0. *)
Definition add_to (dict : Js.obj dval) (key : string) (duration : Z)
  : Js.obj dval :=
  match Js.get dict key with
  | Some (DNum v) => Js.set dict key (DNum (v + duration))
  | Some DText => Js.set dict key DText
  | None =>
      if Js.inherited key
      then if String.eqb key "__proto__" then dict else Js.set dict key DText
      else Js.set dict key (DNum (0 + duration))
  end.

(** [Math.round(seconds / 3600 * 100) / 100] of a bucket: a text is NaN
    as a number. *)
Definition roundBucket (v : dval) : jsnum :=
  match v with
  | DNum seconds => Num (roundHours seconds)
  | DText => NaN
  end.

(** [(a, b) => b[1] - a[1]]: [a] may stay before [b] unless the difference
    is positive; a NaN difference counts as 0.  With a NaN among the hours
    the comparator is not a consistent one and the order the host's sort
    leaves is its own; the sort below then gives one possible order, and
    nothing is stated of the order in that case. *)
Definition hours_not_below (a b : string * jsnum) : bool :=
  match snd a, snd b with
  | Num x, Num y => y <=? x
  | _, _ => true
  end.

(** The loop [for (const entry of entries)] of [getWeeklyEntries], on the
    three accumulators. *)
Fixpoint weekly_loop (entries : list TimeEntry) (totalSeconds : Z)
    (dailyTotals projectTotals : Js.obj dval)
  : M (Z * Js.obj dval * Js.obj dval) :=
  match entries with
  | [] => ret (totalSeconds, dailyTotals, projectTotals)
  | entry :: rest =>
      let duration := Z.abs (Js.num_or_0 (duration entry)) in
      let totalSeconds := totalSeconds + duration in
      match start entry with
      | Val s =>
          let date := Js.before_T s in
          let dailyTotals := add_to dailyTotals date duration in
          let projectName := Js.str_or (project_name entry) "No Project" in
          let projectTotals := add_to projectTotals projectName duration in
          weekly_loop rest totalSeconds dailyTotals projectTotals
      | Undefined => throw (cannot_read "undefined" "split")
      | Null => throw (cannot_read "null" "split")
      end
  end.

(** [date.toISOString().split('T')[0]]; an Invalid Date throws a
    RangeError. *)
Definition toISODate (date : option Z) : M string :=
  match date with
  | Some t => ret (JSDate.isoDate t)
  | None => throw (JsError "Invalid time value")
  end.

(** [String([key, hours])], the key of the default [sort()]. *)
Definition pair_to_string (kv : string * jsnum) : string :=
  fst kv ++ "," ++ Js.hours_to_string (snd kv).

Section Client.

Variable w : World.

Definition getWorkspaceId : M Z :=
  cached <- get_workspaceId_field ;;
  match cached with
  | Some ws => if ws =? 0 then
                 ws' <- call GET_me (reply_me w) ;;
                 _ <- set_workspaceId ws' ;;
                 ret ws'
               else ret ws
  | None =>
      ws' <- call GET_me (reply_me w) ;;
      _ <- set_workspaceId ws' ;;
      ret ws'
  end.

Definition getCurrentEntry : M (option TimeEntry) :=
  call GET_current (reply_current w).

Definition startTimer (description : string) (projectId : option Z)
  : M TimeEntry :=
  workspaceId <- getWorkspaceId ;;
  call (POST_time_entries workspaceId description projectId (now w))
       (reply_create w workspaceId description projectId (now w)).

Definition stopTimer : M TimeEntry :=
  current <- getCurrentEntry ;;
  match current with
  | None => throw (JsError "No timer is currently running")
  | Some current =>
      workspaceId <- getWorkspaceId ;;
      call (PATCH_stop workspaceId (id current))
           (reply_stop w workspaceId (id current))
  end.

Definition getTodayEntries : M (option (list TimeEntry)) :=
  _ <- getWorkspaceId ;;
  let today := now w in
  let today := JSDate.setHours (zone w) today 0 0 0 0 in
  match today with
  | Some today =>
      call (GET_time_entries today (now w))
           (reply_time_entries w today (now w))
  | None => throw (JsError "Invalid time value")
  end.

Definition getProjects : M (option (list Project)) :=
  workspaceId <- getWorkspaceId ;;
  call (GET_projects workspaceId) (reply_projects w workspaceId).

Definition deleteEntry (entryId : Z) : M string :=
  workspaceId <- getWorkspaceId ;;
  _ <- call (DELETE_time_entry workspaceId entryId)
            (reply_delete w workspaceId entryId) ;;
  ret ("Deleted entry " ++ string_of_Z entryId).

(** [toISOString()] of an Invalid Date throws a RangeError, before the
    request is made. *)
Definition getEntriesForDateRange (startDate endDate : option Z)
  : M (option (list TimeEntry)) :=
  match startDate, endDate with
  | Some startDate, Some endDate =>
      call (GET_time_entries startDate endDate)
           (reply_time_entries w startDate endDate)
  | _, _ => throw (JsError "Invalid time value")
  end.

Definition getWeeklyEntries (weekOffset : Z) : M WeeklySummary :=
  let today := now w in
  let monday := weekMonday (zone w) today weekOffset in
  let sunday := weekSunday (zone w) monday in
  data <- getEntriesForDateRange monday sunday ;;
  match data with
  | None => throw (JsError "entries is not iterable")
  | Some entries =>
      acc <- weekly_loop entries 0 [] [] ;;
      let '(totalSeconds, dailyTotals, projectTotals) := acc in
      week_starting <- toISODate monday ;;
      week_ending <- toISODate sunday ;;
      ret {|
        week_starting := week_starting;
        week_ending := week_ending;
        total_hours := roundHours totalSeconds;
        daily_breakdown :=
          Js.fromEntries
            (Js.stable_sort
               (fun a b => String.leb (pair_to_string a) (pair_to_string b))
               (List.map (fun ds => (fst ds, roundBucket (snd ds)))
                         (Js.entries dailyTotals)));
        project_breakdown :=
          Js.fromEntries
            (Js.stable_sort hours_not_below
               (List.map (fun ps => (fst ps, roundBucket (snd ps)))
                         (Js.entries projectTotals)));
        entry_count := Z.of_nat (List.length entries);
        entries := entries
      |}
  end.

End Client.

(** ** Tool arguments and the zod schemas *)

(** The arguments of a request, a JSON value.  Numbers are integers here:
    the identifiers and week offsets the tools are specified for. *)
#[local] Set Warnings "-register-all".
Inductive json : Type :=
| JNull
| JBool (b : bool)
| JNum (z : Z)
| JStr (s : string)
| JArr (l : list json)
| JObj (o : list (string * json)).

Module Zod.

(** The name zod gives to the type of a received value. *)
Definition received (v : option json) : string :=
  match v with
  | None => "undefined"
  | Some JNull => "null"
  | Some (JBool _) => "boolean"
  | Some (JNum _) => "number"
  | Some (JStr _) => "string"
  | Some (JArr _) => "array"
  | Some (JObj _) => "object"
  end.

Definition invalid_type (expected : string) (v : option json) : string :=
  match v with
  | None => "Required"
  | _ => "Expected " ++ expected ++ ", received " ++ received v
  end.

(** Parsing a property yields a value or the messages of its issues. *)
Definition string_ (v : option json) : string + list string :=
  match v with
  | Some (JStr s) => inl s
  | _ => inr [invalid_type "string" v]
  end.

Definition number_ (v : option json) : Z + list string :=
  match v with
  | Some (JNum z) => inl z
  | _ => inr [invalid_type "number" v]
  end.

Definition optional {A} (p : option json -> A + list string)
    (v : option json) : option A + list string :=
  match v with
  | None => inl None
  | _ => match p v with inl a => inl (Some a) | inr e => inr e end
  end.

Definition default {A} (p : option json -> option A + list string)
    (d : A) (v : option json) : A + list string :=
  match v with
  | None => inl d
  | _ => match p v with
         | inl (Some a) => inl a
         | inl None => inl d
         | inr e => inr e
         end
  end.

Definition issues {A} (r : A + list string) : list string :=
  match r with inl _ => [] | inr e => e end.

(** The last property of that name wins, as in [JSON.parse]. *)
Fixpoint prop (o : list (string * json)) (k : string) : option json :=
  match o with
  | [] => None
  | (k', v) :: r =>
      match prop r k with
      | Some v' => Some v'
      | None => if String.eqb k' k then Some v else None
      end
  end.

End Zod.

(** [z.object] reads the properties of its shape and nothing else: keys
    outside the shape are stripped (neither [strict()] nor [passthrough()]
    is asked for), and the issues of all properties are reported
    together. *)
Definition StartTimerSchema_parse (args : option json)
  : M (string * option string) :=
  match args with
  | Some (JObj o) =>
      let description := Zod.string_ (Zod.prop o "description") in
      let project_name :=
        Zod.optional Zod.string_ (Zod.prop o "project_name") in
      match description, project_name with
      | inl d, inl p => ret (d, p)
      | _, _ =>
          throw (ZodError (Zod.issues description ++ Zod.issues project_name)%list)
      end
  | _ => throw (ZodError [Zod.invalid_type "object" args])
  end.

Definition DeleteEntrySchema_parse (args : option json) : M Z :=
  match args with
  | Some (JObj o) =>
      match Zod.number_ (Zod.prop o "entry_id") with
      | inl n => ret n
      | inr e => throw (ZodError e)
      end
  | _ => throw (ZodError [Zod.invalid_type "object" args])
  end.

Definition WeeklyEntriesSchema_parse (args : option json) : M Z :=
  match args with
  | Some (JObj o) =>
      match Zod.default (Zod.optional Zod.number_) 0
              (Zod.prop o "week_offset") with
      | inl n => ret n
      | inr e => throw (ZodError e)
      end
  | _ => throw (ZodError [Zod.invalid_type "object" args])
  end.

(** ** The handler of [CallToolRequestSchema] *)

(** The [{h}h {m}m] pair of a duration in seconds. *)
Definition hours_of (duration : jsnum) : jsnum := Js.floor_div duration 3600.
Definition minutes_of (duration : jsnum) : jsnum :=
  Js.floor_div (Js.rem duration 3600) 60.

Definition h_m (duration : jsnum) : string :=
  Js.num_to_string (hours_of duration) ++ "h "
    ++ Js.num_to_string (minutes_of duration) ++ "m".

(** The line of one entry in the daily breakdown of the weekly tools. *)
Definition weekly_entry_line (e : TimeEntry) : string :=
  let duration := Z.abs (Js.num_or_0 (duration e)) in
  let h := duration / 3600 in
  let m := Z.rem duration 3600 / 60 in
  let timeStr :=
    if 0 <? h
    then string_of_Z h ++ "h" ++ (if 0 <? m then " " ++ string_of_Z m ++ "m" else "")
    else string_of_Z m ++ "m" in
  "    •" ++ " " ++ Js.str_or (description e) "No description"
    ++ " (" ++ timeStr ++ ")".

Definition starts_on (date : string) (e : TimeEntry) : bool :=
  Js.truthy_str (start e) &&
  match start e with Val s => Js.startsWith s date | _ => false end.

Section Handler.

Variable w : World.

Definition toggl_start (args : option json) : M string :=
  parsed <- StartTimerSchema_parse args ;;
  let '(description, project_name) := parsed in
  let named := match project_name with
               | Some p => negb (String.eqb p "")
               | None => false
               end in
  projectId <-
    (match project_name with
     | Some p =>
         if named then
           projects <- getProjects w ;;
           match projects with
           | None => throw (cannot_read "null" "find")
           | Some projects =>
               ret (option_map project_id
                      (List.find
                         (fun q => String.eqb (lowerCase w (name q))
                                              (lowerCase w p))
                         projects))
           end
         else ret None
     | None => ret None
     end) ;;
  entry <- startTimer w description projectId ;;
  ret ("Started timer: " ++ dq ++ description ++ dq
        ++ (match project_name with
            | Some p => if named then " on project " ++ dq ++ p ++ dq else ""
            | None => ""
            end)
        ++ nl ++ "Entry ID: " ++ string_of_Z (id entry)).

Definition toggl_stop : M string :=
  entry <- stopTimer w ;;
  let duration := Js.abs (Js.to_number (duration entry)) in
  let hours := hours_of duration in
  let minutes := minutes_of duration in
  ret ("Stopped timer: " ++ dq ++ Js.interp_str (description entry) ++ dq
        ++ nl ++ "Duration: " ++ Js.num_to_string hours ++ "h "
        ++ Js.num_to_string minutes ++ "m").

Definition toggl_current : M string :=
  current <- getCurrentEntry w ;;
  match current with
  | None => ret "No timer is currently running"
  | Some current =>
      let duration :=
        Js.abs (Js.add (Js.to_number (duration current))
                       (Num (now w / 1000))) in
      let hours := hours_of duration in
      let minutes := minutes_of duration in
      ret ("Currently tracking: " ++ dq ++ Js.interp_str (description current)
            ++ dq ++ nl ++ "Running for: " ++ Js.num_to_string hours ++ "h "
            ++ Js.num_to_string minutes ++ "m")
  end.

(** [entries.reduce((sum, entry) => sum + Math.abs(entry.duration), 0)]. *)
Definition today_total (entries : list TimeEntry) : jsnum :=
  fold_left (fun sum entry => Js.add sum (Js.abs (Js.to_number (duration entry))))
            entries (Num 0).

Definition today_line (e : TimeEntry) : string :=
  let duration := Js.abs (Js.to_number (duration e)) in
  let h := hours_of duration in
  let m := minutes_of duration in
  "- " ++ Js.str_or (description e) "No description"
    ++ " (" ++ Js.num_to_string h ++ "h " ++ Js.num_to_string m ++ "m)".

Definition toggl_today : M string :=
  entries <- getTodayEntries w ;;
  match entries with
  | None | Some [] => ret "No time entries today"
  | Some entries =>
      let totalSeconds := today_total entries in
      let totalHours := hours_of totalSeconds in
      let totalMinutes := minutes_of totalSeconds in
      let entryList := Js.join nl (List.map today_line entries) in
      ret ("Today's entries:" ++ nl ++ entryList ++ nl ++ nl ++ "Total: "
            ++ Js.num_to_string totalHours ++ "h "
            ++ Js.num_to_string totalMinutes ++ "m")
  end.

Definition toggl_projects : M string :=
  projects <- getProjects w ;;
  match projects with
  | None | Some [] => ret "No projects found"
  | Some projects =>
      let projectList :=
        Js.join nl
          (List.map (fun p => "- " ++ name p ++ " (ID: "
                                ++ string_of_Z (project_id p) ++ ")")
                    projects) in
      ret ("Projects:" ++ nl ++ projectList)
  end.

Definition toggl_delete (args : option json) : M string :=
  entry_id <- DeleteEntrySchema_parse args ;;
  deleteEntry w entry_id.

End Handler.

Section WeeklyTools.

Variable w : World.

Definition toggl_weekly (args : option json) : M string :=
  week_offset <- WeeklyEntriesSchema_parse args ;;
  summary <- getWeeklyEntries w week_offset ;;
  let weekLabel :=
    if week_offset =? 0 then "Current"
    else if week_offset =? -1 then "Last"
    else string_of_Z (Z.abs week_offset) ++ " weeks ago" in
  let text := weekLabel ++ " Week Summary (" ++ week_starting summary
                ++ " to " ++ week_ending summary ++ ")" ++ nl in
  let text := text ++ "Total: "
                ++ Js.hundredths_to_string (total_hours summary)
                ++ " hours" ++ nl ++ nl in
  let text :=
    if 0 <? Js.keys_length (daily_breakdown summary) then
      let text := text ++ "Daily Breakdown:" ++ nl in
      let text :=
        fold_left
          (fun text dh =>
             let '(date, hours) := dh in
             let text := text ++ "  " ++ date ++ ": "
                           ++ Js.hours_to_string hours ++ "h" ++ nl in
             let dayEntries := List.filter (starts_on date) (entries summary) in
             if (0 <? List.length dayEntries)%nat then
               let entrySummary :=
                 Js.join nl (List.map weekly_entry_line dayEntries) in
               text ++ entrySummary ++ nl
             else text)
          (Js.entries (daily_breakdown summary)) text in
      text ++ nl
    else text in
  let text :=
    if 0 <? Js.keys_length (project_breakdown summary) then
      let text := text ++ "Project Breakdown:" ++ nl in
      fold_left
        (fun text ph =>
           let '(project, hours) := ph in
           text ++ "  " ++ project ++ ": "
             ++ Js.hours_to_string hours ++ "h" ++ nl)
        (Js.entries (project_breakdown summary)) text
    else text in
  let text := text ++ nl ++ "Total entries: "
                ++ string_of_Z (entry_count summary) in
  ret text.

Definition toggl_last_week : M string :=
  summary <- getWeeklyEntries w (-1) ;;
  let text := "Last Week Summary (" ++ week_starting summary
                ++ " to " ++ week_ending summary ++ ")" ++ nl in
  let text := text ++ "Total: "
                ++ Js.hundredths_to_string (total_hours summary)
                ++ " hours" ++ nl ++ nl in
  let text :=
    if 0 <? Js.keys_length (daily_breakdown summary) then
      let text := text ++ "Daily Breakdown:" ++ nl in
      let text :=
        fold_left
          (fun text dh =>
             let '(date, hours) := dh in
             let text := text ++ "  " ++ date ++ ": "
                           ++ Js.hours_to_string hours ++ "h" ++ nl in
             let dayEntries := List.filter (starts_on date) (entries summary) in
             if (0 <? List.length dayEntries)%nat then
               let entrySummary :=
                 Js.join nl (List.map weekly_entry_line dayEntries) in
               text ++ entrySummary ++ nl
             else text)
          (Js.entries (daily_breakdown summary)) text in
      text ++ nl
    else text in
  let text :=
    if 0 <? Js.keys_length (project_breakdown summary) then
      let text := text ++ "Project Breakdown:" ++ nl in
      fold_left
        (fun text ph =>
           let '(project, hours) := ph in
           text ++ "  " ++ project ++ ": "
             ++ Js.hours_to_string hours ++ "h" ++ nl)
        (Js.entries (project_breakdown summary)) text
    else text in
  let text := text ++ nl ++ "Total entries: "
                ++ string_of_Z (entry_count summary) in
  ret text.

(** The [switch] on the tool name, inside the [try]. *)
Definition dispatch (name : string) (args : option json) : M string :=
  if String.eqb name "toggl_start" then toggl_start w args
  else if String.eqb name "toggl_stop" then toggl_stop w
  else if String.eqb name "toggl_current" then toggl_current w
  else if String.eqb name "toggl_today" then toggl_today w
  else if String.eqb name "toggl_projects" then toggl_projects w
  else if String.eqb name "toggl_delete" then toggl_delete w args
  else if String.eqb name "toggl_weekly" then toggl_weekly args
  else if String.eqb name "toggl_last_week" then toggl_last_week
  else throw (McpError MethodNotFound ("Unknown tool: " ++ name)).

(** The [catch]: every exception leaves the handler as an [McpError]. *)
Definition translate (error : Exn) : M string :=
  match error with
  | ZodError issues =>
      throw (McpError InvalidParams
               ("Invalid parameters: " ++ Js.join ", " issues))
  | AxiosError (Some 401) _ =>
      throw (McpError InvalidRequest
               "Invalid Toggl API key. Check your TOGGL_API_KEY environment variable.")
  | _ =>
      throw (McpError InternalError
               (let m := exn_message error in
                if String.eqb m "" then "An unexpected error occurred" else m))
  end.

Definition handle_call (name : string) (args : option json) : M string :=
  try_catch (dispatch name args) translate.

End WeeklyTools.

(** A fresh client: no workspace memoized, nothing sent. *)
Definition fresh : ClientState := {| workspaceId := None; sent := [] |}.

(** * Definitions used by the statements *)

(** ** Spec-side quantities *)

(** The hours of a number of seconds as the specification words them:
    [seconds / 3600 * 100] (the binary64 product) rounded half away from
    zero, in hundredths of an hour. *)
Definition spec_hours (seconds : Z) : Z :=
  round_half_away_from_zero (F64.mul_int (F64.div_int seconds 3600) 100).

(** [abs(duration)] of an entry whose duration is a number or [null]. *)
Definition abs_duration (e : TimeEntry) : Z :=
  match duration e with Val z => Z.abs z | _ => 0 end.

Definition duration_absent (e : TimeEntry) : bool :=
  match duration e with Undefined => true | _ => false end.

Definition sumZ (l : list Z) : Z := fold_right Z.add 0 l.

(** The seconds held by a bucket (none for a text). *)
Definition seconds_of (v : dval) : Z :=
  match v with DNum z => z | DText => 0 end.

(** The sum of the seconds of a dictionary. *)
Definition total (o : Js.obj dval) : Z :=
  sumZ (List.map (fun kv => seconds_of (snd kv)) o).

Definition keys {V} (o : Js.obj V) : list string := List.map fst o.

(** Every bucket holds a non-negative number of seconds. *)
Definition nonneg (o : Js.obj dval) : Prop :=
  Forall (fun kv => exists z, snd kv = DNum z /\ 0 <= z) o.

(** The hours of each bucket of a dictionary of seconds. *)
Definition rounded (o : Js.obj dval) : Js.obj jsnum :=
  List.map (fun kv => (fst kv, roundBucket (snd kv))) o.

(** The sum of the hour values of a breakdown, each taken as the number
    of hundredths it denotes; NaN as soon as one of them is NaN. *)
Definition hours_sum (o : Js.obj jsnum) : jsnum :=
  fold_right (fun kv acc => Js.add (snd kv) acc) (Num 0) o.

Definition entry_date (e : TimeEntry) : string :=
  match start e with Val s => Js.before_T s | _ => "" end.

Definition entry_project (e : TimeEntry) : string :=
  Js.str_or (project_name e) "No Project".

(** Neither key of the entry is the name of a member of
    [Object.prototype]. *)
Definition plain_keys (e : TimeEntry) : Prop :=
  Js.inherited (entry_date e) = false /\
  Js.inherited (entry_project e) = false.

(** The seconds of the entries whose key is [k]. *)
Definition bucket_seconds (key : TimeEntry -> string) (k : string)
    (entries : list TimeEntry) : Z :=
  sumZ (List.map abs_duration
          (List.filter (fun e => String.eqb (key e) k) entries)).

Definition has_key (key : TimeEntry -> string) (k : string)
    (entries : list TimeEntry) : bool :=
  existsb (fun e => String.eqb (key e) k) entries.

(** What [add_to] makes of the bucket found under [key]. *)
Definition bump (key : string) (cur : option dval) (d : Z) : option dval :=
  match cur with
  | Some (DNum v) => Some (DNum (v + d))
  | Some DText => Some DText
  | None =>
      if Js.inherited key
      then if String.eqb key "__proto__" then None else Some DText
      else Some (DNum (0 + d))
  end.

(** The bucket of [k] after the loop has run over [entries], from the
    bucket [cur]. *)
Definition bumps (key : TimeEntry -> string) (k : string)
    (entries : list TimeEntry) (cur : option dval) : option dval :=
  fold_left (fun cur e => if String.eqb (key e) k
                          then bump k cur (abs_duration e) else cur)
            entries cur.

(** ** Time zones and week windows *)

(** The local time [l] is not skipped: read back, it is [l]. *)
Definition exists_at (z : JSDate.Zone) (l : Z) : Prop :=
  JSDate.LocalTime z (JSDate.UTC z l) = l.

(** The local time [l], if skipped, is moved within its day. *)
Definition keeps_day (z : JSDate.Zone) (l : Z) : Prop :=
  JSDate.Day (JSDate.LocalTime z (JSDate.UTC z l)) = JSDate.Day l.

(** The clocks do not change at the local time [l]. *)
Definition no_change_at (z : JSDate.Zone) (l : Z) : Prop :=
  JSDate.offset_at_local z (l - 1) = JSDate.offset_at_local z l.

(** The local day number of the Monday of the window. *)
Definition mondayDay (z : JSDate.Zone) (today off : Z) : Z :=
  JSDate.Day (JSDate.LocalTime z today) + daysToMonday z today + off * 7.

(** The local times the window passes through exist in the zone: the
    Monday at the time of day of [today] and the Sunday at 00:00 stay on
    their day, the Monday at 00:00:00.000 and the Sunday at 23:59:59.999
    are not skipped. *)
Definition window_regular (z : JSDate.Zone) (today off : Z) : Prop :=
  let d := mondayDay z today off in
  keeps_day z (JSDate.MakeDate d
                 (JSDate.TimeWithinDay (JSDate.LocalTime z today))) /\
  exists_at z (JSDate.MakeDate d 0) /\
  keeps_day z (JSDate.MakeDate (d + 6) 0) /\
  exists_at z (JSDate.MakeDate (d + 6) 86399999).

(** The local time [l] is read as a time value, within 100,000,000 days
    of the epoch. *)
Definition in_range (z : JSDate.Zone) (l : Z) : Prop :=
  Z.abs (JSDate.UTC z l) <= JSDate.maxTime.

(** The four local times the window passes through are read as time
    values, so that no date of the computation is invalid. *)
Definition window_in_range (z : JSDate.Zone) (today off : Z) : Prop :=
  let d := mondayDay z today off in
  in_range z (JSDate.MakeDate d
                (JSDate.TimeWithinDay (JSDate.LocalTime z today))) /\
  in_range z (JSDate.MakeDate d 0) /\
  in_range z (JSDate.MakeDate (d + 6) 0) /\
  in_range z (JSDate.MakeDate (d + 6) 86399999).

(** The window of the weekly aggregation, when both dates are valid. *)
Definition week_window (z : JSDate.Zone) (today off : Z) : option (Z * Z) :=
  match weekMonday z today off with
  | Some monday =>
      match weekSunday z (Some monday) with
      | Some sunday => Some (monday, sunday)
      | None => None
      end
  | None => None
  end.

(** Asia/Tehran around 22 March 2010 (clocks put forward at local
    midnight, 20:30 UTC on the 21st) and around 22 September 2014 (clocks
    put back at local midnight, 19:30 UTC on the 21st).  Both days were
    Mondays. *)
Definition tehran_2010 : JSDate.Zone :=
  JSDate.changing_zone 12600000 16200000 1269203400000.

Definition tehran_2014 : JSDate.Zone :=
  JSDate.changing_zone 16200000 12600000 1411327800000.

(** America/New_York around 1 November 2026: clocks put back from four
    to five hours behind UTC at 06:00 UTC. *)
Definition new_york_2026 : JSDate.Zone :=
  JSDate.changing_zone (-14400000) (-18000000) 1793512800000.

Definition start_absent (e : TimeEntry) : bool :=
  match start e with Val _ => false | _ => true end.

(** The arguments of start reduced to the keys of its schema. *)
Definition start_args (d : string) (p : option string) : option json :=
  Some (JObj (("description", JStr d)
              :: match p with
                 | Some s => [("project_name", JStr s)]
                 | None => []
                 end)).

Definition delete_args (n : Z) : option json :=
  Some (JObj [("entry_id", JNum n)]).

(** ** Sample entries and worlds *)

Definition running_entry : TimeEntry := {|
  id := 11; description := Val "review"; start := Val "2026-11-02T21:00:00Z";
  duration := Val (-1793653200); project_name := Undefined |}.

Definition stopped_entry : TimeEntry := {|
  id := 12; description := Val "write"; start := Val "2026-11-02T09:00:00Z";
  duration := Val 3661; project_name := Val "Docs" |}.

Definition today_world : World := {|
  now := 1793657600000;
  zone := JSDate.fixed_zone 0;
  lowerCase := Js.ascii_toLowerCase;
  reply_me := Ok200 77;
  reply_current := Ok200 (Some running_entry);
  reply_time_entries := fun _ _ => Ok200 (Some [running_entry; stopped_entry]);
  reply_projects := fun _ => Ok200 (Some []);
  reply_create := fun _ _ _ _ => Ok200 running_entry;
  reply_stop := fun _ _ => Ok200 running_entry;
  reply_delete := fun _ _ => Ok200 tt
|}.

Definition quiet_world : World := {|
  now := 1793657600000;
  zone := JSDate.fixed_zone 0;
  lowerCase := Js.ascii_toLowerCase;
  reply_me := Ok200 77;
  reply_current := Ok200 None;
  reply_time_entries := fun _ _ => Ok200 (Some []);
  reply_projects := fun _ => Ok200 (Some []);
  reply_create := fun _ _ _ _ => Failed (Some 500) "Request failed with status code 500";
  reply_stop := fun _ _ => Failed (Some 500) "Request failed with status code 500";
  reply_delete := fun _ _ => Ok200 tt
|}.

Definition short_entry (n : Z) (day project : string) : TimeEntry := {|
  id := n; description := Val "stand-up";
  start := Val (day ++ "T09:00:00+00:00");
  duration := Val 20; project_name := Val project |}.

Definition five_days : World := {|
  now := 1793657600000;
  zone := JSDate.fixed_zone 0;
  lowerCase := Js.ascii_toLowerCase;
  reply_me := Ok200 77;
  reply_current := Ok200 None;
  reply_time_entries := fun _ _ =>
    Ok200 (Some [short_entry 1 "2026-11-02" "A"; short_entry 2 "2026-11-03" "B";
                 short_entry 3 "2026-11-04" "C"; short_entry 4 "2026-11-05" "D";
                 short_entry 5 "2026-11-06" "E"]);
  reply_projects := fun _ => Ok200 (Some []);
  reply_create := fun _ _ _ _ => Ok200 running_entry;
  reply_stop := fun _ _ => Ok200 running_entry;
  reply_delete := fun _ _ => Ok200 tt
|}.

Definition five_days_summary : WeeklySummary := {|
  week_starting := "2026-11-02";
  week_ending := "2026-11-08";
  total_hours := 3;
  daily_breakdown :=
    [("2026-11-02", Num 1); ("2026-11-03", Num 1); ("2026-11-04", Num 1);
     ("2026-11-05", Num 1); ("2026-11-06", Num 1)];
  project_breakdown :=
    [("A", Num 1); ("B", Num 1); ("C", Num 1); ("D", Num 1); ("E", Num 1)];
  entry_count := 5;
  entries := [short_entry 1 "2026-11-02" "A"; short_entry 2 "2026-11-03" "B";
              short_entry 3 "2026-11-04" "C"; short_entry 4 "2026-11-05" "D";
              short_entry 5 "2026-11-06" "E"]
|}.

(** An entry of a project named like a member of [Object.prototype]. *)
Definition constructor_entry : TimeEntry := {|
  id := 14; description := Val "refactor"; start := Val "2026-11-02T09:00:00Z";
  duration := Val 3600; project_name := Val "constructor" |}.

Definition constructor_world : World := {|
  now := 1793657600000;
  zone := JSDate.fixed_zone 0;
  lowerCase := Js.ascii_toLowerCase;
  reply_me := Ok200 77;
  reply_current := Ok200 None;
  reply_time_entries := fun _ _ => Ok200 (Some [constructor_entry]);
  reply_projects := fun _ => Ok200 (Some []);
  reply_create := fun _ _ _ _ => Ok200 running_entry;
  reply_stop := fun _ _ => Ok200 running_entry;
  reply_delete := fun _ _ => Ok200 tt
|}.

Definition entry_without_start : TimeEntry := {|
  id := 13; description := Val "call"; start := Undefined;
  duration := Val 60; project_name := Null |}.

Definition missing_start_world : World := {|
  now := 1793657600000;
  zone := JSDate.fixed_zone 0;
  lowerCase := Js.ascii_toLowerCase;
  reply_me := Ok200 77;
  reply_current := Ok200 None;
  reply_time_entries := fun _ _ =>
    Ok200 (Some [stopped_entry; entry_without_start]);
  reply_projects := fun _ => Ok200 (Some []);
  reply_create := fun _ _ _ _ => Ok200 running_entry;
  reply_stop := fun _ _ => Ok200 running_entry;
  reply_delete := fun _ _ => Ok200 tt
|}.


(** * Definitions used by the further properties *)

Definition is_get (r : Request) : Prop :=
  match r with
  | GET_me | GET_current | GET_time_entries _ _ | GET_projects _ => True
  | _ => False
  end.

Definition not_mcp_nor_zod (e : Exn) : Prop :=
  match e with
  | AxiosError _ _ | JsError _ => True
  | _ => False
  end.

Definition not_mcp (e : Exn) : Prop :=
  match e with McpError _ _ => False | _ => True end.

(** A computation that only sends requests satisfying [Q] and only throws
    exceptions satisfying [P]. *)
Definition confined {A} (Q : Request -> Prop) (P : Exn -> Prop) (m : M A)
  : Prop :=
  forall st out st',
    m st = (out, st') ->
    (exists new, sent st' = (new ++ sent st)%list /\ Forall Q new) /\
    (forall e, out = Throw e -> P e).

Record ToolProperty : Type := {
  property_name : string;
  property_type : string;
  property_description : string
}.

Record Tool : Type := {
  tool_name : string;
  tool_description : string;
  properties : list ToolProperty;
  required : list string
}.

(** The answer to [ListToolsRequestSchema]. *)
Definition ListTools : list Tool := [
  {| tool_name := "toggl_start";
     tool_description := "Start a new time tracking entry";
     properties :=
       [{| property_name := "description"; property_type := "string";
           property_description := "Description of the task" |};
        {| property_name := "project_name"; property_type := "string";
           property_description := "Optional project name" |}];
     required := ["description"] |};
  {| tool_name := "toggl_stop";
     tool_description := "Stop the currently running timer";
     properties := []; required := [] |};
  {| tool_name := "toggl_current";
     tool_description := "Get the currently running time entry";
     properties := []; required := [] |};
  {| tool_name := "toggl_today";
     tool_description := "Get today's time entries with total duration";
     properties := []; required := [] |};
  {| tool_name := "toggl_projects";
     tool_description := "List all projects in the workspace";
     properties := []; required := [] |};
  {| tool_name := "toggl_delete";
     tool_description := "Delete a time entry by ID";
     properties :=
       [{| property_name := "entry_id"; property_type := "number";
           property_description := "ID of the time entry to delete" |}];
     required := ["entry_id"] |};
  {| tool_name := "toggl_weekly";
     tool_description :=
       "Get weekly time tracking summary with total hours, daily/project breakdowns";
     properties :=
       [{| property_name := "week_offset"; property_type := "number";
           property_description :=
             "Number of weeks before current week (0 = current, -1 = last week)" |}];
     required := [] |};
  {| tool_name := "toggl_last_week";
     tool_description := "Get last week's time tracking summary";
     properties := []; required := [] |}
].

Definition any_request (r : Request) : Prop := True.

Definition parses {A} (parse : M A) : Prop :=
  forall st,
    (exists a, parse st = (Return a, st)) \/
    (exists issues, parse st = (Throw (ZodError issues), st)).

Definition read_only_tools : list string :=
  ["toggl_current"; "toggl_today"; "toggl_projects"; "toggl_weekly";
   "toggl_last_week"].

Definition unvalidated_tools : list string :=
  ["toggl_stop"; "toggl_current"; "toggl_today"; "toggl_projects";
   "toggl_last_week"].

Definition invalid_parameters (issues : list string) : string :=
  "Invalid parameters: " ++ Js.join ", " issues.

(** The test of [projects.find]: the names are equal once lowered by the
    host's [toLowerCase]. *)
Definition matches_project (w : World) (p : string) (q : Project) : bool :=
  String.eqb (lowerCase w (name q)) (lowerCase w p).

(** A read, or the stop of the entry that the service reports as
    current. *)
Definition get_or_stop_current (w : World) (r : Request) : Prop :=
  is_get r \/
  exists ws e, reply_current w = Ok200 (Some e) /\ r = PATCH_stop ws (id e).

Definition docs_project : Project := {| project_id := 501; name := "Docs" |}.
Definition ops_project : Project := {| project_id := 502; name := "Ops" |}.

Definition projects_world : World := {|
  now := 1793657600000;
  zone := JSDate.fixed_zone 0;
  lowerCase := Js.ascii_toLowerCase;
  reply_me := Ok200 77;
  reply_current := Ok200 (Some running_entry);
  reply_time_entries := fun _ _ => Ok200 (Some []);
  reply_projects := fun _ => Ok200 (Some [docs_project; ops_project]);
  reply_create := fun _ _ _ _ => Ok200 stopped_entry;
  reply_stop := fun _ _ => Ok200 running_entry;
  reply_delete := fun _ _ => Ok200 tt
|}.

Definition cached (ws : Z) (requests : list Request) : ClientState :=
  {| workspaceId := Some ws; sent := requests |}.

Definition recent_entry : TimeEntry := {|
  id := 21; description := Val "review"; start := Val "2026-11-02T20:11:15Z";
  duration := Val (- (1793657600 - 125)); project_name := Undefined |}.

Definition recent_world : World := {|
  now := 1793657600000;
  zone := JSDate.fixed_zone 0;
  lowerCase := Js.ascii_toLowerCase;
  reply_me := Ok200 77;
  reply_current := Ok200 (Some recent_entry);
  reply_time_entries := fun _ _ => Ok200 (Some []);
  reply_projects := fun _ => Ok200 (Some []);
  reply_create := fun _ _ _ _ => Ok200 recent_entry;
  reply_stop := fun _ _ => Ok200 recent_entry;
  reply_delete := fun _ _ => Ok200 tt
|}.

Definition not_an_index (k : string) : Prop := Js.array_index k = None.

(** The order of the default [sort()] on [[key, hours]] pairs. *)
Definition pair_le (a b : string * jsnum) : Prop :=
  String.leb (pair_to_string a) (pair_to_string b) = true.

Definition date_le (a b : string * jsnum) : Prop :=
  String.leb (fst a) (fst b) = true.

(** Both hours are numbers and [a] has at least the hours of [b]. *)
Definition hours_ge (a b : string * jsnum) : Prop :=
  match snd a, snd b with
  | Num x, Num y => y <= x
  | _, _ => False
  end.

Definition east_world : World := {|
  now := 1793657600000;
  zone := JSDate.fixed_zone 3600000;
  lowerCase := Js.ascii_toLowerCase;
  reply_me := Ok200 77;
  reply_current := Ok200 None;
  reply_time_entries := fun _ _ => Ok200 (Some [stopped_entry]);
  reply_projects := fun _ => Ok200 (Some []);
  reply_create := fun _ _ _ _ => Ok200 running_entry;
  reply_stop := fun _ _ => Ok200 running_entry;
  reply_delete := fun _ _ => Ok200 tt
|}.

Definition week_label (week_offset : Z) : string :=
  if week_offset =? 0 then "Current"
  else if week_offset =? -1 then "Last"
  else string_of_Z (Z.abs week_offset) ++ " weeks ago".

Definition weekly_args (week_offset : Z) : option json :=
  Some (JObj [("week_offset", JNum week_offset)]).

Definition is_401 (status : option Z) : bool :=
  match status with Some z => z =? 401 | None => false end.

Definition gone_world : World := {|
  now := 1793657600000;
  zone := JSDate.fixed_zone 0;
  lowerCase := Js.ascii_toLowerCase;
  reply_me := Ok200 77;
  reply_current := Ok200 None;
  reply_time_entries := fun _ _ => Ok200 (Some []);
  reply_projects := fun _ => Ok200 (Some []);
  reply_create := fun _ _ _ _ => Ok200 running_entry;
  reply_stop := fun _ _ => Ok200 running_entry;
  reply_delete := fun _ _ =>
    Failed (Some 404) "Request failed with status code 404"
|}.

(** * Properties *)

(** ** Dates *)

Module DateFacts.
Import JSDate.

Lemma msPerDay_pos : 0 < msPerDay.
Proof. reflexivity. Qed.

Lemma Day_MakeDate (day time : Z) :
  0 <= time < msPerDay -> Day (MakeDate day time) = day.
Proof.
  intros H. unfold Day, MakeDate.
  rewrite Z.add_comm, Z.div_add by (unfold msPerDay; lia).
  rewrite Z.div_small by exact H. lia.
Qed.

Lemma TimeWithinDay_MakeDate (day time : Z) :
  0 <= time < msPerDay -> TimeWithinDay (MakeDate day time) = time.
Proof.
  intros H. unfold TimeWithinDay, MakeDate.
  rewrite Z.add_comm, Z.mod_add by (unfold msPerDay; lia).
  apply Z.mod_small. exact H.
Qed.

Lemma TimeWithinDay_bounds (t : Z) : 0 <= TimeWithinDay t < msPerDay.
Proof. apply Z.mod_pos_bound, msPerDay_pos. Qed.

Lemma MakeDate_Day (t : Z) : MakeDate (Day t) (TimeWithinDay t) = t.
Proof.
  unfold MakeDate, Day, TimeWithinDay.
  pose proof (Z.div_mod t msPerDay ltac:(discriminate)). lia.
Qed.

Lemma TimeClip_Some (t t' : Z) :
  TimeClip t = Some t' -> t' = t /\ Z.abs t <= maxTime.
Proof.
  unfold TimeClip. destruct (Z.leb_spec (Z.abs t) maxTime); [| discriminate].
  intros E. injection E as <-. split; [reflexivity | assumption].
Qed.

Lemma TimeClip_in_range (t : Z) : Z.abs t <= maxTime -> TimeClip t = Some t.
Proof.
  intros H. unfold TimeClip.
  destruct (Z.leb_spec (Z.abs t) maxTime); [reflexivity | lia].
Qed.

(** A zone without changes of clocks skips no local time. *)
Lemma fixed_zone_exists_at (o l : Z) : exists_at (fixed_zone o) l.
Proof. unfold exists_at, LocalTime, UTC. simpl. lia. Qed.

Lemma exists_at_keeps_day (z : Zone) (l : Z) : exists_at z l -> keeps_day z l.
Proof. unfold exists_at, keeps_day. intros ->. reflexivity. Qed.

Lemma fixed_zone_regular (o today off : Z) :
  window_regular (fixed_zone o) today off.
Proof.
  unfold window_regular. cbv zeta.
  repeat split;
    first [ apply fixed_zone_exists_at
          | apply exists_at_keeps_day, fixed_zone_exists_at ].
Qed.

(** Setting the date to the current date plus [k] reads the local day
    [k] days on, at the same time of day. *)
Lemma setDate_shift (z : Zone) (t t' k r : Z) :
  Day (LocalTime z t') = Day (LocalTime z t) ->
  setDate z t (getDate z t' + k) = Some r ->
  r = UTC z (MakeDate (Day (LocalTime z t) + k) (TimeWithinDay (LocalTime z t))).
Proof.
  intros E. unfold setDate, getDate, DateFromDay. cbv zeta. rewrite E.
  intros H. apply TimeClip_Some in H. destruct H as [-> _].
  f_equal. f_equal. lia.
Qed.

Lemma setHours_Some (z : Zone) (t h m s ms r : Z) :
  setHours z t h m s ms = Some r ->
  r = UTC z (MakeDate (Day (LocalTime z t)) (MakeTime h m s ms)).
Proof.
  unfold setHours. intros H. apply TimeClip_Some in H. tauto.
Qed.

(** The Monday of the window is local midnight of [mondayDay], read as a
    time value. *)
Lemma weekMonday_eq (z : Zone) (today off monday : Z) :
  keeps_day z (MakeDate (mondayDay z today off)
                 (TimeWithinDay (LocalTime z today))) ->
  weekMonday z today off = Some monday ->
  monday = UTC z (MakeDate (mondayDay z today off) 0).
Proof.
  intros K. unfold weekMonday. cbv zeta.
  destruct (setDate z today _) as [t1 |] eqn:E1; [| discriminate].
  replace (getDate z today + daysToMonday z today + off * 7)
    with (getDate z today + (daysToMonday z today + off * 7)) in E1 by lia.
  apply setDate_shift in E1; [| reflexivity].
  intros H. apply setHours_Some in H. subst monday t1.
  unfold keeps_day, mondayDay in K.
  replace (Day (LocalTime z today) + (daysToMonday z today + off * 7))
    with (Day (LocalTime z today) + daysToMonday z today + off * 7) by lia.
  rewrite K.
  rewrite Day_MakeDate by apply TimeWithinDay_bounds.
  reflexivity.
Qed.

Lemma weekMonday_local (z : Zone) (today off monday : Z) :
  keeps_day z (MakeDate (mondayDay z today off)
                 (TimeWithinDay (LocalTime z today))) ->
  exists_at z (MakeDate (mondayDay z today off) 0) ->
  weekMonday z today off = Some monday ->
  LocalTime z monday = MakeDate (mondayDay z today off) 0.
Proof.
  intros K X H. rewrite (weekMonday_eq z today off monday K H). exact X.
Qed.

(** The Sunday of the window is 23:59:59.999 of the sixth day after the
    local day [d] of the Monday. *)
Lemma weekSunday_eq (z : Zone) (monday d sunday : Z) :
  LocalTime z monday = MakeDate d 0 ->
  keeps_day z (MakeDate (d + 6) 0) ->
  weekSunday z (Some monday) = Some sunday ->
  sunday = UTC z (MakeDate (d + 6) 86399999).
Proof.
  intros L K. unfold weekSunday. cbv zeta.
  destruct (setDate z monday _) as [t3 |] eqn:E3; [| discriminate].
  apply setDate_shift in E3; [| reflexivity].
  intros H. apply setHours_Some in H. subst sunday t3.
  rewrite L.
  rewrite Day_MakeDate, TimeWithinDay_MakeDate by (unfold msPerDay; lia).
  unfold keeps_day in K. rewrite K.
  rewrite Day_MakeDate by (unfold msPerDay; lia).
  reflexivity.
Qed.

(** Both ends of a regular window, in local time. *)
Lemma window_local (z : Zone) (today off monday sunday : Z) :
  window_regular z today off ->
  weekMonday z today off = Some monday ->
  weekSunday z (Some monday) = Some sunday ->
  LocalTime z monday = MakeDate (mondayDay z today off) 0 /\
  LocalTime z sunday = MakeDate (mondayDay z today off + 6) 86399999 /\
  monday = UTC z (MakeDate (mondayDay z today off) 0) /\
  sunday = UTC z (MakeDate (mondayDay z today off + 6) 86399999).
Proof.
  intros (K1 & X2 & K3 & X4) Hm Hs.
  pose proof (weekMonday_local z today off monday K1 X2 Hm) as Lm.
  pose proof (weekMonday_eq z today off monday K1 Hm) as Em.
  pose proof (weekSunday_eq z monday _ sunday Lm K3 Hs) as Es.
  repeat split; try assumption.
  rewrite Es. exact X4.
Qed.

(** A regular window within range has both its dates. *)
Lemma window_exists (z : Zone) (today off : Z) :
  window_regular z today off ->
  window_in_range z today off ->
  weekMonday z today off = Some (UTC z (MakeDate (mondayDay z today off) 0)) /\
  weekSunday z (Some (UTC z (MakeDate (mondayDay z today off) 0)))
    = Some (UTC z (MakeDate (mondayDay z today off + 6) 86399999)).
Proof.
  intros (K1 & X2 & K3 & X4) (I1 & I2 & I3 & I4).
  unfold in_range, keeps_day, exists_at in *.
  set (d := mondayDay z today off) in *.
  assert (E1 : setDate z today (getDate z today + daysToMonday z today + off * 7)
               = Some (UTC z (MakeDate d (TimeWithinDay (LocalTime z today))))).
  { unfold setDate, getDate, DateFromDay. cbv zeta.
    replace (MonthStart (Day (LocalTime z today)) +
             (Day (LocalTime z today) - MonthStart (Day (LocalTime z today))
              + 1 + daysToMonday z today + off * 7) - 1)
      with d by (unfold d, mondayDay; lia).
    apply TimeClip_in_range, I1. }
  assert (Em : weekMonday z today off = Some (UTC z (MakeDate d 0))).
  { unfold weekMonday. cbv zeta. rewrite E1. unfold setHours.
    rewrite K1, Day_MakeDate by apply TimeWithinDay_bounds.
    change (MakeTime 0 0 0 0) with 0. apply TimeClip_in_range, I2. }
  split; [exact Em|].
  unfold weekSunday. cbv zeta.
  assert (E3 : setDate z (UTC z (MakeDate d 0))
                 (getDate z (UTC z (MakeDate d 0)) + 6)
               = Some (UTC z (MakeDate (d + 6) 0))).
  { unfold setDate, getDate, DateFromDay. cbv zeta. rewrite X2.
    rewrite Day_MakeDate, TimeWithinDay_MakeDate by (unfold msPerDay; lia).
    replace (MonthStart d + (d - MonthStart d + 1 + 6) - 1) with (d + 6) by lia.
    apply TimeClip_in_range, I3. }
  rewrite E3. unfold setHours.
  rewrite K3, Day_MakeDate by (unfold msPerDay; lia).
  change (MakeTime 23 59 59 999) with 86399999.
  apply TimeClip_in_range, I4.
Qed.

Lemma fixed_zone_in_range (o today off : Z) :
  let d := mondayDay (fixed_zone o) today off in
  - maxTime <= MakeDate d 0 - o ->
  MakeDate (d + 6) 86399999 - o <= maxTime ->
  window_in_range (fixed_zone o) today off.
Proof.
  intros d Lo Hi.
  pose proof (TimeWithinDay_bounds (LocalTime (fixed_zone o) today)) as Tw.
  unfold window_in_range, in_range, UTC. cbv zeta.
  cbn [offset_at_local fixed_zone]. fold d.
  revert Lo Hi Tw. generalize (TimeWithinDay (LocalTime (fixed_zone o) today)).
  unfold MakeDate, maxTime. change msPerDay with 86400000. intros. lia.
Qed.

Lemma week_window_Some (z : Zone) (today off monday sunday : Z) :
  week_window z today off = Some (monday, sunday) <->
  weekMonday z today off = Some monday /\
  weekSunday z (Some monday) = Some sunday.
Proof.
  unfold week_window.
  destruct (weekMonday z today off) as [m |].
  - destruct (weekSunday z (Some m)) as [s |] eqn:E.
    + split.
      * intros H. injection H as <- <-. split; [reflexivity | exact E].
      * intros [H1 H2]. injection H1 as <-. rewrite E in H2.
        injection H2 as <-. reflexivity.
    + split; [discriminate |].
      intros [H1 H2]. injection H1 as <-. rewrite E in H2. discriminate.
  - split; [discriminate | intros [H _]; discriminate].
Qed.

Lemma monday_weekday (d off : Z) :
  let dow := (d + 4) mod 7 in
  (d + (if dow =? 0 then -6 else 1 - dow) + off * 7 + 4) mod 7 = 1.
Proof.
  intros dow. subst dow.
  destruct (Z.eqb_spec ((d + 4) mod 7) 0) as [E | E];
    pose proof (Z.mod_pos_bound (d + 4) 7 ltac:(lia));
    pose proof (Z.div_mod (d + 4) 7 ltac:(lia)).
  - replace (d + -6 + off * 7 + 4) with (1 + ((d + 4) / 7 + off - 1) * 7) by lia.
    rewrite Z.mod_add by lia. reflexivity.
  - replace (d + (1 - (d + 4) mod 7) + off * 7 + 4)
      with (1 + ((d + 4) / 7 + off) * 7) by lia.
    rewrite Z.mod_add by lia. reflexivity.
Qed.

Lemma mondayDay_weekday (z : Zone) (today off : Z) :
  (mondayDay z today off + 4) mod 7 = 1.
Proof.
  unfold mondayDay, daysToMonday, getDay, WeekDay.
  apply monday_weekday.
Qed.

(** The Monday of the window is at most six days before today's local
    day. *)
Lemma daysToMonday_bounds (z : Zone) (today : Z) :
  -6 <= daysToMonday z today <= 0.
Proof.
  unfold daysToMonday, getDay, WeekDay. cbv zeta.
  pose proof (Z.mod_pos_bound (Day (LocalTime z today) + 4) 7 ltac:(lia)).
  destruct (Z.eqb_spec ((Day (LocalTime z today) + 4) mod 7) 0); lia.
Qed.

Lemma mondayDay_succ (z : Zone) (today off : Z) :
  mondayDay z today (off + 1) = mondayDay z today off + 7.
Proof. unfold mondayDay. lia. Qed.

(** Consecutive windows meet when the clocks do not change at the local
    midnight between them. *)
Lemma windows_meet (z : Zone) (today k monday sunday monday' sunday' : Z) :
  window_regular z today k ->
  window_regular z today (k + 1) ->
  weekMonday z today k = Some monday ->
  weekSunday z (Some monday) = Some sunday ->
  weekMonday z today (k + 1) = Some monday' ->
  weekSunday z (Some monday') = Some sunday' ->
  LocalTime z monday' = LocalTime z sunday + 1 /\
  Day (LocalTime z monday') = Day (LocalTime z monday) + 7 /\
  (no_change_at z (MakeDate (mondayDay z today (k + 1)) 0) ->
   sunday + 1 = monday').
Proof.
  intros R R' Hm Hs Hm' Hs'.
  destruct (window_local z today k monday sunday R Hm Hs)
    as (Lm & Ls & Em & Es).
  destruct (window_local z today (k + 1) monday' sunday' R' Hm' Hs')
    as (Lm' & Ls' & Em' & Es').
  rewrite mondayDay_succ in *.
  split; [| split].
  - rewrite Lm', Ls. unfold MakeDate. change msPerDay with 86400000. lia.
  - rewrite Lm', Lm. rewrite !Day_MakeDate by (unfold msPerDay; lia).
    reflexivity.
  - unfold no_change_at. intros N. rewrite Es, Em'. unfold UTC.
    replace (MakeDate (mondayDay z today k + 6) 86399999)
      with (MakeDate (mondayDay z today k + 7) 0 - 1)
      by (unfold MakeDate; change msPerDay with 86400000; lia).
    rewrite N. lia.
Qed.

End DateFacts.

(** C1.  Whenever the local times the window passes through exist in the
    host's zone and are read as time values, the window has its two
    dates: the Monday falls on a Monday (weekday 1) at 00:00:00.000 local
    time and the Sunday is the local day six days later, at 23:59:59.999,
    for every week offset and every "today" (so for each of the seven
    weekdays). *)
Theorem week_window_bounds (z : JSDate.Zone) (today weekOffset : Z)
    (Hregular : window_regular z today weekOffset)
    (Hrange : window_in_range z today weekOffset) :
  exists monday sunday,
    weekMonday z today weekOffset = Some monday /\
    weekSunday z (Some monday) = Some sunday /\
    JSDate.getDay z monday = 1 /\
    JSDate.TimeWithinDay (JSDate.LocalTime z monday)
      = JSDate.MakeTime 0 0 0 0 /\
    JSDate.Day (JSDate.LocalTime z sunday) =
      JSDate.Day (JSDate.LocalTime z monday) + 6 /\
    JSDate.TimeWithinDay (JSDate.LocalTime z sunday) =
      JSDate.MakeTime 23 59 59 999.
Proof.
  destruct (DateFacts.window_exists z today weekOffset Hregular Hrange)
    as [Hmonday Hsunday].
  eexists. eexists. split; [exact Hmonday|]. split; [exact Hsunday|].
  destruct (DateFacts.window_local z today weekOffset _ _
              Hregular Hmonday Hsunday) as (Lm & Ls & _ & _).
  unfold JSDate.getDay, JSDate.WeekDay. rewrite Lm, Ls.
  rewrite !DateFacts.Day_MakeDate by (unfold JSDate.msPerDay; lia).
  rewrite !DateFacts.TimeWithinDay_MakeDate by (unfold JSDate.msPerDay; lia).
  repeat split.
  apply DateFacts.mondayDay_weekday.
Qed.

(** Tuesday 3 November 2026, 10:13:20 UTC, in a zone at UTC: the window
    is Monday 2 November 00:00:00.000 to Sunday 8 November 23:59:59.999. *)
Lemma week_window_bounds_witness :
  exists monday sunday,
    weekMonday (JSDate.fixed_zone 0) 1793700800000 0 = Some monday /\
    weekSunday (JSDate.fixed_zone 0) (Some monday) = Some sunday /\
    JSDate.getDay (JSDate.fixed_zone 0) monday = 1 /\
    JSDate.TimeWithinDay (JSDate.LocalTime (JSDate.fixed_zone 0) sunday)
      = 86399999.
Proof.
  destruct (week_window_bounds (JSDate.fixed_zone 0) 1793700800000 0
              (DateFacts.fixed_zone_regular 0 1793700800000 0)
              (DateFacts.fixed_zone_in_range 0 1793700800000 0
                 ltac:(vm_compute; discriminate)
                 ltac:(vm_compute; discriminate)))
    as (monday & sunday & Hm & Hs & H1 & _ & _ & H4).
  exists monday, sunday. repeat split; assumption.
Defined.

(** C1 as stated fails.  At a week offset of a hundred million the Monday
    lies beyond the range of time values: the Date is invalid, and there
    is no Monday at all.  And where the clocks are put forward at midnight
    the window does not begin at 00:00: in Tehran, on Wednesday 24 March
    2010, the Monday of the current week is 22 March at 01:00 local
    time. *)
Lemma week_window_not_monday_midnight :
  weekMonday (JSDate.fixed_zone 0) 1793700800000 100000000 = None /\
  exists monday,
    weekMonday tehran_2010 1269417600000 0 = Some monday /\
    JSDate.getDay tehran_2010 monday = 1 /\
    JSDate.TimeWithinDay (JSDate.LocalTime tehran_2010 monday) = 3600000.
Proof.
  split; [vm_compute; reflexivity|].
  exists 1269203400000. vm_compute. repeat split.
Qed.

(** C4.  For a fixed "today", when the local times the windows of offset
    -1 and offset 0 pass through exist in the host's zone and are read as
    time values, both windows have their dates: the Monday of offset 0 is,
    on the local clock, the millisecond after the Sunday of offset -1,
    seven local days after the Monday of offset -1, and each window ends
    on the sixth local day after its Monday; when moreover the clocks do
    not change at the local midnight between them, the windows are
    adjacent and disjoint as time values, the millisecond after the Sunday
    of offset -1 being the Monday of offset 0. *)
Theorem weekly_windows_adjacent (z : JSDate.Zone) (today : Z)
    (Hregular0 : window_regular z today 0)
    (Hregular1 : window_regular z today (-1))
    (Hrange0 : window_in_range z today 0)
    (Hrange1 : window_in_range z today (-1)) :
  exists monday0 sunday0 monday1 sunday1,
    weekMonday z today 0 = Some monday0 /\
    weekSunday z (Some monday0) = Some sunday0 /\
    weekMonday z today (-1) = Some monday1 /\
    weekSunday z (Some monday1) = Some sunday1 /\
    JSDate.LocalTime z monday0 = JSDate.LocalTime z sunday1 + 1 /\
    JSDate.Day (JSDate.LocalTime z monday0) =
      JSDate.Day (JSDate.LocalTime z monday1) + 7 /\
    JSDate.Day (JSDate.LocalTime z sunday1) =
      JSDate.Day (JSDate.LocalTime z monday1) + 6 /\
    JSDate.Day (JSDate.LocalTime z sunday0) =
      JSDate.Day (JSDate.LocalTime z monday0) + 6 /\
    (no_change_at z (JSDate.MakeDate (mondayDay z today 0) 0) ->
     sunday1 + 1 = monday0 /\ sunday1 < monday0).
Proof.
  destruct (DateFacts.window_exists z today 0 Hregular0 Hrange0)
    as [Hmonday0 Hsunday0].
  destruct (DateFacts.window_exists z today (-1) Hregular1 Hrange1)
    as [Hmonday1 Hsunday1].
  eexists. eexists. eexists. eexists.
  split; [exact Hmonday0|]. split; [exact Hsunday0|].
  split; [exact Hmonday1|]. split; [exact Hsunday1|].
  destruct (DateFacts.windows_meet z today (-1) _ _ _ _
              Hregular1 Hregular0 Hmonday1 Hsunday1 Hmonday0 Hsunday0)
    as (A & B & C).
  destruct (DateFacts.window_local z today 0 _ _
              Hregular0 Hmonday0 Hsunday0) as (Lm0 & Ls0 & _ & _).
  destruct (DateFacts.window_local z today (-1) _ _
              Hregular1 Hmonday1 Hsunday1) as (Lm1 & Ls1 & _ & _).
  split; [exact A|]. split; [exact B|].
  split; [| split].
  - rewrite Ls1, Lm1.
    rewrite !DateFacts.Day_MakeDate by (unfold JSDate.msPerDay; lia).
    reflexivity.
  - rewrite Ls0, Lm0.
    rewrite !DateFacts.Day_MakeDate by (unfold JSDate.msPerDay; lia).
    reflexivity.
  - intros N. change (-1 + 1) with 0 in C. specialize (C N). lia.
Qed.

Lemma weekly_windows_adjacent_witness :
  exists monday0 sunday1,
    weekMonday (JSDate.fixed_zone 0) 1793700800000 0 = Some monday0 /\
    weekSunday (JSDate.fixed_zone 0)
      (weekMonday (JSDate.fixed_zone 0) 1793700800000 (-1)) = Some sunday1 /\
    sunday1 + 1 = monday0.
Proof.
  destruct (weekly_windows_adjacent (JSDate.fixed_zone 0) 1793700800000
              (DateFacts.fixed_zone_regular 0 1793700800000 0)
              (DateFacts.fixed_zone_regular 0 1793700800000 (-1))
              (DateFacts.fixed_zone_in_range 0 1793700800000 0
                 ltac:(vm_compute; discriminate)
                 ltac:(vm_compute; discriminate))
              (DateFacts.fixed_zone_in_range 0 1793700800000 (-1)
                 ltac:(vm_compute; discriminate)
                 ltac:(vm_compute; discriminate)))
    as (monday0 & sunday0 & monday1 & sunday1 & Hm0 & _ & Hm1 & Hs1
        & _ & _ & _ & _ & C).
  exists monday0, sunday1.
  split; [exact Hm0|]. split; [rewrite Hm1; exact Hs1|].
  apply C. reflexivity.
Defined.

(** C4 as stated fails.  In Tehran the clocks were put back an hour at
    midnight of Monday 22 September 2014: on Wednesday the 24th the window
    of last week ends at 23:59:59.999 of the 21st, read with the offset
    before the change, and this week begins at 00:00 of the 22nd after it,
    so that an hour lies between the two windows.  In New York, on Tuesday
    3 November 2026, the window of last week contains the night the clocks
    are put back and lasts an hour more than seven days.  And close to the
    first time value the Monday of last week is not a date. *)
Lemma weekly_windows_not_adjacent :
  (exists monday0 sunday1,
     weekMonday tehran_2014 1411545600000 0 = Some monday0 /\
     weekSunday tehran_2014 (weekMonday tehran_2014 1411545600000 (-1))
       = Some sunday1 /\
     sunday1 + 1 + 3600000 = monday0) /\
  (exists monday1 sunday1,
     weekMonday new_york_2026 1793700800000 (-1) = Some monday1 /\
     weekSunday new_york_2026 (Some monday1) = Some sunday1 /\
     sunday1 - monday1 = 7 * JSDate.msPerDay + 3600000 - 1) /\
  weekMonday (JSDate.fixed_zone 0) (-8639999740800000) (-1) = None.
Proof.
  split; [| split].
  - exists 1411331400000, 1411327799999. vm_compute. repeat split.
  - exists 1792987200000, 1793595599999. vm_compute. repeat split.
  - vm_compute. reflexivity.
Qed.

(** ** The client monad *)

Lemma bind_call_ok {A B} (r : Request) (data : A) (k : A -> M B)
    (st : ClientState) :
  bind (call r (Ok200 data)) k st =
  k data {| workspaceId := workspaceId st; sent := r :: sent st |}.
Proof. reflexivity. Qed.

Lemma bind_return {A B} (m : M A) (k : A -> M B) (st st' : ClientState)
    (a : A) :
  m st = (Return a, st') -> bind m k st = k a st'.
Proof. intros E. unfold bind. rewrite E. reflexivity. Qed.

Lemma bind_throw {A B} (m : M A) (k : A -> M B) (st st' : ClientState)
    (e : Exn) :
  m st = (Throw e, st') -> bind m k st = (Throw e, st').
Proof. intros E. unfold bind. rewrite E. reflexivity. Qed.

(** ** Durations in hours and minutes *)

Lemma hours_minutes_of_nonneg (d : Z) :
  0 <= d ->
  hours_of (Num d) = Num (d / 3600) /\
  minutes_of (Num d) = Num (d mod 3600 / 60).
Proof.
  intros Hd. unfold hours_of, minutes_of, Js.floor_div, Js.rem.
  rewrite Z.rem_mod_nonneg by lia. split; reflexivity.
Qed.

(** C10.  A non-negative duration [d] is rendered with
    [h = floor (d / 3600)] and [m = floor ((d mod 3600) / 60)], so that
    [h * 3600 + m * 60 <= d < h * 3600 + (m + 1) * 60]: the seconds are
    dropped.  This is the pair that stop, current and today (for each
    entry and for the total) print as "{h}h {m}m". *)
Theorem durations_truncate_seconds (d : Z) (Hd : 0 <= d) :
  let h := d / 3600 in
  let m := d mod 3600 / 60 in
  (hours_of (Num d) = Num h /\ minutes_of (Num d) = Num m) /\
  h * 3600 + m * 60 <= d < h * 3600 + (m + 1) * 60 /\
  (forall w st st' e,
      stopTimer w st = (Return e, st') ->
      Js.abs (Js.to_number (duration e)) = Num d ->
      toggl_stop w st =
      (Return ("Stopped timer: " ++ dq ++ Js.interp_str (description e) ++ dq
                 ++ nl ++ "Duration: " ++ string_of_Z h ++ "h "
                 ++ string_of_Z m ++ "m"), st')) /\
  (forall w st st' e,
      getCurrentEntry w st = (Return (Some e), st') ->
      Js.abs (Js.add (Js.to_number (duration e)) (Num (now w / 1000))) = Num d ->
      toggl_current w st =
      (Return ("Currently tracking: " ++ dq ++ Js.interp_str (description e)
                 ++ dq ++ nl ++ "Running for: " ++ string_of_Z h ++ "h "
                 ++ string_of_Z m ++ "m"), st')) /\
  (forall e,
      Js.abs (Js.to_number (duration e)) = Num d ->
      today_line e =
      "- " ++ Js.str_or (description e) "No description"
        ++ " (" ++ string_of_Z h ++ "h " ++ string_of_Z m ++ "m)") /\
  (forall w st st' e entries,
      getTodayEntries w st = (Return (Some (e :: entries)), st') ->
      today_total (e :: entries) = Num d ->
      toggl_today w st =
      (Return ("Today's entries:" ++ nl
                 ++ Js.join nl (List.map today_line (e :: entries))
                 ++ nl ++ nl ++ "Total: " ++ string_of_Z h ++ "h "
                 ++ string_of_Z m ++ "m"), st')).
Proof.
  intros h m. subst h m.
  destruct (hours_minutes_of_nonneg d Hd) as [Hh Hm].
  split; [split; assumption|].
  split.
  { pose proof (Z.div_mod d 3600 ltac:(lia)).
    pose proof (Z.div_mod (d mod 3600) 60 ltac:(lia)).
    pose proof (Z.mod_pos_bound (d mod 3600) 60 ltac:(lia)).
    lia. }
  split; [|split; [|split]].
  - intros w st st' e Hstop Hdur. unfold toggl_stop.
    rewrite (bind_return _ _ _ _ _ Hstop). cbv zeta.
    rewrite Hdur, Hh, Hm. reflexivity.
  - intros w st st' e Hcur Hdur. unfold toggl_current.
    rewrite (bind_return _ _ _ _ _ Hcur). cbv zeta.
    rewrite Hdur, Hh, Hm. reflexivity.
  - intros e Hdur. unfold today_line. rewrite Hdur, Hh, Hm. reflexivity.
  - intros w st st' e entries Hget Htot. unfold toggl_today.
    rewrite (bind_return _ _ _ _ _ Hget). cbv zeta.
    rewrite Htot, Hh, Hm. reflexivity.
Qed.

Lemma durations_truncate_seconds_witness :
  0 <= 3725 /\
  hours_of (Num 3725) = Num 1 /\ minutes_of (Num 3725) = Num 2 /\
  1 * 3600 + 2 * 60 <= 3725 < 1 * 3600 + (2 + 1) * 60.
Proof.
  assert (H : 0 <= 3725) by lia.
  destruct (durations_truncate_seconds 3725 H) as [[Hh Hm] [Hb _]].
  split; [exact H|]. split; [exact Hh|]. split; [exact Hm|]. exact Hb.
Defined.

(** ** last_week and weekly *)

(** C5.  For every state of the remote service and of the clock,
    [toggl_last_week] and [toggl_weekly] with [week_offset = -1] have the
    same outcome: the same text on success (and, beyond the claim, the
    same error and the same requests otherwise). *)
Theorem last_week_is_weekly_minus_one (w : World) (args : option json)
    (st : ClientState) :
  handle_call w "toggl_last_week" args st =
  handle_call w "toggl_weekly" (Some (JObj [("week_offset", JNum (-1))])) st.
Proof.
  unfold handle_call, try_catch.
  change (dispatch w "toggl_last_week" args) with (toggl_last_week w).
  change (dispatch w "toggl_weekly" (Some (JObj [("week_offset", JNum (-1))])))
    with (toggl_weekly w (Some (JObj [("week_offset", JNum (-1))]))).
  unfold toggl_last_week, toggl_weekly, bind.
  change (WeeklyEntriesSchema_parse
            (Some (JObj [("week_offset", JNum (-1))])) st)
    with (Return (-1), st).
  cbv beta iota.
  destruct (getWeeklyEntries w (-1) st) as [[summary | e] st']; reflexivity.
Qed.

(** ** stop with nothing running *)

(** C7.  When the remote service reports no running entry, [stopTimer]
    throws the error "No timer is currently running", the handler passes
    that message on to the caller, and the only request sent is the read
    of the current entry: nothing goes to the stop endpoint. *)
Theorem stop_without_running_entry (w : World) (args : option json)
    (st : ClientState) (H : reply_current w = Ok200 None) :
  let st' := {| workspaceId := workspaceId st;
                sent := GET_current :: sent st |} in
  stopTimer w st = (Throw (JsError "No timer is currently running"), st') /\
  handle_call w "toggl_stop" args st =
    (Throw (McpError InternalError "No timer is currently running"), st') /\
  (forall ws entryId, In (PATCH_stop ws entryId) (sent st') ->
                      In (PATCH_stop ws entryId) (sent st)).
Proof.
  intros st'.
  assert (E : stopTimer w st =
              (Throw (JsError "No timer is currently running"), st')).
  { unfold stopTimer, getCurrentEntry. rewrite H. reflexivity. }
  split; [exact E|]. split.
  - unfold handle_call, try_catch.
    change (dispatch w "toggl_stop" args) with (toggl_stop w).
    unfold toggl_stop. rewrite (bind_throw _ _ _ _ _ E). reflexivity.
  - intros ws entryId [Habs | Hin]; [discriminate Habs | exact Hin].
Qed.

Lemma stop_without_running_entry_witness :
  reply_current quiet_world = Ok200 None /\
  handle_call quiet_world "toggl_stop" None fresh =
    (Throw (McpError InternalError "No timer is currently running"),
     {| workspaceId := None; sent := [GET_current] |}).
Proof.
  split; [reflexivity|].
  exact (proj1 (proj2 (stop_without_running_entry quiet_world None fresh
                         eq_refl))).
Defined.

Lemma today_total_from_NaN (entries : list TimeEntry) :
  fold_left (fun sum entry =>
               Js.add sum (Js.abs (Js.to_number (duration entry))))
            entries NaN = NaN.
Proof. induction entries as [| e r IH]; [reflexivity | exact IH]. Qed.

Lemma today_total_from (entries : list TimeEntry) (a : Z) :
  fold_left (fun sum entry =>
               Js.add sum (Js.abs (Js.to_number (duration entry))))
            entries (Num a) =
  if existsb duration_absent entries then NaN
  else Num (a + sumZ (List.map abs_duration entries)).
Proof.
  revert a. induction entries as [| e r IH]; intros a; simpl.
  - f_equal. lia.
  - unfold duration_absent at 1, abs_duration at 1.
    destruct (duration e) as [| | z]; simpl.
    + apply today_total_from_NaN.
    + rewrite IH. destruct (existsb duration_absent r); [reflexivity|].
      f_equal. lia.
    + rewrite IH. destruct (existsb duration_absent r); [reflexivity|].
      f_equal. lia.
Qed.

(** C8.  For a non-empty list of entries received by today, the total that
    is reported is the sum of the absolute values of the durations, taken
    as they are: a running entry of duration [- epoch] adds [epoch], and
    one entry without a duration turns the total into NaN ("NaNh NaNm"). *)
Theorem today_total_unguarded (w : World) (st st' : ClientState)
    (e : TimeEntry) (entries : list TimeEntry)
    (H : getTodayEntries w st = (Return (Some (e :: entries)), st')) :
  let total := today_total (e :: entries) in
  total = (if existsb duration_absent (e :: entries) then NaN
           else Num (sumZ (List.map abs_duration (e :: entries)))) /\
  toggl_today w st =
    (Return ("Today's entries:" ++ nl
               ++ Js.join nl (List.map today_line (e :: entries))
               ++ nl ++ nl ++ "Total: " ++ h_m total), st') /\
  (forall epoch, 0 <= epoch -> duration e = Val (- epoch) ->
                 abs_duration e = epoch) /\
  (existsb duration_absent (e :: entries) = true ->
   h_m total = "NaNh NaNm").
Proof.
  intros total.
  assert (T : total = (if existsb duration_absent (e :: entries) then NaN
                       else Num (sumZ (List.map abs_duration (e :: entries))))).
  { unfold total, today_total. rewrite today_total_from. reflexivity. }
  split; [exact T|]. split; [|split].
  - unfold toggl_today. rewrite (bind_return _ _ _ _ _ H). reflexivity.
  - intros epoch Hpos Hd. unfold abs_duration. rewrite Hd. lia.
  - intros Habs. rewrite T, Habs. reflexivity.
Qed.

Lemma today_total_unguarded_witness :
  getTodayEntries today_world fresh =
    (Return (Some [running_entry; stopped_entry]),
     {| workspaceId := Some 77;
        sent := [GET_time_entries 1793577600000 1793657600000; GET_me] |}) /\
  today_total [running_entry; stopped_entry] = Num (1793653200 + 3661).
Proof.
  assert (H : getTodayEntries today_world fresh =
    (Return (Some [running_entry; stopped_entry]),
     {| workspaceId := Some 77;
        sent := [GET_time_entries 1793577600000 1793657600000; GET_me] |}))
    by reflexivity.
  split; [exact H|].
  exact (proj1 (today_total_unguarded today_world _ _ _ _ H)).
Defined.

(** ** Unrecognized argument keys *)

(** C9.  Arguments of start (resp. delete) in which the keys of the schema
    are present with the right types validate whatever other keys the
    object carries, and the call then runs exactly as on the arguments
    without those other keys. *)
Theorem unrecognized_keys_ignored (w : World) (st : ClientState)
    (a b : list (string * json)) (d : string) (p : option string) (n : Z)
    (Hd : Zod.prop a "description" = Some (JStr d))
    (Hp : Zod.prop a "project_name" = option_map JStr p)
    (Hn : Zod.prop b "entry_id" = Some (JNum n)) :
  (StartTimerSchema_parse (Some (JObj a)) st = (Return (d, p), st) /\
   handle_call w "toggl_start" (Some (JObj a)) st =
   handle_call w "toggl_start" (start_args d p) st) /\
  (DeleteEntrySchema_parse (Some (JObj b)) st = (Return n, st) /\
   handle_call w "toggl_delete" (Some (JObj b)) st =
   handle_call w "toggl_delete" (delete_args n) st).
Proof.
  assert (Pa : StartTimerSchema_parse (Some (JObj a)) = ret (d, p)).
  { unfold StartTimerSchema_parse. rewrite Hd, Hp.
    destruct p; reflexivity. }
  assert (Pa' : StartTimerSchema_parse (start_args d p) = ret (d, p)).
  { destruct p; reflexivity. }
  assert (Pb : DeleteEntrySchema_parse (Some (JObj b)) = ret n).
  { unfold DeleteEntrySchema_parse. rewrite Hn. reflexivity. }
  split; split.
  - rewrite Pa. reflexivity.
  - unfold handle_call.
    change (dispatch w "toggl_start" (Some (JObj a)))
      with (toggl_start w (Some (JObj a))).
    change (dispatch w "toggl_start" (start_args d p))
      with (toggl_start w (start_args d p)).
    unfold toggl_start. rewrite Pa, Pa'. reflexivity.
  - rewrite Pb. reflexivity.
  - unfold handle_call.
    change (dispatch w "toggl_delete" (Some (JObj b)))
      with (toggl_delete w (Some (JObj b))).
    change (dispatch w "toggl_delete" (delete_args n))
      with (toggl_delete w (delete_args n)).
    unfold toggl_delete. rewrite Pb. reflexivity.
Qed.

Lemma unrecognized_keys_ignored_witness :
  let a := [("verbose", JBool true); ("description", JStr "review");
            ("tags", JArr [JStr "x"])] in
  let b := [("entry_id", JNum 12); ("force", JBool true)] in
  Zod.prop a "description" = Some (JStr "review") /\
  Zod.prop a "project_name" = option_map JStr None /\
  Zod.prop b "entry_id" = Some (JNum 12) /\
  handle_call today_world "toggl_start" (Some (JObj a)) fresh =
    handle_call today_world "toggl_start" (start_args "review" None) fresh /\
  handle_call today_world "toggl_delete" (Some (JObj b)) fresh =
    (Return "Deleted entry 12",
     {| workspaceId := Some 77; sent := [DELETE_time_entry 77 12; GET_me] |}).
Proof.
  intros a b.
  assert (Hd : Zod.prop a "description" = Some (JStr "review")) by reflexivity.
  assert (Hp : Zod.prop a "project_name" = option_map JStr None) by reflexivity.
  assert (Hn : Zod.prop b "entry_id" = Some (JNum 12)) by reflexivity.
  destruct (unrecognized_keys_ignored today_world fresh a b "review" None 12
              Hd Hp Hn) as [[_ Hs] [_ Hdel]].
  split; [exact Hd|]. split; [exact Hp|]. split; [exact Hn|].
  split; [exact Hs|].
  rewrite Hdel. reflexivity.
Defined.

(** ** Binary64 rounding *)

Module F64Facts.
Import F64.

Lemma nearest_even_bounds (num den : Z) :
  0 < den ->
  - den <= 2 * (nearest_even num den * den - num) <= den.
Proof.
  intros Hden. unfold nearest_even.
  pose proof (Z.div_mod num den ltac:(lia)) as E.
  pose proof (Z.mod_pos_bound num den Hden) as B.
  destruct (Z.compare_spec (2 * (num mod den)) den) as [C | C | C].
  - destruct (Z.even (num / den)); nia.
  - nia.
  - nia.
Qed.

Lemma nearest_even_nonneg (num den : Z) :
  0 <= num -> 0 <= den -> 0 <= nearest_even num den.
Proof.
  intros Hn Hd. unfold nearest_even.
  pose proof (Z_div_nonneg_nonneg num den Hn Hd) as Q.
  destruct (2 * (num mod den) ?= den); [destruct (Z.even (num / den))| |]; lia.
Qed.

Lemma of_ratio_mant_nonneg (num den : Z) :
  0 <= num -> 0 <= den -> 0 <= mant (of_ratio num den).
Proof.
  intros Hn Hd. unfold of_ratio.
  destruct (num =? 0); simpl; [lia|].
  apply nearest_even_nonneg.
  - apply Z.mul_nonneg_nonneg; [lia | apply Z.pow_nonneg; lia].
  - apply Z.mul_nonneg_nonneg; [lia | apply Z.pow_nonneg; lia].
Qed.

(** The significand has at least 53 bits' worth of the quotient, and is
    the nearest integer to the scaled quotient. *)
Lemma of_ratio_scaled (num den : Z) :
  0 < num -> 0 < den ->
  exists K shift,
    0 <= K /\ 0 <= shift /\
    expo (of_ratio num den) = shift - K /\
    - (den * 2 ^ shift) <=
      2 * (mant (of_ratio num den) * (den * 2 ^ shift) - num * 2 ^ K)
      <= den * 2 ^ shift /\
    2 ^ 52 * (den * 2 ^ shift) <= num * 2 ^ K.
Proof.
  intros Hn Hd. unfold of_ratio.
  destruct (Z.eqb_spec num 0) as [E | _]; [lia|].
  set (K := 53 + Z.log2 den).
  set (big := num * 2 ^ K / den).
  set (shift := Z.log2 big - 52).
  pose proof (Z.log2_nonneg den) as Lq.
  pose proof (Z.log2_spec den Hd) as [_ Hq].
  assert (HK : 0 <= K) by (unfold K; lia).
  assert (P2K : 2 ^ K = 2 ^ 52 * 2 ^ Z.succ (Z.log2 den)).
  { unfold K. rewrite <- Z.pow_add_r by lia. f_equal. lia. }
  assert (Hbig : 2 ^ 52 <= big).
  { unfold big. apply Z.div_le_lower_bound; [exact Hd|].
    rewrite P2K. nia. }
  assert (Hbig0 : 0 < big) by (pose proof (Z.pow_pos_nonneg 2 52); lia).
  assert (Hshift : 0 <= shift).
  { unfold shift. pose proof (Z.log2_le_mono _ _ Hbig) as L.
    rewrite Z.log2_pow2 in L by lia. lia. }
  pose proof (Z.log2_spec big Hbig0) as [Hlo _].
  assert (P2L : 2 ^ Z.log2 big = 2 ^ 52 * 2 ^ shift).
  { unfold shift. rewrite <- Z.pow_add_r by lia. f_equal. lia. }
  pose proof (Z.pow_pos_nonneg 2 shift ltac:(lia) Hshift) as Ps.
  exists K, shift. cbn [mant expo].
  split; [exact HK|]. split; [exact Hshift|]. split; [reflexivity|].
  split.
  - apply nearest_even_bounds. apply Z.mul_pos_pos; lia.
  - pose proof (Z.mul_div_le (num * 2 ^ K) den Hd) as M. fold big in M.
    rewrite P2L in Hlo.
    apply Z.le_trans with (den * big); [|exact M].
    replace (2 ^ 52 * (den * 2 ^ shift)) with (den * (2 ^ 52 * 2 ^ shift))
      by ring.
    apply Z.mul_le_mono_nonneg_l; lia.
Qed.

Lemma of_ratio_small (num den : Z) :
  0 < num -> 0 < den -> num < 2 ^ 52 * den ->
  let x := of_ratio num den in
  let E := 2 ^ (- expo x) in
  expo x < 0 /\ 2 <= E /\
  - den <= 2 * (mant x * den - num * E) <= den /\
  2 ^ 52 * den <= num * E.
Proof.
  intros Hn Hd Hsmall x E.
  destruct (of_ratio_scaled num den Hn Hd)
    as (K & shift & HK & Hs & He & Hnear & Hnorm).
  fold x in He, Hnear.
  pose proof (Z.pow_pos_nonneg 2 shift ltac:(lia) Hs) as Ps.
  pose proof (Z.pow_pos_nonneg 2 K ltac:(lia) HK) as PK.
  assert (Hlt : shift < K).
  { destruct (Z.lt_ge_cases shift K) as [L | G]; [exact L|].
    pose proof (Z.pow_le_mono_r 2 K shift ltac:(lia) G). nia. }
  assert (PE : 2 ^ K = E * 2 ^ shift).
  { unfold E. rewrite He. rewrite <- Z.pow_add_r by lia. f_equal. lia. }
  assert (HE : 2 <= E).
  { unfold E. rewrite He.
    change 2 with (2 ^ 1) at 1. apply Z.pow_le_mono_r; lia. }
  rewrite PE in Hnear, Hnorm.
  split; [lia|]. split; [exact HE|]. split; [split|]; nia.
Qed.

End F64Facts.

Section RoundHours.
Import F64 F64Facts.

Lemma round_chain (s m1 E1 m2 E2 n P : Z) :
  P = 4503599627370496 ->
  0 < s < 1125899906842624 ->
  2 <= E1 -> 2 <= E2 ->
  - 3600 <= 2 * (m1 * 3600 - s * E1) <= 3600 ->
  P * 3600 <= s * E1 ->
  - E1 <= 2 * (m2 * E1 - m1 * 100 * E2) <= E1 ->
  P * E1 <= m1 * 100 * E2 ->
  2 * E2 * n <= 2 * m2 + E2 < 2 * E2 * (n + 1) ->
  - 18 <= 36 * n - s <= 18.
Proof.
  intros HP Hs HE1 HE2 A1 A2 B1 B2 C.
  assert (L1 : 14400 < E1) by nia.
  assert (M1 : 3600 * m1 <= s * E1 + 1800) by lia.
  assert (M1' : s * E1 - 1800 <= 3600 * m1) by lia.
  assert (L2 : 36 < E2).
  { destruct (Z.lt_ge_cases 36 E2) as [L | G]; [exact L | exfalso].
    assert (36 * (P * E1) <= 36 * (m1 * 100 * 36)) by nia.
    nia. }
  assert (PX : 0 < E1 * E2) by (apply Z.mul_pos_pos; lia).
  assert (HX : 1800 * E2 + 18 * E1 < E1 * E2).
  { pose proof (Z.mul_lt_mono_pos_r E2 3600 E1 ltac:(lia)) as [K1 _].
    pose proof (Z.mul_lt_mono_pos_l E1 36 E2 ltac:(lia)) as [K2 _].
    specialize (K1 ltac:(lia)). specialize (K2 ltac:(lia)). lia. }
  assert (U1 : (2 * n - 1) * (E1 * E2) <= 200 * (m1 * E2) + E1).
  { pose proof (Z.mul_le_mono_nonneg_r (2 * E2 * n - E2) (2 * m2) E1
                  ltac:(lia) ltac:(lia)). lia. }
  assert (U2 : 200 * (m1 * E2) - E1 < (2 * n + 1) * (E1 * E2)).
  { pose proof (Z.mul_lt_mono_pos_r E1 (2 * m2) (2 * E2 * (n + 1) - E2)
                  ltac:(lia)) as [K _].
    specialize (K ltac:(lia)). lia. }
  assert (V1 : 3600 * (m1 * E2) <= s * (E1 * E2) + 1800 * E2).
  { pose proof (Z.mul_le_mono_nonneg_r _ _ E2 ltac:(lia) M1). lia. }
  assert (V2 : s * (E1 * E2) - 1800 * E2 <= 3600 * (m1 * E2)).
  { pose proof (Z.mul_le_mono_nonneg_r _ _ E2 ltac:(lia) M1'). lia. }
  assert (W1 : (36 * n - 18 - s) * (E1 * E2) <= 1800 * E2 + 18 * E1) by lia.
  assert (W2 : - (1800 * E2 + 18 * E1) < (36 * n + 18 - s) * (E1 * E2)) by lia.
  split.
  - destruct (Z.le_gt_cases 0 (36 * n + 18 - s)) as [L | G]; [lia | exfalso].
    pose proof (Z.mul_le_mono_nonneg_r (36 * n + 18 - s) (-1) (E1 * E2)
                  ltac:(lia) ltac:(lia)). lia.
  - destruct (Z.le_gt_cases (36 * n - 18 - s) 0) as [L | G]; [lia | exfalso].
    pose proof (Z.mul_le_mono_nonneg_r 1 (36 * n - 18 - s) (E1 * E2)
                  ltac:(lia) ltac:(lia)). lia.
Qed.

Lemma roundHours_0 : roundHours 0 = 0.
Proof. reflexivity. Qed.

Lemma roundHours_error (s : Z) :
  0 <= s < 2 ^ 50 -> - 18 <= 36 * roundHours s - s <= 18.
Proof.
  intros [Hs0 Hs].
  change (2 ^ 50) with 1125899906842624 in Hs.
  destruct (Z.eq_dec s 0) as [-> | Hnz]; [rewrite roundHours_0; lia|].
  assert (P52 : 2 ^ 52 = 4503599627370496) by reflexivity.
  unfold roundHours, div_int.
  destruct (of_ratio_small s 3600 ltac:(lia) ltac:(lia) ltac:(rewrite P52; lia))
    as (He1 & HE1 & A1 & A2).
  set (x1 := of_ratio s 3600) in *.
  set (E1 := 2 ^ (- expo x1)) in *.
  assert (Hm1 : 0 < mant x1 * 100) by (rewrite P52 in A2; nia).
  assert (Hsmall : mant x1 * 100 < 2 ^ 52 * E1) by (rewrite P52 in *; nia).
  unfold mul_int.
  destruct (Z.leb_spec 0 (expo x1)) as [Hge | _]; [lia|].
  fold E1.
  destruct (of_ratio_small (mant x1 * 100) E1 Hm1 ltac:(lia) Hsmall)
    as (He2 & HE2 & B1 & B2).
  set (x2 := of_ratio (mant x1 * 100) E1) in *.
  set (E2 := 2 ^ (- expo x2)) in *.
  unfold Math_round.
  destruct (Z.leb_spec 0 (expo x2)) as [Hge | _]; [lia|].
  fold E2.
  set (n := (2 * mant x2 + E2) / (2 * E2)).
  assert (C : 2 * E2 * n <= 2 * mant x2 + E2 < 2 * E2 * (n + 1)).
  { unfold n. split.
    - apply Z.mul_div_le. lia.
    - replace (2 * E2 * ((2 * mant x2 + E2) / (2 * E2) + 1))
        with (2 * E2 * Z.succ ((2 * mant x2 + E2) / (2 * E2))) by lia.
      apply Z.mul_succ_div_gt. lia. }
  apply (round_chain s (mant x1) E1 (mant x2) E2 n (2 ^ 52) P52);
    try assumption; lia.
Qed.

Lemma round_half_away_nonneg (x : F64.t) :
  0 <= mant x -> round_half_away_from_zero x = Math_round x.
Proof.
  intros H. unfold round_half_away_from_zero, Math_round. cbn [mant expo].
  rewrite Z.abs_eq by exact H.
  destruct (Z.eq_dec (mant x) 0) as [E | NE].
  - rewrite E. simpl Z.sgn. rewrite Z.mul_0_l.
    destruct (Z.leb_spec 0 (expo x)) as [Hge | Hlt]; [lia|].
    pose proof (Z.pow_pos_nonneg 2 (- expo x) ltac:(lia) ltac:(lia)).
    symmetry. apply Z.div_small. lia.
  - rewrite Z.sgn_pos by lia. apply Z.mul_1_l.
Qed.

Lemma product_mant_nonneg (s : Z) :
  0 <= s -> 0 <= mant (mul_int (div_int s 3600) 100).
Proof.
  intros H. unfold div_int, mul_int.
  pose proof (of_ratio_mant_nonneg s 3600 H ltac:(lia)) as M.
  destruct (0 <=? expo (of_ratio s 3600)); apply of_ratio_mant_nonneg; lia.
Qed.

Lemma spec_hours_roundHours (s : Z) : 0 <= s -> spec_hours s = roundHours s.
Proof.
  intros H. unfold spec_hours, roundHours.
  apply round_half_away_nonneg, product_mant_nonneg, H.
Qed.

(** The product is the binary64 one: 522 seconds are 14.5 hundredths of
    an hour exactly, the computed product is just below and rounds to
    0.14. *)
Lemma spec_hours_below_tie : spec_hours 522 = 14.
Proof. reflexivity. Qed.

Lemma rounded_spec (o : Js.obj dval) :
  nonneg o ->
  rounded o =
  List.map (fun kv => (fst kv, Num (spec_hours (seconds_of (snd kv))))) o.
Proof.
  intros H. unfold rounded. apply map_ext_in. intros kv Hin.
  unfold nonneg in H. rewrite Forall_forall in H.
  destruct (H kv Hin) as (z & E & Hz). rewrite E. simpl.
  rewrite spec_hours_roundHours by exact Hz. reflexivity.
Qed.

End RoundHours.

(** ** Dictionaries *)

Module ObjFacts.

Lemma set_keys_in {V} (o : Js.obj V) (k x : string) (v : V) :
  In x (keys (Js.set o k v)) -> x = k \/ In x (keys o).
Proof.
  induction o as [| [k' v'] r IH]; simpl.
  - intros [E | []]. left. symmetry. exact E.
  - destruct (String.eqb k' k); simpl.
    + intros H. right. exact H.
    + intros [E | H]; [right; left; exact E|].
      destruct (IH H) as [E | H']; [left; exact E | right; right; exact H'].
Qed.

Lemma set_NoDup {V} (o : Js.obj V) (k : string) (v : V) :
  NoDup (keys o) -> NoDup (keys (Js.set o k v)).
Proof.
  induction o as [| [k' v'] r IH]; simpl; intros H.
  - constructor; [intros [] | constructor].
  - inversion H as [| ? ? Hnot Hr]; subst.
    destruct (String.eqb_spec k' k) as [E | NE]; simpl.
    + constructor; assumption.
    + constructor; [|apply IH; exact Hr].
      intros Hin. destruct (set_keys_in _ _ _ _ Hin) as [E | Hin'];
        [congruence | contradiction].
Qed.

Lemma add_to_NoDup (o : Js.obj dval) (k : string) (d : Z) :
  NoDup (keys o) -> NoDup (keys (add_to o k d)).
Proof.
  intros H. unfold add_to.
  destruct (Js.get o k) as [[v |] |]; try (apply set_NoDup; exact H).
  destruct (Js.inherited k); [| apply set_NoDup; exact H].
  destruct (String.eqb k "__proto__"); [exact H | apply set_NoDup; exact H].
Qed.

Lemma get_set {V} (o : Js.obj V) (k k' : string) (v : V) :
  Js.get (Js.set o k v) k' = if String.eqb k k' then Some v else Js.get o k'.
Proof.
  induction o as [| [k0 v0] r IH]; simpl.
  - destruct (String.eqb k k'); reflexivity.
  - destruct (String.eqb_spec k0 k) as [-> | NE]; simpl.
    + destruct (String.eqb_spec k k'); reflexivity.
    + destruct (String.eqb_spec k0 k') as [-> | NE'].
      * destruct (String.eqb_spec k k'); [congruence | reflexivity].
      * exact IH.
Qed.

Lemma get_in {V} (o : Js.obj V) (k : string) (v : V) :
  Js.get o k = Some v -> In (k, v) o.
Proof.
  induction o as [| [k0 v0] r IH]; simpl; [discriminate|].
  destruct (String.eqb_spec k0 k) as [-> | NE].
  - intros E. injection E as <-. left. reflexivity.
  - intros E. right. apply IH, E.
Qed.

Lemma total_set_present (o : Js.obj dval) (k : string) (v v0 : dval) :
  Js.get o k = Some v0 ->
  total (Js.set o k v) = total o - seconds_of v0 + seconds_of v.
Proof.
  unfold total. induction o as [| [k0 u] r IH]; simpl; [discriminate|].
  destruct (String.eqb k0 k); simpl.
  - intros E. injection E as <-. lia.
  - intros E. rewrite (IH E). lia.
Qed.

Lemma total_set_absent (o : Js.obj dval) (k : string) (v : dval) :
  Js.get o k = None -> total (Js.set o k v) = total o + seconds_of v.
Proof.
  unfold total. induction o as [| [k0 u] r IH]; simpl; [lia|].
  destruct (String.eqb k0 k); simpl; [discriminate|].
  intros E. rewrite (IH E). lia.
Qed.

Lemma nonneg_set (o : Js.obj dval) (k : string) (z : Z) :
  nonneg o -> 0 <= z -> nonneg (Js.set o k (DNum z)).
Proof.
  intros H Hz. unfold nonneg in *.
  induction o as [| [k0 u] r IH]; simpl.
  - constructor; [exists z; split; [reflexivity | exact Hz] | constructor].
  - inversion H as [| ? ? Hv Hr]; subst.
    destruct (String.eqb k0 k).
    + constructor; [exists z; split; [reflexivity | exact Hz] | exact Hr].
    + constructor; [exact Hv | apply IH, Hr].
Qed.

Lemma nonneg_get (o : Js.obj dval) (k : string) (v : dval) :
  nonneg o -> Js.get o k = Some v -> exists z, v = DNum z /\ 0 <= z.
Proof.
  intros H E. apply get_in in E. unfold nonneg in H.
  rewrite Forall_forall in H. exact (H _ E).
Qed.

(** On a key that is not inherited, a dictionary of numbers stays one and
    gains the duration. *)
Lemma add_to_plain (o : Js.obj dval) (k : string) (d : Z) :
  Js.inherited k = false -> 0 <= d -> nonneg o ->
  nonneg (add_to o k d) /\ total (add_to o k d) = total o + d.
Proof.
  intros Hk Hd Hn. unfold add_to.
  destruct (Js.get o k) as [v |] eqn:E.
  - destruct (nonneg_get o k v Hn E) as (z & -> & Hz).
    split; [apply nonneg_set; [exact Hn | lia]|].
    rewrite (total_set_present o k _ _ E). simpl. lia.
  - rewrite Hk.
    split; [apply nonneg_set; [exact Hn | lia]|].
    rewrite (total_set_absent o k _ E). simpl. lia.
Qed.

Lemma get_add_to (o : Js.obj dval) (k k' : string) (d : Z) :
  Js.get (add_to o k d) k' =
  if String.eqb k k' then bump k (Js.get o k) d else Js.get o k'.
Proof.
  unfold add_to, bump.
  destruct (Js.get o k) as [[v |] |] eqn:E; try apply get_set.
  destruct (Js.inherited k); [| apply get_set].
  destruct (String.eqb k "__proto__"); [| apply get_set].
  destruct (String.eqb_spec k k') as [<- | NE]; [exact E | reflexivity].
Qed.

Lemma set_fresh {V} (o : Js.obj V) (k : string) (v : V) :
  ~ In k (keys o) -> Js.set o k v = (o ++ [(k, v)])%list.
Proof.
  induction o as [| [k' v'] r IH]; simpl; intros H.
  - reflexivity.
  - destruct (String.eqb_spec k' k) as [E | NE].
    + exfalso. apply H. left. exact E.
    + f_equal. apply IH. intros Hin. apply H. right. exact Hin.
Qed.

Lemma fromEntries_from {V} (l acc : list (string * V)) :
  NoDup (keys (acc ++ l)%list) ->
  fold_left (fun o kv => Js.set o (fst kv) (snd kv)) l acc = (acc ++ l)%list.
Proof.
  revert acc. induction l as [| [k v] r IH]; intros acc H; simpl.
  - rewrite app_nil_r. reflexivity.
  - assert (Hk : ~ In k (keys acc)).
    { unfold keys in *. rewrite map_app in H. simpl in H.
      apply NoDup_remove_2 in H. intros Hin. apply H.
      apply in_or_app. left. exact Hin. }
    rewrite set_fresh by exact Hk.
    rewrite IH; rewrite <- app_assoc; [reflexivity | exact H].
Qed.

Lemma fromEntries_NoDup {V} (l : list (string * V)) :
  NoDup (keys l) -> Js.fromEntries l = l.
Proof. intros H. unfold Js.fromEntries. apply (fromEntries_from l []). exact H. Qed.

Lemma insert_sorted_perm {A} (le : A -> A -> bool) (x : A) (l : list A) :
  Permutation (Js.insert_sorted le x l) (x :: l).
Proof.
  induction l as [| y r IH]; simpl.
  - apply Permutation_refl.
  - destruct (le x y).
    + apply Permutation_refl.
    + eapply perm_trans; [apply perm_skip, IH | apply perm_swap].
Qed.

Lemma stable_sort_perm {A} (le : A -> A -> bool) (l : list A) :
  Permutation (Js.stable_sort le l) l.
Proof.
  induction l as [| x r IH]; simpl.
  - apply perm_nil.
  - eapply perm_trans; [apply insert_sorted_perm | apply perm_skip, IH].
Qed.

Lemma entries_perm {V} (o : Js.obj V) : Permutation (Js.entries o) o.
Proof.
  unfold Js.entries.
  eapply perm_trans; [apply Permutation_app_tail, stable_sort_perm|].
  induction o as [| kv r IH]; simpl.
  - apply perm_nil.
  - destruct (Js.array_index (fst kv)); simpl.
    + apply perm_skip, IH.
    + eapply perm_trans; [apply Permutation_sym, Permutation_middle|].
      apply perm_skip, IH.
Qed.

Lemma add_comm (x y : jsnum) : Js.add x y = Js.add y x.
Proof. destruct x, y; simpl; try reflexivity. f_equal. lia. Qed.

Lemma add_assoc (x y z : jsnum) :
  Js.add x (Js.add y z) = Js.add (Js.add x y) z.
Proof. destruct x, y, z; simpl; try reflexivity. f_equal. lia. Qed.

Lemma hours_sum_perm (a b : Js.obj jsnum) :
  Permutation a b -> hours_sum a = hours_sum b.
Proof.
  intros H. unfold hours_sum.
  induction H as [| x l l' H IH | x y l | l l' l'' H1 IH1 H2 IH2]; simpl.
  - reflexivity.
  - rewrite IH. reflexivity.
  - rewrite !add_assoc, (add_comm (snd y) (snd x)). reflexivity.
  - rewrite IH1. exact IH2.
Qed.

Lemma keys_perm {V} (a b : Js.obj V) :
  Permutation a b -> Permutation (keys a) (keys b).
Proof. apply Permutation_map. Qed.

Lemma rounded_keys (o : Js.obj dval) : keys (rounded o) = keys o.
Proof. unfold keys, rounded. rewrite map_map. reflexivity. Qed.

Lemma rounded_length (o : Js.obj dval) :
  List.length (rounded o) = List.length o.
Proof. apply length_map. Qed.

End ObjFacts.

Section Aggregation.
Import ObjFacts.

Lemma total_cons (kv : string * dval) (o : Js.obj dval) :
  total (kv :: o) = seconds_of (snd kv) + total o.
Proof. reflexivity. Qed.

Lemma total_nonneg (o : Js.obj dval) : nonneg o -> 0 <= total o.
Proof.
  induction 1 as [| kv r Hv Hr IH]; [unfold total; simpl; lia|].
  rewrite total_cons. destruct Hv as (z & -> & Hz). simpl. lia.
Qed.

(** The hours of a dictionary of numbers add up to a number, within half a
    hundredth per bucket of the seconds. *)
Lemma rounded_sum_error (o : Js.obj dval) (B : Z) :
  nonneg o -> total o < 2 ^ 50 ->
  exists h,
    hours_sum (rounded o) = Num h /\
    - (18 * Z.of_nat (List.length o)) <= 36 * h - total o
      <= 18 * Z.of_nat (List.length o).
Proof.
  induction 1 as [| kv r Hv Hr IH]; intros Hb.
  - exists 0. split; [reflexivity|]. unfold total. simpl. lia.
  - rewrite total_cons in Hb. destruct Hv as (z & Ez & Hz).
    pose proof (total_nonneg r Hr) as H0.
    rewrite Ez in Hb. simpl in Hb.
    destruct (IH ltac:(lia)) as (h & Eh & Hh).
    exists (roundHours z + h). split.
    + change (rounded (kv :: r))
        with ((fst kv, roundBucket (snd kv)) :: rounded r).
      unfold hours_sum in *. simpl. rewrite Eh, Ez. reflexivity.
    + pose proof (roundHours_error z ltac:(lia)) as E.
      rewrite total_cons, Ez. cbn [seconds_of List.length].
      rewrite Nat2Z.inj_succ. lia.
Qed.

Lemma breakdown_error (b : Js.obj jsnum) (D : Js.obj dval) (T : Z) :
  Permutation b (rounded D) -> nonneg D -> total D = T -> T < 2 ^ 50 ->
  exists h,
    hours_sum b = Num h /\
    2 * Z.abs (h - roundHours T) <= Z.of_nat (List.length b) + 1.
Proof.
  intros Hp Hn Ht Hb.
  rewrite (hours_sum_perm _ _ Hp), (Permutation_length Hp), rounded_length.
  rewrite <- Ht in Hb.
  pose proof (total_nonneg D Hn) as H0.
  destruct (rounded_sum_error D 0 Hn Hb) as (h & Eh & E1).
  exists h. split; [exact Eh|].
  pose proof (roundHours_error T ltac:(lia)) as E2.
  lia.
Qed.

Lemma abs_duration_eq (e : TimeEntry) :
  Z.abs (Js.num_or_0 (duration e)) = abs_duration e.
Proof. unfold abs_duration. destruct (duration e); reflexivity. Qed.

Lemma abs_duration_nonneg (e : TimeEntry) : 0 <= abs_duration e.
Proof. unfold abs_duration. destruct (duration e); lia. Qed.

Lemma sumZ_abs_nonneg (l : list TimeEntry) :
  0 <= sumZ (List.map abs_duration l).
Proof.
  induction l as [| e r IH]; simpl; [lia|].
  pose proof (abs_duration_nonneg e). lia.
Qed.

Lemma weekly_loop_inv (entries : list TimeEntry) :
  forall T D P st T' D' P' st',
    weekly_loop entries T D P st = (Return (T', D', P'), st') ->
    st' = st /\
    T' = T + sumZ (List.map abs_duration entries) /\
    (NoDup (keys D) -> NoDup (keys D')) /\
    (NoDup (keys P) -> NoDup (keys P')) /\
    (Forall (fun e => Js.inherited (entry_date e) = false) entries ->
     nonneg D -> nonneg D' /\ total D' = total D + (T' - T)) /\
    (Forall (fun e => Js.inherited (entry_project e) = false) entries ->
     nonneg P -> nonneg P' /\ total P' = total P + (T' - T)).
Proof.
  induction entries as [| e r IH]; intros T D P st T' D' P' st' H.
  - simpl in H. unfold ret in H. injection H as <- <- <- <-.
    simpl. repeat split; try lia; auto.
  - simpl in H. destruct (start e) as [| | s] eqn:Es; try discriminate H.
    apply IH in H.
    destruct H as (Hst & HT & ND & NP & GD & GP).
    rewrite abs_duration_eq in *.
    pose proof (abs_duration_nonneg e) as Hpos.
    assert (Ed : Js.before_T s = entry_date e)
      by (unfold entry_date; rewrite Es; reflexivity).
    split; [exact Hst|]. split; [simpl; lia|].
    split; [intros N; apply ND, add_to_NoDup, N|].
    split; [intros N; apply NP, add_to_NoDup, N|].
    split.
    + intros F N. inversion F as [| ? ? Pd Fr]; subst.
      rewrite Ed in GD.
      destruct (add_to_plain D (entry_date e) _ Pd Hpos N) as [N1 T1].
      destruct (GD Fr N1) as [N2 T2]. split; [exact N2|].
      rewrite T2, T1. lia.
    + intros F N. inversion F as [| ? ? Pp Fr]; subst.
      change (Js.str_or (project_name e) "No Project")
        with (entry_project e) in GP.
      destruct (add_to_plain P (entry_project e) _ Pp Hpos N) as [N1 T1].
      destruct (GP Fr N1) as [N2 T2]. split; [exact N2|].
      rewrite T2, T1. lia.
Qed.

Lemma breakdown_perm (le : string * jsnum -> string * jsnum -> bool)
    (o : Js.obj dval) :
  NoDup (keys o) ->
  Permutation
    (Js.fromEntries
       (Js.stable_sort le
          (List.map (fun kv => (fst kv, roundBucket (snd kv))) (Js.entries o))))
    (rounded o).
Proof.
  intros N.
  assert (P : Permutation
                (Js.stable_sort le
                   (List.map (fun kv => (fst kv, roundBucket (snd kv)))
                             (Js.entries o)))
                (rounded o)).
  { eapply perm_trans; [apply stable_sort_perm|].
    apply Permutation_map, entries_perm. }
  rewrite fromEntries_NoDup; [exact P|].
  apply (Permutation_NoDup (l := keys (rounded o))).
  - apply Permutation_sym, keys_perm, P.
  - rewrite rounded_keys. exact N.
Qed.

(** What the fields of a returned summary are made from: both dates of
    the window were valid, the entries are those received for it, and the
    breakdowns are the dictionaries of the loop, converted and put in
    order. *)
Lemma summary_shape (w : World) (off : Z) (st st' : ClientState)
    (s : WeeklySummary) :
  getWeeklyEntries w off st = (Return s, st') ->
  exists monday sunday T D P,
    weekMonday (zone w) (now w) off = Some monday /\
    weekSunday (zone w) (Some monday) = Some sunday /\
    reply_time_entries w monday sunday = Ok200 (Some (entries s)) /\
    st' = {| workspaceId := workspaceId st;
             sent := GET_time_entries monday sunday :: sent st |} /\
    weekly_loop (entries s) 0 [] [] st' = (Return (T, D, P), st') /\
    week_starting s = JSDate.isoDate monday /\
    week_ending s = JSDate.isoDate sunday /\
    total_hours s = roundHours T /\
    daily_breakdown s =
      Js.fromEntries
        (Js.stable_sort
           (fun a b => String.leb (pair_to_string a) (pair_to_string b))
           (List.map (fun ds => (fst ds, roundBucket (snd ds)))
                     (Js.entries D))) /\
    project_breakdown s =
      Js.fromEntries
        (Js.stable_sort hours_not_below
           (List.map (fun ps => (fst ps, roundBucket (snd ps)))
                     (Js.entries P))) /\
    entry_count s = Z.of_nat (List.length (entries s)).
Proof.
  unfold getWeeklyEntries. cbv zeta.
  destruct (weekMonday (zone w) (now w) off) as [monday |] eqn:Em;
    [| intros H; discriminate H].
  destruct (weekSunday (zone w) (Some monday)) as [sunday |] eqn:Es;
    [| intros H; discriminate H].
  unfold getEntriesForDateRange, toISODate, bind, call.
  destruct (reply_time_entries w monday sunday) as [[es |] | status msg] eqn:Er;
    try (intros H; discriminate H).
  match goal with
  | |- context [weekly_loop es 0 [] [] ?st0] =>
      destruct (weekly_loop es 0 [] [] st0) as [[[[T D] P] | e] st1] eqn:L
  end; try (intros H; discriminate H).
  intros H. unfold ret in H. injection H as <- <-.
  destruct (weekly_loop_inv _ _ _ _ _ _ _ _ _ L) as (Hst & _).
  exists monday, sunday, T, D, P. rewrite Hst in L |- *.
  split; [reflexivity|]. split; [exact Es|].
  cbn [entries week_starting week_ending total_hours daily_breakdown
       project_breakdown entry_count].
  split; [exact Er|]. split; [reflexivity|]. split; [exact L|].
  repeat split.
Qed.

(** The loop of a returned summary, with what holds of its buckets
    whatever the keys. *)
Lemma summary_buckets (w : World) (off : Z) (st st' : ClientState)
    (s : WeeklySummary) :
  getWeeklyEntries w off st = (Return s, st') ->
  exists D P,
    let T := sumZ (List.map abs_duration (entries s)) in
    weekly_loop (entries s) 0 [] [] st' = (Return (T, D, P), st') /\
    total_hours s = roundHours T /\
    NoDup (keys D) /\ NoDup (keys P) /\
    Permutation (daily_breakdown s) (rounded D) /\
    Permutation (project_breakdown s) (rounded P).
Proof.
  intros H.
  destruct (summary_shape w off st st' s H)
    as (monday & sunday & T & D & P & _ & _ & _ & _ & L & _ & _ & HT
        & ED & EP & _).
  destruct (weekly_loop_inv _ _ _ _ _ _ _ _ _ L)
    as (_ & ET & ND & NP & _ & _).
  simpl in ET. subst T. exists D, P. cbv zeta.
  split; [exact L|]. split; [exact HT|].
  assert (ND' : NoDup (keys D)) by (apply ND; constructor).
  assert (NP' : NoDup (keys P)) by (apply NP; constructor).
  split; [exact ND'|]. split; [exact NP'|].
  rewrite ED, EP. split; apply breakdown_perm; assumption.
Qed.

(** The same when no key is inherited: the dictionaries hold numbers, and
    each adds up to the seconds of the total. *)
Lemma getWeeklyEntries_inv (w : World) (off : Z) (st st' : ClientState)
    (s : WeeklySummary) :
  getWeeklyEntries w off st = (Return s, st') ->
  Forall plain_keys (entries s) ->
  exists D P,
    let T := sumZ (List.map abs_duration (entries s)) in
    weekly_loop (entries s) 0 [] [] st' = (Return (T, D, P), st') /\
    total D = T /\ total P = T /\ nonneg D /\ nonneg P /\
    total_hours s = roundHours T /\
    Permutation (daily_breakdown s) (rounded D) /\
    Permutation (project_breakdown s) (rounded P).
Proof.
  intros H F.
  destruct (summary_buckets w off st st' s H)
    as (D & P & L & HT & _ & _ & PD & PP).
  cbv zeta in *.
  destruct (weekly_loop_inv _ _ _ _ _ _ _ _ _ L)
    as (_ & _ & _ & _ & GD & GP).
  destruct (GD (Forall_impl _ (fun e Hk => proj1 Hk) F) ltac:(constructor))
    as [ND TD].
  destruct (GP (Forall_impl _ (fun e Hk => proj2 Hk) F) ltac:(constructor))
    as [NP TP].
  exists D, P. cbv zeta.
  unfold total in TD at 2. unfold total in TP at 2. simpl in TD, TP.
  repeat split; try assumption; lia.
Qed.

Lemma five_days_weekly :
  getWeeklyEntries five_days 0 fresh =
  (Return five_days_summary,
   {| workspaceId := None;
      sent := [GET_time_entries 1793577600000 1794182399999] |}).
Proof. vm_compute. reflexivity. Qed.

Lemma five_days_plain : Forall plain_keys (entries five_days_summary).
Proof. repeat constructor. Qed.

End Aggregation.

(** ** The buckets of the aggregation *)

Module BucketFacts.
Import ObjFacts.

Lemma has_key_cons (key : TimeEntry -> string) (k : string) (e : TimeEntry)
    (r : list TimeEntry) :
  has_key key k (e :: r) = String.eqb (key e) k || has_key key k r.
Proof. reflexivity. Qed.

Lemma bucket_seconds_cons (key : TimeEntry -> string) (k : string)
    (e : TimeEntry) (r : list TimeEntry) :
  bucket_seconds key k (e :: r) =
  (if String.eqb (key e) k then abs_duration e else 0) + bucket_seconds key k r.
Proof.
  unfold bucket_seconds. simpl. destruct (String.eqb (key e) k); reflexivity.
Qed.

Lemma bumps_cons (key : TimeEntry -> string) (k : string) (e : TimeEntry)
    (r : list TimeEntry) (cur : option dval) :
  bumps key k (e :: r) cur =
  bumps key k r (if String.eqb (key e) k
                 then bump k cur (abs_duration e) else cur).
Proof. reflexivity. Qed.

(** A bucket that holds a number gains the seconds of its entries. *)
Lemma bumps_num (key : TimeEntry -> string) (k : string)
    (entries : list TimeEntry) (v : Z) :
  bumps key k entries (Some (DNum v)) =
  Some (DNum (v + bucket_seconds key k entries)).
Proof.
  revert v. induction entries as [| e r IH]; intros v.
  - unfold bucket_seconds. simpl. f_equal. f_equal. lia.
  - rewrite bumps_cons, bucket_seconds_cons.
    destruct (String.eqb (key e) k); simpl; rewrite IH; f_equal; f_equal; lia.
Qed.

(** A bucket that holds a text keeps holding one. *)
Lemma bumps_text (key : TimeEntry -> string) (k : string)
    (entries : list TimeEntry) :
  bumps key k entries (Some DText) = Some DText.
Proof.
  induction entries as [| e r IH]; [reflexivity|].
  rewrite bumps_cons. destruct (String.eqb (key e) k); simpl; exact IH.
Qed.

(** The bucket of a key in a dictionary that starts empty. *)
Lemma bumps_none (key : TimeEntry -> string) (k : string)
    (entries : list TimeEntry) :
  bumps key k entries None =
  if has_key key k entries
  then if Js.inherited k
       then if String.eqb k "__proto__" then None else Some DText
       else Some (DNum (bucket_seconds key k entries))
  else None.
Proof.
  induction entries as [| e r IH]; [reflexivity|].
  rewrite bumps_cons, has_key_cons, bucket_seconds_cons.
  destruct (String.eqb (key e) k); simpl.
  - destruct (Js.inherited k).
    + destruct (String.eqb k "__proto__").
      * rewrite IH. destruct (has_key key k r); reflexivity.
      * apply bumps_text.
    + rewrite bumps_num. f_equal.
  - exact IH.
Qed.

Lemma weekly_loop_buckets (entries : list TimeEntry) :
  forall T D P st T' D' P' st',
    weekly_loop entries T D P st = (Return (T', D', P'), st') ->
    forall k,
      Js.get D' k = bumps entry_date k entries (Js.get D k) /\
      Js.get P' k = bumps entry_project k entries (Js.get P k).
Proof.
  induction entries as [| e r IH]; intros T D P st T' D' P' st' H k.
  - simpl in H. unfold ret in H. injection H as <- <- <- <-.
    split; reflexivity.
  - simpl in H. destruct (start e) as [| | s] eqn:Es; try discriminate H.
    destruct (IH _ _ _ _ _ _ _ _ H k) as [HD HP].
    rewrite abs_duration_eq in HD, HP.
    assert (Ed : Js.before_T s = entry_date e)
      by (unfold entry_date; rewrite Es; reflexivity).
    rewrite Ed in HD.
    change (Js.str_or (project_name e) "No Project")
      with (entry_project e) in HP.
    rewrite HD, HP, !bumps_cons, !get_add_to.
    split.
    + destruct (String.eqb_spec (entry_date e) k) as [-> |]; reflexivity.
    + destruct (String.eqb_spec (entry_project e) k) as [-> |]; reflexivity.
Qed.

Lemma get_rounded (o : Js.obj dval) (k : string) :
  Js.get (rounded o) k = option_map roundBucket (Js.get o k).
Proof.
  unfold rounded. induction o as [| [k0 v0] r IH]; simpl; [reflexivity|].
  destruct (String.eqb k0 k); [reflexivity | exact IH].
Qed.

Lemma get_In {V} (o : Js.obj V) (k : string) (v : V) :
  NoDup (keys o) -> (Js.get o k = Some v <-> In (k, v) o).
Proof.
  induction o as [| [k0 v0] r IH]; simpl; intros N.
  - split; [discriminate | intros []].
  - inversion N as [| ? ? Hnot Hr]; subst.
    destruct (String.eqb_spec k0 k) as [-> | NE].
    + split.
      * intros E. injection E as <-. left. reflexivity.
      * intros [E | Hin]; [injection E as <-; reflexivity|].
        exfalso. apply Hnot. apply (in_map fst) in Hin. exact Hin.
    + rewrite (IH Hr). split.
      * intros Hin. right. exact Hin.
      * intros [E | Hin]; [congruence | exact Hin].
Qed.

Lemma get_None {V} (o : Js.obj V) (k : string) :
  Js.get o k = None <-> ~ In k (keys o).
Proof.
  induction o as [| [k0 v0] r IH]; simpl.
  - tauto.
  - destruct (String.eqb_spec k0 k) as [-> | NE].
    + split; [discriminate | intros H; exfalso; apply H; left; reflexivity].
    + rewrite IH. split.
      * intros H [E | Hin]; [congruence | exact (H Hin)].
      * intros H Hin. apply H. right. exact Hin.
Qed.

Lemma get_perm {V} (a b : Js.obj V) (k : string) :
  NoDup (keys a) -> Permutation a b -> Js.get a k = Js.get b k.
Proof.
  intros Na Hp.
  assert (Nb : NoDup (keys b))
    by (apply (Permutation_NoDup (keys_perm _ _ Hp) Na)).
  destruct (Js.get a k) as [v |] eqn:Ea.
  - symmetry. apply (get_In b k v Nb).
    apply (Permutation_in _ Hp). apply (get_In a k v Na). exact Ea.
  - symmetry. apply get_None. intros Hin.
    apply (proj1 (get_None a k) Ea).
    apply (Permutation_in _ (Permutation_sym (keys_perm _ _ Hp))). exact Hin.
Qed.

(** Every bucket of a returned summary, by its key. *)
Lemma summary_get (w : World) (off : Z) (st st' : ClientState)
    (s : WeeklySummary) :
  getWeeklyEntries w off st = (Return s, st') ->
  NoDup (keys (daily_breakdown s)) /\
  NoDup (keys (project_breakdown s)) /\
  forall k,
    Js.get (daily_breakdown s) k =
      option_map roundBucket (bumps entry_date k (entries s) None) /\
    Js.get (project_breakdown s) k =
      option_map roundBucket (bumps entry_project k (entries s) None).
Proof.
  intros H.
  destruct (summary_buckets w off st st' s H)
    as (D & P & L & _ & ND & NP & PD & PP).
  cbv zeta in L.
  assert (NDb : NoDup (keys (daily_breakdown s))).
  { apply (Permutation_NoDup (l := keys (rounded D))).
    - apply Permutation_sym, keys_perm, PD.
    - rewrite rounded_keys. exact ND. }
  assert (NPb : NoDup (keys (project_breakdown s))).
  { apply (Permutation_NoDup (l := keys (rounded P))).
    - apply Permutation_sym, keys_perm, PP.
    - rewrite rounded_keys. exact NP. }
  split; [exact NDb|]. split; [exact NPb|].
  intros k.
  destruct (weekly_loop_buckets _ _ _ _ _ _ _ _ _ L k) as [GD GP].
  rewrite (get_perm _ _ k NDb PD), (get_perm _ _ k NPb PP), !get_rounded.
  rewrite GD, GP. split; reflexivity.
Qed.

End BucketFacts.

Section Claims.
Import ObjFacts BucketFacts.

(** C2, the divergence.  A project (or a date) named like a member
    every object inherits -- constructor, toString, valueOf,
    hasOwnProperty, ... -- does not start its bucket from 0:
    [dict[key] || 0] finds the inherited member, [+] appends the duration
    to its text, and the hours of the bucket are NaN, not the rounded
    seconds; under the name [__proto__] the bucket is dropped and the
    breakdown has no such key. *)
Theorem inherited_bucket_not_hours (w : World) (off : Z)
    (st st' : ClientState) (s : WeeklySummary) (k : string)
    (H : getWeeklyEntries w off st = (Return s, st'))
    (Hk : Js.inherited k = true) :
  (has_key entry_project k (entries s) = true ->
   Js.get (project_breakdown s) k =
   if String.eqb k "__proto__" then None else Some NaN) /\
  (has_key entry_date k (entries s) = true ->
   Js.get (daily_breakdown s) k =
   if String.eqb k "__proto__" then None else Some NaN).
Proof.
  destruct (summary_get w off st st' s H) as (_ & _ & G).
  destruct (G k) as [GD GP].
  split; intros Hh.
  - rewrite GP, bumps_none, Hh, Hk.
    destruct (String.eqb k "__proto__"); reflexivity.
  - rewrite GD, bumps_none, Hh, Hk.
    destruct (String.eqb k "__proto__"); reflexivity.
Qed.

Lemma constructor_weekly :
  getWeeklyEntries constructor_world 0 fresh =
  (Return {| week_starting := "2026-11-02";
             week_ending := "2026-11-08";
             total_hours := 100;
             daily_breakdown := [("2026-11-02", Num 100)];
             project_breakdown := [("constructor", NaN)];
             entry_count := 1;
             entries := [constructor_entry] |},
   {| workspaceId := None;
      sent := [GET_time_entries 1793577600000 1794182399999] |}).
Proof. vm_compute. reflexivity. Qed.

Lemma inherited_bucket_not_hours_witness :
  exists s st',
    getWeeklyEntries constructor_world 0 fresh = (Return s, st') /\
    Js.inherited "constructor" = true /\
    has_key entry_project "constructor" (entries s) = true /\
    Js.get (project_breakdown s) "constructor" = Some NaN.
Proof.
  eexists. eexists.
  assert (Hk : Js.inherited "constructor" = true) by reflexivity.
  split; [exact constructor_weekly|]. split; [exact Hk|].
  split; [reflexivity|].
  exact (proj1 (inherited_bucket_not_hours constructor_world 0 fresh _ _
                  "constructor" constructor_weekly Hk) eq_refl).
Defined.

(** The same through the tool: one hour on the project "constructor" is
    reported as NaN hours. *)
Lemma weekly_constructor_example :
  fst (handle_call constructor_world "toggl_weekly"
         (Some (JObj [("week_offset", JNum 0)])) fresh) =
  Return ((("Current Week Summary (2026-11-02 to 2026-11-08)" ++ nl)
           ++ "Total: 1 hours" ++ nl ++ nl)
          ++ (("Daily Breakdown:" ++ nl)
              ++ ("  2026-11-02: 1h" ++ nl)
              ++ ("    • refactor (1h)" ++ nl))
          ++ nl
          ++ (("Project Breakdown:" ++ nl)
              ++ ("  constructor: NaNh" ++ nl))
          ++ nl ++ "Total entries: 1").
Proof. vm_compute. reflexivity. Qed.

(** C3, amended.  In a returned summary whose entries have no date and no
    project named like an inherited member, and whose durations total less
    than [2 ^ 50] seconds, the per-day hours sum to the total hours within
    0.005 hour for each day of the breakdown plus 0.005, and the
    per-project hours within 0.005 for each project plus 0.005: every
    value is rounded on its own, by at most half a hundredth.  (Values are
    hundredths here, so twice the difference is at most the number of
    buckets plus one.) *)
Theorem breakdown_sums_close (w : World) (off : Z) (st st' : ClientState)
    (s : WeeklySummary)
    (H : getWeeklyEntries w off st = (Return s, st'))
    (Hp : Forall plain_keys (entries s))
    (Hb : sumZ (List.map abs_duration (entries s)) < 2 ^ 50) :
  exists days projects,
    hours_sum (daily_breakdown s) = Num days /\
    hours_sum (project_breakdown s) = Num projects /\
    2 * Z.abs (days - total_hours s)
      <= Z.of_nat (List.length (daily_breakdown s)) + 1 /\
    2 * Z.abs (projects - total_hours s)
      <= Z.of_nat (List.length (project_breakdown s)) + 1.
Proof.
  destruct (getWeeklyEntries_inv w off st st' s H Hp)
    as (D & P & L & HD & HP & GD & GP & HT & PD & PP).
  cbv zeta in *. rewrite HT.
  destruct (breakdown_error _ _ _ PD GD HD Hb) as (days & Ed & Bd).
  destruct (breakdown_error _ _ _ PP GP HP Hb) as (projects & Ep & Bp).
  exists days, projects. repeat split; assumption.
Qed.

Lemma breakdown_sums_close_witness :
  getWeeklyEntries five_days 0 fresh =
    (Return five_days_summary,
     {| workspaceId := None;
        sent := [GET_time_entries 1793577600000 1794182399999] |}) /\
  Forall plain_keys (entries five_days_summary) /\
  sumZ (List.map abs_duration (entries five_days_summary)) < 2 ^ 50 /\
  exists days,
    hours_sum (daily_breakdown five_days_summary) = Num days /\
    2 * Z.abs (days - total_hours five_days_summary) <= 5 + 1.
Proof.
  assert (Hb : sumZ (List.map abs_duration (entries five_days_summary))
               < 2 ^ 50) by reflexivity.
  split; [exact five_days_weekly|]. split; [exact five_days_plain|].
  split; [exact Hb|].
  destruct (breakdown_sums_close _ _ _ _ _ five_days_weekly five_days_plain Hb)
    as (days & projects & Ed & _ & Bd & _).
  exists days. split; [exact Ed | exact Bd].
Defined.

(** C3 as stated fails: five entries of 20 seconds on five days and five
    projects give five buckets of 0.01 hour each, 0.05 in sum, against a
    total of 0.03 hour (100 seconds). *)
Lemma breakdown_sums_two_hundredths_apart :
  exists s st',
    getWeeklyEntries five_days 0 fresh = (Return s, st') /\
    hours_sum (daily_breakdown s) = Num 5 /\
    hours_sum (project_breakdown s) = Num 5 /\
    total_hours s = 3 /\
    ~ (Z.abs (5 - total_hours s) <= 1).
Proof.
  eexists. eexists. split; [exact five_days_weekly|].
  split; [reflexivity|]. split; [reflexivity|]. split; [reflexivity|].
  vm_compute. intros H. apply H. reflexivity.
Qed.

Lemma weekly_loop_throws (entries : list TimeEntry) :
  existsb start_absent entries = true ->
  forall T D P st,
  exists what,
    (what = "undefined" \/ what = "null") /\
    weekly_loop entries T D P st = (Throw (cannot_read what "split"), st).
Proof.
  induction entries as [| e r IH]; simpl; intros H T D P st.
  - discriminate H.
  - unfold start_absent in H at 1.
    destruct (start e) as [| | s]; simpl in H.
    + exists "undefined". split; [left|]; reflexivity.
    + exists "null". split; [right|]; reflexivity.
    + apply IH. exact H.
Qed.

(** A window with an invalid date: [toISOString] throws before any
    request is made, and the tool reports an internal error. *)
Lemma weekly_invalid_window (w : World) (off : Z) (st : ClientState) :
  week_window (zone w) (now w) off = None ->
  getWeeklyEntries w off st = (Throw (JsError "Invalid time value"), st) /\
  handle_call w "toggl_weekly" (weekly_args off) st =
    (Throw (McpError InternalError "Invalid time value"), st).
Proof.
  intros Hw.
  assert (G : getWeeklyEntries w off st
              = (Throw (JsError "Invalid time value"), st)).
  { unfold week_window in Hw. unfold getWeeklyEntries. cbv zeta.
    destruct (weekMonday (zone w) (now w) off) as [monday |]; [| reflexivity].
    destruct (weekSunday (zone w) (Some monday)) as [sunday |];
      [discriminate Hw | reflexivity]. }
  split; [exact G|].
  unfold handle_call, try_catch.
  change (dispatch w "toggl_weekly" (weekly_args off))
    with (toggl_weekly w (weekly_args off)).
  unfold toggl_weekly.
  change (WeeklyEntriesSchema_parse (weekly_args off)) with (@ret Z off).
  rewrite (bind_return _ _ st st off eq_refl).
  rewrite (bind_throw _ _ _ _ _ G). reflexivity.
Qed.

(** C6, the divergence.  When the entries received contain one without a
    [start] (absent or [null]), [getWeeklyEntries] does not skip it: reading
    [entry.start.split] throws a [TypeError], and the weekly tool fails
    with that message as an internal error.  (Where the window has no
    valid dates the tool has failed before, without asking for entries.) *)
Theorem weekly_throws_on_missing_start (w : World) (off : Z)
    (st : ClientState) (entries : list TimeEntry)
    (Hr : forall a b, reply_time_entries w a b = Ok200 (Some entries))
    (Hs : existsb start_absent entries = true) :
  match week_window (zone w) (now w) off with
  | Some (monday, sunday) =>
      let st' := {| workspaceId := workspaceId st;
                    sent := GET_time_entries monday sunday :: sent st |} in
      exists what,
        (what = "undefined" \/ what = "null") /\
        getWeeklyEntries w off st = (Throw (cannot_read what "split"), st') /\
        handle_call w "toggl_weekly"
                    (Some (JObj [("week_offset", JNum off)])) st =
          (Throw (McpError InternalError
                    ("Cannot read properties of " ++ what
                     ++ " (reading 'split')")),
           st')
  | None =>
      getWeeklyEntries w off st = (Throw (JsError "Invalid time value"), st) /\
      handle_call w "toggl_weekly"
                  (Some (JObj [("week_offset", JNum off)])) st =
        (Throw (McpError InternalError "Invalid time value"), st)
  end.
Proof.
  destruct (week_window (zone w) (now w) off) as [[monday sunday] |] eqn:Ew;
    [| exact (weekly_invalid_window w off st Ew)].
  apply DateFacts.week_window_Some in Ew. destruct Ew as [Em Es].
  intros st'.
  destruct (weekly_loop_throws entries Hs 0 [] [] st') as (what & Hw & L).
  exists what. split; [exact Hw|].
  assert (G : getWeeklyEntries w off st = (Throw (cannot_read what "split"), st')).
  { unfold getWeeklyEntries. cbv zeta. rewrite Em, Es.
    unfold getEntriesForDateRange.
    rewrite Hr, bind_call_ok. fold st'.
    apply (bind_throw _ _ _ _ _ L). }
  split; [exact G|].
  unfold handle_call, try_catch.
  change (dispatch w "toggl_weekly" (Some (JObj [("week_offset", JNum off)])))
    with (toggl_weekly w (Some (JObj [("week_offset", JNum off)]))).
  unfold toggl_weekly.
  change (WeeklyEntriesSchema_parse (Some (JObj [("week_offset", JNum off)])))
    with (@ret Z off).
  rewrite (bind_return _ _ st st off eq_refl).
  rewrite (bind_throw _ _ _ _ _ G).
  destruct Hw as [-> | ->]; reflexivity.
Qed.

Lemma weekly_throws_on_missing_start_witness :
  (forall a b, reply_time_entries missing_start_world a b =
               Ok200 (Some [stopped_entry; entry_without_start])) /\
  existsb start_absent [stopped_entry; entry_without_start] = true /\
  exists what,
    handle_call missing_start_world "toggl_weekly"
                (Some (JObj [("week_offset", JNum 0)])) fresh =
    (Throw (McpError InternalError
              ("Cannot read properties of " ++ what ++ " (reading 'split')")),
     {| workspaceId := None;
        sent := [GET_time_entries 1793577600000 1794182399999] |}).
Proof.
  assert (Hr : forall a b, reply_time_entries missing_start_world a b =
               Ok200 (Some [stopped_entry; entry_without_start]))
    by (intros a b; reflexivity).
  assert (Hs : existsb start_absent [stopped_entry; entry_without_start] = true)
    by reflexivity.
  split; [exact Hr|]. split; [exact Hs|].
  pose proof (weekly_throws_on_missing_start missing_start_world 0 fresh _ Hr Hs)
    as T.
  change (week_window (zone missing_start_world) (now missing_start_world) 0)
    with (Some (1793577600000, 1794182399999)) in T.
  destruct T as (what & _ & _ & Hh).
  exists what. exact Hh.
Defined.

(** The same on a list of one complete entry and one without [start]. *)
Lemma weekly_missing_start_example :
  handle_call missing_start_world "toggl_weekly"
              (Some (JObj [("week_offset", JNum 0)])) fresh =
    (Throw (McpError InternalError
              "Cannot read properties of undefined (reading 'split')"),
     {| workspaceId := None;
        sent := [GET_time_entries 1793577600000 1794182399999] |}).
Proof. vm_compute. reflexivity. Qed.

End Claims.

(** * Further properties *)

Module Confined.

Lemma weaken {A} (Q Q' : Request -> Prop) (P P' : Exn -> Prop) (m : M A) :
  (forall r, Q r -> Q' r) -> (forall e, P e -> P' e) ->
  confined Q P m -> confined Q' P' m.
Proof.
  intros HQ HP H st out st' E. destruct (H st out st' E) as [(new & S & F) T].
  split.
  - exists new. split; [exact S|]. eapply Forall_impl; [|exact F]. exact HQ.
  - intros e Ee. apply HP, (T e Ee).
Qed.

Lemma of_ret {A} Q P (a : A) : confined Q P (ret a).
Proof.
  intros st out st' E. unfold ret in E. injection E as <- <-.
  split; [exists []; split; [reflexivity | constructor] | discriminate].
Qed.

Lemma of_throw {A} Q (P : Exn -> Prop) (e : Exn) :
  P e -> confined Q P (@throw A e).
Proof.
  intros Pe st out st' E. unfold throw in E. injection E as <- <-.
  split; [exists []; split; [reflexivity | constructor]|].
  intros e' Ee. injection Ee as <-. exact Pe.
Qed.

Lemma of_bind {A B} Q P (m : M A) (k : A -> M B) :
  confined Q P m -> (forall a, confined Q P (k a)) -> confined Q P (bind m k).
Proof.
  intros Hm Hk st out st' E. unfold bind in E.
  destruct (m st) as [[a | e] st1] eqn:Em.
  - destruct (Hm _ _ _ Em) as [(n1 & S1 & F1) _].
    destruct (Hk a _ _ _ E) as [(n2 & S2 & F2) T2].
    split; [|exact T2].
    exists (n2 ++ n1)%list. split.
    + rewrite S2, S1. apply app_assoc.
    + apply Forall_app. split; assumption.
  - injection E as <- <-.
    destruct (Hm _ _ _ Em) as [S1 T1].
    split; [exact S1|]. intros e' Ee. injection Ee as <-. apply (T1 e eq_refl).
Qed.

Lemma of_call {A} (Q : Request -> Prop) (P : Exn -> Prop) (r : Request)
    (reply : Reply A) :
  Q r -> (forall status message, P (AxiosError status message)) ->
  confined Q P (call r reply).
Proof.
  intros Qr Pa st out st' E. unfold call in E.
  assert (S : exists new, sent st' = (new ++ sent st)%list /\ Forall Q new).
  { exists [r]. destruct reply; injection E as _ <-;
      (split; [reflexivity | constructor; [exact Qr | constructor]]). }
  split; [exact S|].
  intros e Ee. destruct reply; injection E as <- _; [discriminate|].
  injection Ee as <-. apply Pa.
Qed.

Lemma of_set_workspaceId Q P (ws : Z) : confined Q P (set_workspaceId ws).
Proof.
  intros st out st' E. unfold set_workspaceId in E. injection E as <- <-.
  split; [exists []; split; [reflexivity | constructor] | discriminate].
Qed.

Lemma of_get_field Q P : confined Q P get_workspaceId_field.
Proof.
  intros st out st' E. unfold get_workspaceId_field in E. injection E as <- <-.
  split; [exists []; split; [reflexivity | constructor] | discriminate].
Qed.

Lemma of_try_catch {A} Q P P' (m : M A) (h : Exn -> M A) :
  confined Q P m -> (forall e, P e -> confined Q P' (h e)) ->
  confined Q P' (try_catch m h).
Proof.
  intros Hm Hh st out st' E. unfold try_catch in E.
  destruct (m st) as [[a | e] st1] eqn:Em.
  - injection E as <- <-. destruct (Hm _ _ _ Em) as [S _].
    split; [exact S | discriminate].
  - destruct (Hm _ _ _ Em) as [(n1 & S1 & F1) T1].
    destruct (Hh e (T1 e eq_refl) _ _ _ E) as [(n2 & S2 & F2) T2].
    split; [|exact T2].
    exists (n2 ++ n1)%list. split.
    + rewrite S2, S1. apply app_assoc.
    + apply Forall_app. split; assumption.
Qed.

End Confined.

Import Confined.

Ltac confine :=
  repeat first
    [ apply of_ret
    | apply of_get_field
    | apply of_set_workspaceId
    | apply of_bind; [|intros ?]
    | match goal with
      | |- confined _ _ (match ?x with _ => _ end) => destruct x
      | |- confined _ _ (if ?b then _ else _) => destruct b
      | |- confined _ _ (let '(_, _) := ?x in _) => destruct x
      end ].

Section ClientConfined.

Variable w : World.
Variable Q : Request -> Prop.
Hypothesis gets_allowed : forall r, is_get r -> Q r.

Lemma axios_runtime (status : option Z) (message : string) :
  not_mcp_nor_zod (AxiosError status message).
Proof. exact I. Qed.

Lemma getWorkspaceId_confined : confined Q not_mcp_nor_zod (getWorkspaceId w).
Proof.
  unfold getWorkspaceId. confine;
    apply of_call; (apply gets_allowed; exact I) || exact axios_runtime.
Qed.

Lemma getCurrentEntry_confined : confined Q not_mcp_nor_zod (getCurrentEntry w).
Proof.
  apply of_call; [apply gets_allowed; exact I | exact axios_runtime].
Qed.

Lemma getTodayEntries_confined : confined Q not_mcp_nor_zod (getTodayEntries w).
Proof.
  unfold getTodayEntries. apply of_bind; [apply getWorkspaceId_confined|].
  intros _. destruct (JSDate.setHours (zone w) (now w) 0 0 0 0).
  - apply of_call; [apply gets_allowed; exact I | exact axios_runtime].
  - apply of_throw. exact I.
Qed.

Lemma getProjects_confined : confined Q not_mcp_nor_zod (getProjects w).
Proof.
  unfold getProjects. apply of_bind; [apply getWorkspaceId_confined|].
  intros ws. apply of_call; [apply gets_allowed; exact I | exact axios_runtime].
Qed.

Lemma weekly_loop_confined (entries : list TimeEntry) :
  forall T D P, confined Q not_mcp_nor_zod (weekly_loop entries T D P).
Proof.
  induction entries as [| e r IH]; intros T D P; simpl.
  - apply of_ret.
  - destruct (start e); [apply of_throw; exact I .. | apply IH].
Qed.

Lemma getWeeklyEntries_confined (off : Z) :
  confined Q not_mcp_nor_zod (getWeeklyEntries w off).
Proof.
  unfold getWeeklyEntries, getEntriesForDateRange, toISODate. cbv zeta.
  apply of_bind.
  - destruct (weekMonday (zone w) (now w) off) as [monday |];
      [| apply of_throw; exact I].
    destruct (weekSunday (zone w) (Some monday)) as [sunday |];
      [| apply of_throw; exact I].
    apply of_call; [apply gets_allowed; exact I | exact axios_runtime].
  - intros [entries |]; [| apply of_throw; exact I].
    apply of_bind; [apply weekly_loop_confined|].
    intros [[T D] P].
    apply of_bind;
      [destruct (weekMonday (zone w) (now w) off);
         [apply of_ret | apply of_throw; exact I]|].
    intros week_starting.
    apply of_bind;
      [destruct (weekSunday (zone w) (weekMonday (zone w) (now w) off));
         [apply of_ret | apply of_throw; exact I]|].
    intros week_ending. apply of_ret.
Qed.

Lemma toggl_current_confined : confined Q not_mcp_nor_zod (toggl_current w).
Proof.
  unfold toggl_current. apply of_bind; [apply getCurrentEntry_confined|].
  intros [e |]; apply of_ret.
Qed.

Lemma toggl_today_confined : confined Q not_mcp_nor_zod (toggl_today w).
Proof.
  unfold toggl_today. apply of_bind; [apply getTodayEntries_confined|].
  intros [[| e r] |]; apply of_ret.
Qed.

Lemma toggl_projects_confined : confined Q not_mcp_nor_zod (toggl_projects w).
Proof.
  unfold toggl_projects. apply of_bind; [apply getProjects_confined|].
  intros [[| e r] |]; apply of_ret.
Qed.

Lemma toggl_last_week_confined :
  confined Q not_mcp_nor_zod (toggl_last_week w).
Proof.
  unfold toggl_last_week. apply of_bind; [apply getWeeklyEntries_confined|].
  intros s. apply of_ret.
Qed.

End ClientConfined.

Section HandlerConfined.

Variable w : World.

Lemma any_allowed (r : Request) : is_get r -> any_request r.
Proof. intros _. exact I. Qed.

Lemma runtime_not_mcp (e : Exn) : not_mcp_nor_zod e -> not_mcp e.
Proof. destruct e; simpl; tauto. Qed.

Lemma startTimer_confined (d : string) (p : option Z) :
  confined any_request not_mcp_nor_zod (startTimer w d p).
Proof.
  unfold startTimer.
  apply of_bind; [apply getWorkspaceId_confined, any_allowed|].
  intros ws. apply of_call; [exact I | apply axios_runtime].
Qed.

Lemma stopTimer_confined : confined any_request not_mcp_nor_zod (stopTimer w).
Proof.
  unfold stopTimer.
  apply of_bind; [apply getCurrentEntry_confined, any_allowed|].
  intros [current |]; [|apply of_throw; exact I].
  apply of_bind; [apply getWorkspaceId_confined, any_allowed|].
  intros ws. apply of_call; [exact I | apply axios_runtime].
Qed.

Lemma deleteEntry_confined (n : Z) :
  confined any_request not_mcp_nor_zod (deleteEntry w n).
Proof.
  unfold deleteEntry.
  apply of_bind; [apply getWorkspaceId_confined, any_allowed|].
  intros ws. apply of_bind; [apply of_call; [exact I | apply axios_runtime]|].
  intros _. apply of_ret.
Qed.

Lemma toggl_stop_confined : confined any_request not_mcp_nor_zod (toggl_stop w).
Proof.
  unfold toggl_stop. apply of_bind; [apply stopTimer_confined|].
  intros e. apply of_ret.
Qed.

Lemma StartTimerSchema_parses (args : option json) :
  parses (StartTimerSchema_parse args).
Proof.
  intros st. unfold StartTimerSchema_parse.
  destruct args as [[| | | | | o] |];
    try (right; eexists; reflexivity).
  destruct (Zod.string_ (Zod.prop o "description")),
           (Zod.optional Zod.string_ (Zod.prop o "project_name"));
    (left; eexists; reflexivity) || (right; eexists; reflexivity).
Qed.

Lemma DeleteEntrySchema_parses (args : option json) :
  parses (DeleteEntrySchema_parse args).
Proof.
  intros st. unfold DeleteEntrySchema_parse.
  destruct args as [[| | | | | o] |];
    try (right; eexists; reflexivity).
  destruct (Zod.number_ (Zod.prop o "entry_id"));
    (left; eexists; reflexivity) || (right; eexists; reflexivity).
Qed.

Lemma WeeklyEntriesSchema_parses (args : option json) :
  parses (WeeklyEntriesSchema_parse args).
Proof.
  intros st. unfold WeeklyEntriesSchema_parse.
  destruct args as [[| | | | | o] |];
    try (right; eexists; reflexivity).
  destruct (Zod.default (Zod.optional Zod.number_) 0 (Zod.prop o "week_offset"));
    (left; eexists; reflexivity) || (right; eexists; reflexivity).
Qed.

Lemma parses_confined {A} Q (parse : M A) :
  parses parse -> confined Q not_mcp parse.
Proof.
  intros H st out st' E.
  destruct (H st) as [(a & Ea) | (issues & Ei)];
    rewrite E in *; [injection Ea as -> -> | injection Ei as -> ->].
  - split; [exists []; split; [reflexivity | constructor] | discriminate].
  - split; [exists []; split; [reflexivity | constructor]|].
    intros e Ee. injection Ee as <-. exact I.
Qed.

(** A zod error leaves a validated tool only from its validation. *)
Lemma bind_parse_zod {A B} (parse : M A) (k : A -> M B) :
  parses parse ->
  (forall a, confined any_request not_mcp_nor_zod (k a)) ->
  forall st issues st',
    bind parse k st = (Throw (ZodError issues), st') <->
    st' = st /\ parse st = (Throw (ZodError issues), st).
Proof.
  intros Hp Hk st issues st'. split.
  - intros E. destruct (Hp st) as [(a & Ea) | (issues' & Ei)].
    + rewrite (bind_return _ _ _ _ _ Ea) in E.
      destruct (Hk a _ _ _ E) as [_ T]. destruct (T _ eq_refl).
    + rewrite (bind_throw _ _ _ _ _ Ei) in E. injection E as <- <-.
      split; [reflexivity | exact Ei].
  - intros [-> E]. apply bind_throw. exact E.
Qed.

Lemma start_body_confined (parsed : string * option string) :
  confined any_request not_mcp_nor_zod
    (let '(description, project_name) := parsed in
     let named := match project_name with
                  | Some p => negb (String.eqb p "")
                  | None => false
                  end in
     projectId <-
       (match project_name with
        | Some p =>
            if named then
              projects <- getProjects w ;;
              match projects with
              | None => throw (cannot_read "null" "find")
              | Some projects =>
                  ret (option_map project_id
                         (List.find
                            (fun q => String.eqb (lowerCase w (name q))
                                                 (lowerCase w p))
                            projects))
              end
            else ret None
        | None => ret None
        end) ;;
     entry <- startTimer w description projectId ;;
     ret ("Started timer: " ++ dq ++ description ++ dq
           ++ (match project_name with
               | Some p => if named then " on project " ++ dq ++ p ++ dq else ""
               | None => ""
               end)
           ++ nl ++ "Entry ID: " ++ string_of_Z (id entry))).
Proof.
  destruct parsed as [d [p |]]; cbv zeta.
  - apply of_bind.
    + destruct (negb (String.eqb p "")); [|apply of_ret].
      apply of_bind; [apply getProjects_confined, any_allowed|].
      intros [ps |]; [apply of_ret | apply of_throw; exact I].
    + intros pid. apply of_bind; [apply startTimer_confined|].
      intros e. apply of_ret.
  - apply of_bind; [apply of_ret|].
    intros pid. apply of_bind; [apply startTimer_confined|].
    intros e. apply of_ret.
Qed.

Lemma weekly_body_confined Q (week_offset : Z) (k : WeeklySummary -> string) :
  (forall r, is_get r -> Q r) ->
  confined Q not_mcp_nor_zod
    (summary <- getWeeklyEntries w week_offset ;; ret (k summary)).
Proof.
  intros HQ. apply of_bind; [apply getWeeklyEntries_confined, HQ|].
  intros s. apply of_ret.
Qed.

Lemma toggl_start_zod (args : option json) (st st' : ClientState)
    (issues : list string) :
  toggl_start w args st = (Throw (ZodError issues), st') <->
  st' = st /\ StartTimerSchema_parse args st = (Throw (ZodError issues), st).
Proof.
  unfold toggl_start.
  apply bind_parse_zod; [apply StartTimerSchema_parses|].
  exact start_body_confined.
Qed.

Lemma toggl_delete_zod (args : option json) (st st' : ClientState)
    (issues : list string) :
  toggl_delete w args st = (Throw (ZodError issues), st') <->
  st' = st /\ DeleteEntrySchema_parse args st = (Throw (ZodError issues), st).
Proof.
  unfold toggl_delete.
  apply bind_parse_zod; [apply DeleteEntrySchema_parses|].
  exact deleteEntry_confined.
Qed.

Lemma toggl_weekly_zod (args : option json) (st st' : ClientState)
    (issues : list string) :
  toggl_weekly w args st = (Throw (ZodError issues), st') <->
  st' = st /\ WeeklyEntriesSchema_parse args st = (Throw (ZodError issues), st).
Proof.
  unfold toggl_weekly.
  apply bind_parse_zod; [apply WeeklyEntriesSchema_parses|].
  intros off. apply weekly_body_confined. exact any_allowed.
Qed.

Lemma toggl_start_confined (args : option json) :
  confined any_request not_mcp (toggl_start w args).
Proof.
  unfold toggl_start.
  apply of_bind; [apply parses_confined, StartTimerSchema_parses|].
  intros parsed.
  apply (weaken any_request any_request not_mcp_nor_zod not_mcp);
    [auto | exact runtime_not_mcp | exact (start_body_confined parsed)].
Qed.

Lemma toggl_delete_confined (args : option json) :
  confined any_request not_mcp (toggl_delete w args).
Proof.
  unfold toggl_delete.
  apply of_bind; [apply parses_confined, DeleteEntrySchema_parses|].
  intros n.
  apply (weaken any_request any_request not_mcp_nor_zod not_mcp);
    [auto | exact runtime_not_mcp | apply deleteEntry_confined].
Qed.

Lemma toggl_weekly_confined Q (args : option json) :
  (forall r, is_get r -> Q r) ->
  confined Q not_mcp (toggl_weekly w args).
Proof.
  intros HQ. unfold toggl_weekly.
  apply of_bind; [apply parses_confined, WeeklyEntriesSchema_parses|].
  intros off.
  apply (weaken Q Q not_mcp_nor_zod not_mcp);
    [auto | exact runtime_not_mcp | apply weekly_body_confined, HQ].
Qed.

End HandlerConfined.

Section HandlerFacts.

Variable w : World.

Lemma translate_confined Q (e : Exn) :
  confined Q (fun _ => True) (translate e).
Proof.
  intros st out st' E.
  assert (S : st' = st).
  { destruct e as [| [[| [] | []] |] | |]; simpl in E;
      try (injection E as _ <-; reflexivity).
    all: repeat match type of E with
         | context [match ?x with _ => _ end] => destruct x
         end; injection E as _ <-; reflexivity. }
  subst st'. split; [exists []; split; [reflexivity | constructor] | auto].
Qed.

Lemma handle_invalid_params (nm : string) (args : option json)
    (st st' : ClientState) (msg : string) :
  handle_call w nm args st = (Throw (McpError InvalidParams msg), st') <->
  exists issues,
    dispatch w nm args st = (Throw (ZodError issues), st') /\
    msg = invalid_parameters issues.
Proof.
  unfold handle_call, try_catch.
  destruct (dispatch w nm args st) as [[text | e] st1]; split.
  - discriminate.
  - intros (issues & E & _). discriminate E.
  - intros E. destruct e as [issues | status m | m | c m].
    + simpl in E. injection E as <- <-. exists issues. split; reflexivity.
    + exfalso. unfold translate in E.
      repeat match type of E with
             | context [match ?x with _ => _ end] => destruct x
             end; discriminate E.
    + discriminate E.
    + discriminate E.
  - intros (issues & E & ->). injection E as -> ->. reflexivity.
Qed.

End HandlerFacts.

(** X11.  start, delete and weekly fail with InvalidParams exactly when
    their schema rejects the arguments; the message lists the issues, and
    nothing was sent or memoized.  The five tools without a schema never
    fail with InvalidParams. *)
Theorem invalid_params_only_from_validation (w : World) (args : option json)
    (st st' : ClientState) (msg : string) :
  (handle_call w "toggl_start" args st
     = (Throw (McpError InvalidParams msg), st') <->
   st' = st /\
   exists issues,
     StartTimerSchema_parse args st = (Throw (ZodError issues), st) /\
     msg = invalid_parameters issues) /\
  (handle_call w "toggl_delete" args st
     = (Throw (McpError InvalidParams msg), st') <->
   st' = st /\
   exists issues,
     DeleteEntrySchema_parse args st = (Throw (ZodError issues), st) /\
     msg = invalid_parameters issues) /\
  (handle_call w "toggl_weekly" args st
     = (Throw (McpError InvalidParams msg), st') <->
   st' = st /\
   exists issues,
     WeeklyEntriesSchema_parse args st = (Throw (ZodError issues), st) /\
     msg = invalid_parameters issues) /\
  (forall nm, In nm unvalidated_tools ->
     handle_call w nm args st <> (Throw (McpError InvalidParams msg), st')).
Proof.
  split; [|split; [|split]].
  - rewrite handle_invalid_params.
    change (dispatch w "toggl_start" args) with (toggl_start w args).
    split.
    + intros (issues & E & M). apply toggl_start_zod in E. destruct E as [S E].
      split; [exact S|]. exists issues. split; assumption.
    + intros (S & issues & E & M). exists issues. split; [|exact M].
      apply toggl_start_zod. split; assumption.
  - rewrite handle_invalid_params.
    change (dispatch w "toggl_delete" args) with (toggl_delete w args).
    split.
    + intros (issues & E & M). apply toggl_delete_zod in E. destruct E as [S E].
      split; [exact S|]. exists issues. split; assumption.
    + intros (S & issues & E & M). exists issues. split; [|exact M].
      apply toggl_delete_zod. split; assumption.
  - rewrite handle_invalid_params.
    change (dispatch w "toggl_weekly" args) with (toggl_weekly w args).
    split.
    + intros (issues & E & M). apply toggl_weekly_zod in E. destruct E as [S E].
      split; [exact S|]. exists issues. split; assumption.
    + intros (S & issues & E & M). exists issues. split; [|exact M].
      apply toggl_weekly_zod. split; assumption.
  - intros nm Hn Habs. apply handle_invalid_params in Habs.
    destruct Habs as (issues & E & _).
    assert (C : confined any_request not_mcp_nor_zod (dispatch w nm args)).
    { simpl in Hn.
      destruct Hn as [<- | [<- | [<- | [<- | [<- | []]]]]].
      - apply toggl_stop_confined.
      - apply toggl_current_confined, any_allowed.
      - apply toggl_today_confined, any_allowed.
      - apply toggl_projects_confined, any_allowed.
      - apply toggl_last_week_confined, any_allowed. }
    destruct (C _ _ _ E) as [_ T]. exact (T _ eq_refl).
Qed.

(** X12.  The names the switch does not know are exactly those outside the
    list of tools, and for them the caller receives an internal error
    (the MethodNotFound error is caught by the handler's own catch and
    wrapped), with nothing sent. *)
Theorem unknown_tool_iff_not_listed (w : World) (nm : string)
    (args : option json) (st : ClientState) :
  (dispatch w nm args st
     = (Throw (McpError MethodNotFound ("Unknown tool: " ++ nm)), st) <->
   ~ In nm (List.map tool_name ListTools)) /\
  (~ In nm (List.map tool_name ListTools) ->
   handle_call w nm args st =
     (Throw (McpError InternalError
               ("MCP error -32601: Unknown tool: " ++ nm)), st)).
Proof.
  assert (K : In nm (List.map tool_name ListTools) ->
              confined any_request not_mcp (dispatch w nm args)).
  { simpl. intros [<- | [<- | [<- | [<- | [<- | [<- | [<- | [<- | []]]]]]]]].
    - apply toggl_start_confined.
    - apply (weaken any_request any_request not_mcp_nor_zod not_mcp);
        [auto | apply runtime_not_mcp | apply toggl_stop_confined].
    - apply (weaken any_request any_request not_mcp_nor_zod not_mcp);
        [auto | apply runtime_not_mcp
         | apply toggl_current_confined, any_allowed].
    - apply (weaken any_request any_request not_mcp_nor_zod not_mcp);
        [auto | apply runtime_not_mcp
         | apply toggl_today_confined, any_allowed].
    - apply (weaken any_request any_request not_mcp_nor_zod not_mcp);
        [auto | apply runtime_not_mcp
         | apply toggl_projects_confined, any_allowed].
    - apply toggl_delete_confined.
    - apply toggl_weekly_confined, any_allowed.
    - apply (weaken any_request any_request not_mcp_nor_zod not_mcp);
        [auto | apply runtime_not_mcp
         | apply toggl_last_week_confined, any_allowed]. }
  assert (U : ~ In nm (List.map tool_name ListTools) ->
              dispatch w nm args =
              throw (McpError MethodNotFound ("Unknown tool: " ++ nm))).
  { intros Hn. unfold dispatch.
    repeat match goal with
    | |- context [String.eqb nm ?s] =>
        destruct (String.eqb_spec nm s) as [-> | _];
          [exfalso; apply Hn; simpl; tauto|]
    end.
    reflexivity. }
  split; [split|].
  - intros E Hin. destruct (K Hin _ _ _ E) as [_ T]. exact (T _ eq_refl).
  - intros Hn. rewrite (U Hn). reflexivity.
  - intros Hn. unfold handle_call, try_catch. rewrite (U Hn).
    unfold throw, translate, exn_message.
    destruct (String.eqb_spec
                ("MCP error " ++ string_of_Z (code_number MethodNotFound)
                   ++ ": " ++ "Unknown tool: " ++ nm) "") as [E | _];
      [discriminate E | reflexivity].
Qed.

(** X13.  current, today, projects, weekly and last_week send only GET
    requests, whatever the arguments and the replies. *)
Theorem read_only_tools_only_get (w : World) (nm : string)
    (args : option json) (st st' : ClientState) (out : Outcome string)
    (Hn : In nm read_only_tools)
    (H : handle_call w nm args st = (out, st')) :
  exists new, sent st' = (new ++ sent st)%list /\ Forall is_get new.
Proof.
  assert (C : confined is_get not_mcp (dispatch w nm args)).
  { simpl in Hn. destruct Hn as [<- | [<- | [<- | [<- | [<- | []]]]]].
    - apply (weaken is_get is_get not_mcp_nor_zod not_mcp);
        [auto | apply runtime_not_mcp | apply toggl_current_confined; auto].
    - apply (weaken is_get is_get not_mcp_nor_zod not_mcp);
        [auto | apply runtime_not_mcp | apply toggl_today_confined; auto].
    - apply (weaken is_get is_get not_mcp_nor_zod not_mcp);
        [auto | apply runtime_not_mcp | apply toggl_projects_confined; auto].
    - apply toggl_weekly_confined. auto.
    - apply (weaken is_get is_get not_mcp_nor_zod not_mcp);
        [auto | apply runtime_not_mcp | apply toggl_last_week_confined; auto]. }
  assert (C' : confined is_get (fun _ => True) (handle_call w nm args)).
  { unfold handle_call.
    apply (of_try_catch is_get not_mcp (fun _ => True)); [exact C|].
    intros e _. apply translate_confined. }
  exact (proj1 (C' _ _ _ H)).
Qed.

Lemma read_only_tools_only_get_witness :
  In "toggl_today" read_only_tools /\
  exists new,
    sent (snd (handle_call today_world "toggl_today" None fresh))
      = (new ++ sent fresh)%list /\
    Forall is_get new.
Proof.
  assert (Hn : In "toggl_today" read_only_tools) by (simpl; tauto).
  split; [exact Hn|].
  exact (read_only_tools_only_get today_world "toggl_today" None fresh _ _ Hn
           (surjective_pairing _)).
Defined.

(** X10.  A workspace identifier other than 0 is fetched at most once: after
    a successful [getWorkspaceId] the next call returns the same value and
    sends nothing.  The identifier 0 is never kept: it costs a request
    each time. *)
Theorem workspace_memoized (w : World) (st st1 : ClientState) (ws : Z)
    (H : getWorkspaceId w st = (Return ws, st1)) :
  (ws <> 0 ->
   workspaceId st1 = Some ws /\
   getWorkspaceId w st1 = (Return ws, st1) /\
   (sent st1 = sent st \/ sent st1 = GET_me :: sent st)) /\
  (ws = 0 -> sent st1 = GET_me :: sent st).
Proof.
  unfold getWorkspaceId, bind, get_workspaceId_field in H.
  assert (F : forall st0,
             (let (o, st'0) := call GET_me (reply_me w) st0 in
              match o with
              | Return a =>
                  let (o0, st'1) := set_workspaceId a st'0 in
                  match o0 with
                  | Return _ => ret a st'1
                  | Throw e => (Throw e, st'1)
                  end
              | Throw e => (Throw e, st'0)
              end) = (Return ws, st1) ->
             st1 = {| workspaceId := Some ws; sent := GET_me :: sent st0 |}).
  { intros st0 E. unfold call in E.
    destruct (reply_me w) as [data | s m]; simpl in E; [|discriminate E].
    unfold ret in E. injection E as -> <-. reflexivity. }
  assert (Again : forall s, ws <> 0 ->
            getWorkspaceId w {| workspaceId := Some ws; sent := s |} =
            (Return ws, {| workspaceId := Some ws; sent := s |})).
  { intros s Hnz. unfold getWorkspaceId, bind, get_workspaceId_field. simpl.
    destruct (Z.eqb_spec ws 0); [contradiction | reflexivity]. }
  destruct st as [[cached |] s]; simpl in H.
  - destruct (Z.eqb_spec cached 0) as [-> | NZ].
    + apply F in H. subst st1. simpl. split.
      * intros Hnz. split; [reflexivity|]. split; [apply Again, Hnz|].
        right. reflexivity.
      * intros _. reflexivity.
    + unfold ret in H. injection H as <- <-. split.
      * intros _. split; [reflexivity|]. split; [apply Again, NZ|].
        left. reflexivity.
      * intros Z0. contradiction.
  - apply F in H. subst st1. simpl. split.
    + intros Hnz. split; [reflexivity|]. split; [apply Again, Hnz|].
      right. reflexivity.
    + intros _. reflexivity.
Qed.

Lemma workspace_memoized_witness :
  getWorkspaceId today_world fresh =
    (Return 77, {| workspaceId := Some 77; sent := [GET_me] |}) /\
  getWorkspaceId today_world {| workspaceId := Some 77; sent := [GET_me] |} =
    (Return 77, {| workspaceId := Some 77; sent := [GET_me] |}).
Proof.
  assert (H : getWorkspaceId today_world fresh =
    (Return 77, {| workspaceId := Some 77; sent := [GET_me] |}))
    by reflexivity.
  split; [exact H|].
  destruct (workspace_memoized today_world _ _ _ H) as [K _].
  exact (proj1 (proj2 (K ltac:(discriminate)))).
Defined.

Lemma stopTimer_patches_current (w : World) :
  confined (get_or_stop_current w) not_mcp_nor_zod (stopTimer w).
Proof.
  intros st out st' E. unfold stopTimer, getCurrentEntry in E.
  destruct (reply_current w) as [[current |] | status message] eqn:Ec.
  - rewrite bind_call_ok in E.
    assert (C : confined (get_or_stop_current w) not_mcp_nor_zod
                  (workspaceId <- getWorkspaceId w ;;
                   call (PATCH_stop workspaceId (id current))
                        (reply_stop w workspaceId (id current)))).
    { apply of_bind;
        [apply getWorkspaceId_confined; intros r Hr; left; exact Hr|].
      intros ws. apply of_call; [|apply axios_runtime].
      right. exists ws, current. split; [exact Ec | reflexivity]. }
    destruct (C _ _ _ E) as [(new & S & F) T]. split; [|exact T].
    exists (new ++ [GET_current])%list. split.
    + rewrite S. simpl. rewrite <- app_assoc. reflexivity.
    + apply Forall_app. split; [exact F|].
      constructor; [left; exact I | constructor].
  - rewrite bind_call_ok in E. unfold throw in E. injection E as <- <-.
    split.
    + exists [GET_current]. split; [reflexivity|].
      constructor; [left; exact I | constructor].
    + intros e Ee. injection Ee as <-. exact I.
  - unfold bind, call in E. injection E as <- <-. split.
    + exists [GET_current]. split; [reflexivity|].
      constructor; [left; exact I | constructor].
    + intros e Ee. injection Ee as <-. exact I.
Qed.

(** X14.  Besides GET requests, stop sends nothing but the stop of the
    entry that the service has just reported as current: it never creates
    or deletes, and never stops another entry. *)
Theorem stop_only_patches_current (w : World) (args : option json)
    (st st' : ClientState) (out : Outcome string)
    (H : handle_call w "toggl_stop" args st = (out, st')) :
  exists new,
    sent st' = (new ++ sent st)%list /\
    Forall (get_or_stop_current w) new.
Proof.
  assert (C : confined (get_or_stop_current w) (fun _ => True)
                (handle_call w "toggl_stop" args)).
  { unfold handle_call.
    apply (of_try_catch _ not_mcp_nor_zod (fun _ => True)).
    - change (dispatch w "toggl_stop" args) with (toggl_stop w).
      unfold toggl_stop. apply of_bind; [apply stopTimer_patches_current|].
      intros e. apply of_ret.
    - intros e _. apply translate_confined. }
  exact (proj1 (C _ _ _ H)).
Qed.

Lemma stop_only_patches_current_witness :
  exists new,
    sent (snd (handle_call today_world "toggl_stop" None fresh))
      = (new ++ sent fresh)%list /\
    Forall (get_or_stop_current today_world) new.
Proof.
  exact (stop_only_patches_current today_world None fresh _ _
           (surjective_pairing _)).
Defined.

Lemma find_first_match {A} (f : A -> bool) (before after : list A) (x : A) :
  forallb (fun y => negb (f y)) before = true -> f x = true ->
  List.find f (before ++ x :: after) = Some x.
Proof.
  induction before as [| y r IH]; simpl; intros Hb Hx.
  - rewrite Hx. reflexivity.
  - apply andb_true_iff in Hb. destruct Hb as [Hy Hr].
    destruct (f y); [discriminate Hy | apply IH; assumption].
Qed.

Lemma find_no_match {A} (f : A -> bool) (l : list A) :
  forallb (fun y => negb (f y)) l = true -> List.find f l = None.
Proof.
  induction l as [| y r IH]; simpl; intros H; [reflexivity|].
  apply andb_true_iff in H. destruct H as [Hy Hr].
  destruct (f y); [discriminate Hy | apply IH, Hr].
Qed.

Lemma toggl_start_with_project (w : World) (ws : Z) (requests : list Request)
    (d p : string) (ps : list Project) (entry : TimeEntry) :
  ws <> 0 -> p <> "" ->
  reply_projects w ws = Ok200 (Some ps) ->
  reply_create w ws d (option_map project_id (List.find (matches_project w p) ps))
               (now w) = Ok200 entry ->
  toggl_start w (start_args d (Some p)) (cached ws requests) =
  (Return ("Started timer: " ++ dq ++ d ++ dq
             ++ (" on project " ++ dq ++ p ++ dq)
             ++ nl ++ "Entry ID: " ++ string_of_Z (id entry)),
   cached ws
     (POST_time_entries ws d
        (option_map project_id (List.find (matches_project w p) ps)) (now w)
      :: GET_projects ws :: requests)).
Proof.
  intros Hws Hp Hps Hc.
  assert (G : forall s, getWorkspaceId w (cached ws s) = (Return ws, cached ws s)).
  { intros s. unfold getWorkspaceId, bind, get_workspaceId_field, cached. simpl.
    destruct (Z.eqb_spec ws 0); [contradiction | reflexivity]. }
  assert (GP : getProjects w (cached ws requests) =
               (Return (Some ps), cached ws (GET_projects ws :: requests))).
  { unfold getProjects. rewrite (bind_return _ _ _ _ _ (G requests)).
    rewrite Hps. reflexivity. }
  assert (ST : startTimer w d
                 (option_map project_id (List.find (matches_project w p) ps))
                 (cached ws (GET_projects ws :: requests)) =
               (Return entry,
                cached ws
                  (POST_time_entries ws d
                     (option_map project_id (List.find (matches_project w p) ps))
                     (now w) :: GET_projects ws :: requests))).
  { unfold startTimer. rewrite (bind_return _ _ _ _ _ (G _)).
    rewrite Hc. reflexivity. }
  unfold toggl_start.
  change (StartTimerSchema_parse (start_args d (Some p))) with (ret (d, Some p)).
  rewrite (bind_return _ _ _ _ (d, Some p) eq_refl).
  destruct (String.eqb_spec p "") as [E | _]; [contradiction|].
  cbn [negb].
  rewrite (bind_return _ _ (cached ws requests)
             (cached ws (GET_projects ws :: requests))
             (option_map project_id (List.find (matches_project w p) ps))).
  - rewrite (bind_return _ _ _ _ _ ST). reflexivity.
  - rewrite (bind_return _ _ _ _ _ GP). reflexivity.
Qed.

(** X15.  With a memoized workspace and a non-empty project name, start
    lists the projects and creates the entry with the identifier of the
    first project whose name equals the given one once both are lowered by
    the host's [toLowerCase] (so a project of exactly that name always
    matches); when none does the entry is created all the same, without a
    project, and the confirmation still names the project. *)
Theorem start_resolves_project_name (w : World) (ws : Z)
    (requests : list Request) (d p : string) (ps : list Project)
    (Hws : ws <> 0) (Hp : p <> "")
    (Hps : reply_projects w ws = Ok200 (Some ps))
    (Hc : forall pid, exists entry,
            reply_create w ws d pid (now w) = Ok200 entry) :
  exists entry pid,
    toggl_start w (start_args d (Some p)) (cached ws requests) =
    (Return ("Started timer: " ++ dq ++ d ++ dq
               ++ (" on project " ++ dq ++ p ++ dq)
               ++ nl ++ "Entry ID: " ++ string_of_Z (id entry)),
     cached ws (POST_time_entries ws d pid (now w)
                :: GET_projects ws :: requests)) /\
    (forallb (fun q => negb (matches_project w p q)) ps = true -> pid = None) /\
    (forall before q after,
        ps = (before ++ q :: after)%list ->
        forallb (fun q' => negb (matches_project w p q')) before = true ->
        matches_project w p q = true ->
        pid = Some (project_id q)) /\
    (forall q, name q = p -> matches_project w p q = true).
Proof.
  destruct (Hc (option_map project_id (List.find (matches_project w p) ps)))
    as [entry He].
  exists entry, (option_map project_id (List.find (matches_project w p) ps)).
  split; [apply toggl_start_with_project; assumption|].
  split; [| split].
  - intros Hn. rewrite (find_no_match _ _ Hn). reflexivity.
  - intros before q after -> Hb Hq.
    rewrite (find_first_match _ _ _ _ Hb Hq). reflexivity.
  - intros q <-. unfold matches_project. apply String.eqb_refl.
Qed.

Lemma start_resolves_project_name_witness :
  exists entry pid,
    toggl_start projects_world (start_args "triage" (Some "OPS")) (cached 77 []) =
    (Return ("Started timer: " ++ dq ++ "triage" ++ dq
               ++ (" on project " ++ dq ++ "OPS" ++ dq)
               ++ nl ++ "Entry ID: " ++ string_of_Z (id entry)),
     cached 77 [POST_time_entries 77 "triage" pid (now projects_world);
                GET_projects 77]) /\
    pid = Some 502.
Proof.
  destruct (start_resolves_project_name projects_world 77 [] "triage" "OPS"
              [docs_project; ops_project]
              ltac:(discriminate) ltac:(discriminate) eq_refl
              (fun pid => ex_intro _ stopped_entry eq_refl))
    as (entry & pid & Hrun & _ & Hfirst & _).
  exists entry, pid. split; [exact Hrun|].
  exact (Hfirst [docs_project] ops_project [] eq_refl eq_refl eq_refl).
Defined.

(** X16.  For a running entry whose duration is minus its start in epoch
    seconds, current reports the whole seconds elapsed since the start,
    as hours and minutes. *)
Theorem current_reports_elapsed (w : World) (st : ClientState)
    (e : TimeEntry) (k : Z)
    (Hc : reply_current w = Ok200 (Some e))
    (Hd : duration e = Val (- (now w / 1000 - k)))
    (Hk : 0 <= k) :
  toggl_current w st =
  (Return ("Currently tracking: " ++ dq ++ Js.interp_str (description e) ++ dq
             ++ nl ++ "Running for: " ++ string_of_Z (k / 3600) ++ "h "
             ++ string_of_Z (k mod 3600 / 60) ++ "m"),
   {| workspaceId := workspaceId st; sent := GET_current :: sent st |}).
Proof.
  unfold toggl_current, getCurrentEntry. rewrite Hc, bind_call_ok. cbv zeta.
  rewrite Hd. simpl Js.to_number. simpl Js.add.
  replace (- (now w / 1000 - k) + now w / 1000) with k by lia.
  simpl Js.abs. rewrite Z.abs_eq by exact Hk.
  destruct (hours_minutes_of_nonneg k Hk) as [-> ->]. reflexivity.
Qed.

Lemma current_reports_elapsed_witness :
  toggl_current recent_world fresh =
  (Return ("Currently tracking: " ++ dq ++ "review" ++ dq ++ nl
             ++ "Running for: 0h 2m"),
   {| workspaceId := None; sent := [GET_current] |}).
Proof.
  exact (current_reports_elapsed recent_world fresh recent_entry 125
           eq_refl eq_refl ltac:(lia)).
Defined.

(** ** Week windows *)

Module WindowFacts.
Import JSDate DateFacts.

Lemma Day_bounds (t : Z) : Day t * msPerDay <= t < (Day t + 1) * msPerDay.
Proof.
  unfold Day.
  pose proof (Z.div_mod t msPerDay ltac:(unfold msPerDay; lia)).
  pose proof (Z.mod_pos_bound t msPerDay msPerDay_pos). lia.
Qed.

(** From every local day of the week of [today] the Monday is the same. *)
Lemma same_week_mondayDay (z : Zone) (today t k : Z) :
  mondayDay z today 0 <= Day (LocalTime z t) <= mondayDay z today 0 + 6 ->
  mondayDay z t k = mondayDay z today k.
Proof.
  intros Ht.
  pose proof (mondayDay_weekday z today 0) as W.
  assert (E : mondayDay z today k = mondayDay z today 0 + k * 7)
    by (unfold mondayDay; lia).
  rewrite E. clear E.
  set (Dm := mondayDay z today 0) in *.
  assert (J : exists j, 0 <= j <= 6 /\ Day (LocalTime z t) = Dm + j)
    by (exists (Day (LocalTime z t) - Dm); lia).
  destruct J as (j & Hj & E).
  unfold mondayDay, daysToMonday, getDay, WeekDay. rewrite E.
  assert (M : (Dm + j + 4) mod 7 = (1 + j) mod 7).
  { rewrite <- W. rewrite Zplus_mod_idemp_l. f_equal. lia. }
  rewrite M.
  destruct (Z.eq_dec j 6) as [-> | NE].
  - change ((1 + 6) mod 7) with 0. simpl. lia.
  - rewrite Z.mod_small by lia.
    destruct (Z.eqb_spec (1 + j) 0); lia.
Qed.

(** In a zone without clock changes the window exists as soon as its two
    ends are time values. *)
Lemma fixed_zone_window (o today off : Z) :
  let d := mondayDay (fixed_zone o) today off in
  - maxTime <= MakeDate d 0 - o ->
  MakeDate (d + 6) 86399999 - o <= maxTime ->
  weekMonday (fixed_zone o) today off = Some (MakeDate d 0 - o) /\
  weekSunday (fixed_zone o) (Some (MakeDate d 0 - o))
    = Some (MakeDate (d + 6) 86399999 - o).
Proof.
  intros d Lo Hi.
  exact (window_exists (fixed_zone o) today off
           (fixed_zone_regular o today off)
           (fixed_zone_in_range o today off Lo Hi)).
Qed.

End WindowFacts.

Section Windows.
Import JSDate DateFacts WindowFacts.

(** X1.  For every week offset [k], when the local times the windows of
    offsets [k] and [k + 1] pass through exist in the zone and are read as
    time values, both windows have their dates: on the local clock the
    window of offset [k + 1] starts the millisecond after the window of
    offset [k] ends, seven local days after it started.  As time values
    the two windows meet, without gap or overlap, when the clocks do not
    change at the local midnight between them, and their Mondays are
    exactly seven days apart when the same offset from UTC is in force at
    both. *)
Theorem week_windows_tile (z : Zone) (today k : Z)
    (Hregular : window_regular z today k)
    (Hregular' : window_regular z today (k + 1))
    (Hrange : window_in_range z today k)
    (Hrange' : window_in_range z today (k + 1)) :
  exists monday sunday next,
    weekMonday z today k = Some monday /\
    weekSunday z (Some monday) = Some sunday /\
    weekMonday z today (k + 1) = Some next /\
    LocalTime z next = LocalTime z sunday + 1 /\
    Day (LocalTime z next) = Day (LocalTime z monday) + 7 /\
    (no_change_at z (LocalTime z next) -> sunday + 1 = next) /\
    (offset_at_local z (LocalTime z monday)
       = offset_at_local z (LocalTime z next) ->
     next = monday + 7 * msPerDay).
Proof.
  destruct (window_exists z today k Hregular Hrange) as [Hmonday Hsunday].
  destruct (window_exists z today (k + 1) Hregular' Hrange')
    as [Hnext Hnext'].
  eexists. eexists. eexists.
  split; [exact Hmonday|]. split; [exact Hsunday|]. split; [exact Hnext|].
  destruct (windows_meet z today k _ _ _ _
              Hregular Hregular' Hmonday Hsunday Hnext Hnext')
    as (A & B & C).
  destruct (window_local z today k _ _ Hregular Hmonday Hsunday)
    as (Lm & _ & _ & _).
  destruct (window_local z today (k + 1) _ _ Hregular' Hnext Hnext')
    as (Ln & _ & _ & _).
  split; [exact A|]. split; [exact B|]. split.
  - rewrite Ln. exact C.
  - rewrite Lm, Ln. intros O. unfold UTC. rewrite O.
    rewrite mondayDay_succ. unfold MakeDate. lia.
Qed.

Lemma week_windows_tile_witness :
  exists monday sunday next,
    weekMonday (fixed_zone 0) 1793700800000 (-1) = Some monday /\
    weekSunday (fixed_zone 0) (Some monday) = Some sunday /\
    weekMonday (fixed_zone 0) 1793700800000 (-1 + 1) = Some next /\
    sunday + 1 = next /\
    next = monday + 7 * msPerDay.
Proof.
  destruct (week_windows_tile (fixed_zone 0) 1793700800000 (-1)
              (fixed_zone_regular 0 1793700800000 (-1))
              (fixed_zone_regular 0 1793700800000 (-1 + 1))
              (fixed_zone_in_range 0 1793700800000 (-1)
                 ltac:(vm_compute; discriminate)
                 ltac:(vm_compute; discriminate))
              (fixed_zone_in_range 0 1793700800000 (-1 + 1)
                 ltac:(vm_compute; discriminate)
                 ltac:(vm_compute; discriminate)))
    as (monday & sunday & next & Hm & Hs & Hn & _ & _ & C & D).
  exists monday, sunday, next.
  split; [exact Hm|]. split; [exact Hs|]. split; [exact Hn|].
  split; [apply C | apply D]; reflexivity.
Defined.

(** X2.  The window of offset 0 (its local times existing in the zone and
    read as time values) contains, on the local clock, the instant at
    which it is computed; and as time values too, the Monday is not after
    that instant and the Sunday not before it, when each is under the same
    offset from UTC as the instant. *)
Theorem current_week_contains_now (z : Zone) (today : Z)
    (Hregular : window_regular z today 0)
    (Hrange : window_in_range z today 0) :
  exists monday sunday,
    weekMonday z today 0 = Some monday /\
    weekSunday z (Some monday) = Some sunday /\
    LocalTime z monday <= LocalTime z today <= LocalTime z sunday /\
    (offset_at_utc z monday = offset_at_utc z today -> monday <= today) /\
    (offset_at_utc z sunday = offset_at_utc z today -> today <= sunday).
Proof.
  destruct (window_exists z today 0 Hregular Hrange) as [Hmonday Hsunday].
  destruct (window_local z today 0 _ _ Hregular Hmonday Hsunday)
    as (Lm & Ls & _ & _).
  eexists. eexists. split; [exact Hmonday|]. split; [exact Hsunday|].
  pose proof (daysToMonday_bounds z today) as R.
  pose proof (Day_bounds (LocalTime z today)) as B.
  match goal with
  | |- ?C /\ _ => assert (HC : C)
  end.
  { rewrite Lm, Ls. unfold mondayDay, MakeDate.
    revert R B. generalize (daysToMonday z today).
    generalize (Day (LocalTime z today)).
    change msPerDay with 86400000. intros. lia. }
  split; [exact HC|].
  revert HC.
  generalize (UTC z (MakeDate (mondayDay z today 0) 0)).
  generalize (UTC z (MakeDate (mondayDay z today 0 + 6) 86399999)).
  intros s m HC.
  unfold LocalTime in HC |- *. split; intros O; rewrite O in HC; lia.
Qed.

Lemma current_week_contains_now_witness :
  exists monday sunday,
    weekMonday (fixed_zone 0) 1793700800000 0 = Some monday /\
    weekSunday (fixed_zone 0) (Some monday) = Some sunday /\
    monday <= 1793700800000 <= sunday.
Proof.
  destruct (current_week_contains_now (fixed_zone 0) 1793700800000
              (fixed_zone_regular 0 1793700800000 0)
              (fixed_zone_in_range 0 1793700800000 0
                 ltac:(vm_compute; discriminate)
                 ltac:(vm_compute; discriminate)))
    as (monday & sunday & Hm & Hs & _ & A & B).
  exists monday, sunday. split; [exact Hm|]. split; [exact Hs|].
  split; [apply A | apply B]; reflexivity.
Defined.

(** X3.  The window does not depend on when in the week it is computed:
    from every instant whose local day is one of the seven days of the
    week of "today", each offset selects the same Monday and the same
    Sunday as from "today" (the local times passed through existing in
    the zone and being read as time values). *)
Theorem window_same_throughout_week (z : Zone) (today t k : Z)
    (Ht : mondayDay z today 0 <= Day (LocalTime z t)
          <= mondayDay z today 0 + 6)
    (Hregular : window_regular z today k)
    (Hregular' : window_regular z t k)
    (Hrange : window_in_range z today k)
    (Hrange' : window_in_range z t k) :
  exists monday sunday,
    weekMonday z today k = Some monday /\
    weekMonday z t k = Some monday /\
    weekSunday z (Some monday) = Some sunday.
Proof.
  destruct (window_exists z today k Hregular Hrange) as [Hmonday Hsunday].
  destruct (window_exists z t k Hregular' Hrange') as [Hmonday' _].
  rewrite (same_week_mondayDay z today t k Ht) in Hmonday'.
  eexists. eexists. split; [exact Hmonday|].
  split; [exact Hmonday' | exact Hsunday].
Qed.

Lemma window_same_throughout_week_witness :
  weekMonday (fixed_zone 3600000) 1794000000000 (-2)
  = weekMonday (fixed_zone 3600000) 1793657600000 (-2).
Proof.
  assert (Ht : mondayDay (fixed_zone 3600000) 1793657600000 0
               <= Day (LocalTime (fixed_zone 3600000) 1794000000000)
               <= mondayDay (fixed_zone 3600000) 1793657600000 0 + 6)
    by (vm_compute; split; discriminate).
  destruct (window_same_throughout_week (fixed_zone 3600000)
              1793657600000 1794000000000 (-2) Ht
              (fixed_zone_regular 3600000 1793657600000 (-2))
              (fixed_zone_regular 3600000 1794000000000 (-2))
              (fixed_zone_in_range 3600000 1793657600000 (-2)
                 ltac:(vm_compute; discriminate)
                 ltac:(vm_compute; discriminate))
              (fixed_zone_in_range 3600000 1794000000000 (-2)
                 ltac:(vm_compute; discriminate)
                 ltac:(vm_compute; discriminate)))
    as (monday & sunday & Hm & Hm' & _).
  exact (eq_trans Hm' (eq_sym Hm)).
Defined.

(** X18.  In a zone without clock changes the window exists whenever its
    two ends are time values (within 100,000,000 days of the epoch): it
    runs from the local Monday 00:00:00.000 to the local Sunday
    23:59:59.999 and lasts seven days less a millisecond. *)
Theorem window_without_clock_changes (o today off : Z)
    (Hlow : - maxTime
            <= MakeDate (mondayDay (fixed_zone o) today off) 0 - o)
    (Hhigh : MakeDate (mondayDay (fixed_zone o) today off + 6) 86399999 - o
             <= maxTime) :
  exists monday sunday,
    week_window (fixed_zone o) today off = Some (monday, sunday) /\
    LocalTime (fixed_zone o) monday
      = MakeDate (mondayDay (fixed_zone o) today off) 0 /\
    getDay (fixed_zone o) monday = 1 /\
    sunday - monday = 7 * msPerDay - 1.
Proof.
  destruct (fixed_zone_window o today off Hlow Hhigh) as [Em Es].
  eexists. eexists.
  split; [apply week_window_Some; split; [exact Em | exact Es]|].
  split; [unfold LocalTime; simpl; lia|].
  split.
  - unfold getDay, WeekDay.
    replace (LocalTime (fixed_zone o)
               (MakeDate (mondayDay (fixed_zone o) today off) 0 - o))
      with (MakeDate (mondayDay (fixed_zone o) today off) 0)
      by (unfold LocalTime; simpl; lia).
    rewrite Day_MakeDate by (unfold msPerDay; lia).
    apply mondayDay_weekday.
  - unfold MakeDate. change msPerDay with 86400000. lia.
Qed.

Lemma window_without_clock_changes_witness :
  exists monday sunday,
    week_window (fixed_zone 3600000) 1793657600000 0 = Some (monday, sunday) /\
    sunday - monday = 7 * msPerDay - 1.
Proof.
  destruct (window_without_clock_changes 3600000 1793657600000 0)
    as (monday & sunday & Hw & _ & _ & Hd);
    [vm_compute; discriminate | vm_compute; discriminate |].
  exists monday, sunday. split; [exact Hw | exact Hd].
Defined.

End Windows.

Section Buckets.
Import ObjFacts BucketFacts.

(** X7.  In a returned summary the total is the sum of the absolute
    durations of the entries, converted to hours by rounding
    [seconds / 3600 * 100] half away from zero (in hundredths).  Under
    every date that is not the name of a member objects inherit, the daily
    breakdown holds the sum of the absolute durations of the entries of
    that date, converted in the same way, and it has no key for a date
    that does not occur among the entries.  The same holds of the project
    breakdown and the project names ("No Project" for an entry without
    one).  Keys are not repeated and the count is the number of
    entries. *)
Theorem breakdown_buckets (w : World) (off : Z) (st st' : ClientState)
    (s : WeeklySummary)
    (H : getWeeklyEntries w off st = (Return s, st')) :
  total_hours s = spec_hours (sumZ (List.map abs_duration (entries s))) /\
  (forall k,
     Js.inherited k = false ->
     Js.get (daily_breakdown s) k =
     if has_key entry_date k (entries s)
     then Some (Num (spec_hours (bucket_seconds entry_date k (entries s))))
     else None) /\
  (forall k,
     Js.inherited k = false ->
     Js.get (project_breakdown s) k =
     if has_key entry_project k (entries s)
     then Some (Num (spec_hours (bucket_seconds entry_project k (entries s))))
     else None) /\
  (forall k,
     has_key entry_date k (entries s) = false ->
     Js.get (daily_breakdown s) k = None) /\
  (forall k,
     has_key entry_project k (entries s) = false ->
     Js.get (project_breakdown s) k = None) /\
  NoDup (keys (daily_breakdown s)) /\
  NoDup (keys (project_breakdown s)) /\
  entry_count s = Z.of_nat (List.length (entries s)).
Proof.
  destruct (summary_get w off st st' s H) as (NDb & NPb & G).
  destruct (summary_buckets w off st st' s H) as (_ & _ & _ & HT & _).
  destruct (summary_shape w off st st' s H)
    as (_ & _ & _ & _ & _ & _ & _ & _ & _ & _ & _ & _ & _ & _ & _ & EC).
  assert (Sec : forall key k l, 0 <= bucket_seconds key k l)
    by (intros key k l; unfold bucket_seconds; apply sumZ_abs_nonneg).
  split; [rewrite spec_hours_roundHours by apply sumZ_abs_nonneg; exact HT|].
  split; [| split; [| split; [| split]]].
  - intros k Hk. destruct (G k) as [-> _]. rewrite bumps_none, Hk.
    destruct (has_key entry_date k (entries s)); [|reflexivity].
    simpl. rewrite spec_hours_roundHours by apply Sec. reflexivity.
  - intros k Hk. destruct (G k) as [_ ->]. rewrite bumps_none, Hk.
    destruct (has_key entry_project k (entries s)); [|reflexivity].
    simpl. rewrite spec_hours_roundHours by apply Sec. reflexivity.
  - intros k Hk. destruct (G k) as [-> _]. rewrite bumps_none, Hk.
    reflexivity.
  - intros k Hk. destruct (G k) as [_ ->]. rewrite bumps_none, Hk.
    reflexivity.
  - split; [exact NDb|]. split; [exact NPb | exact EC].
Qed.

Lemma breakdown_buckets_witness :
  getWeeklyEntries five_days 0 fresh =
    (Return five_days_summary,
     {| workspaceId := None;
        sent := [GET_time_entries 1793577600000 1794182399999] |}) /\
  Js.get (daily_breakdown five_days_summary) "2026-11-04" = Some (Num 1) /\
  Js.get (daily_breakdown five_days_summary) "2026-11-07" = None.
Proof.
  split; [exact five_days_weekly|].
  destruct (breakdown_buckets _ _ _ _ _ five_days_weekly)
    as (_ & Hd & _ & Hn & _).
  split; [exact (Hd "2026-11-04" eq_refl) | exact (Hn "2026-11-07" eq_refl)].
Defined.

End Buckets.

Module OrderFacts.
Import ObjFacts BucketFacts.

Section InsertionSort.
Context {A : Type} (le : A -> A -> bool).
Hypothesis le_total : forall a b, le a b = true \/ le b a = true.

Let R (a b : A) : Prop := le a b = true.

Lemma insert_sorted_HdRel (y x : A) (l : list A) :
  R y x -> HdRel R y l -> HdRel R y (Js.insert_sorted le x l).
Proof.
  intros Hyx H. destruct l as [| z r]; simpl.
  - constructor. exact Hyx.
  - destruct (le x z); constructor; [exact Hyx|].
    inversion H; assumption.
Qed.

Lemma insert_sorted_Sorted (x : A) (l : list A) :
  Sorted R l -> Sorted R (Js.insert_sorted le x l).
Proof.
  induction 1 as [| y r Hs IH Hh]; simpl.
  - repeat constructor.
  - destruct (le x y) eqn:E.
    + constructor; [constructor; assumption | constructor; exact E].
    + constructor; [exact IH|].
      apply insert_sorted_HdRel; [|exact Hh].
      destruct (le_total x y) as [T | T]; [congruence | exact T].
Qed.

Lemma stable_sort_Sorted (l : list A) : Sorted R (Js.stable_sort le l).
Proof.
  induction l as [| x r IH]; simpl; [constructor|].
  apply insert_sorted_Sorted, IH.
Qed.

End InsertionSort.

Lemma Sorted_impl_in {A} (R1 R2 : A -> A -> Prop) (l : list A) :
  (forall a b, In a l -> In b l -> R1 a b -> R2 a b) ->
  Sorted R1 l -> Sorted R2 l.
Proof.
  intros H S. induction S as [| x r Hs IH Hh]; [constructor|].
  constructor.
  - apply IH. intros a b Ha Hb. apply H; right; assumption.
  - destruct Hh as [| y r' Hxy]; constructor.
    apply H; [left; reflexivity | right; left; reflexivity | exact Hxy].
Qed.

Lemma entries_no_index {V} (o : Js.obj V) :
  Forall (fun kv => not_an_index (fst kv)) o -> Js.entries o = o.
Proof.
  unfold Js.entries, not_an_index. intros H.
  induction H as [| kv r Hk Hr IH]; [reflexivity|].
  simpl. rewrite Hk. simpl in IH.
  destruct (List.filter
              (fun kv0 => match Js.array_index (fst kv0) with
                          | Some _ => true | None => false end) r)
    as [| i rest] eqn:Ei.
  - simpl in *. f_equal. exact IH.
  - exfalso.
    assert (Hin : In i (i :: rest)) by (left; reflexivity).
    rewrite <- Ei in Hin. apply filter_In in Hin. destruct Hin as [Hin Hi].
    rewrite Forall_forall in Hr. rewrite (Hr i Hin) in Hi. discriminate Hi.
Qed.

Lemma compare_app_same_length (a b x y : string) :
  String.length a = String.length b ->
  String.compare (a ++ x) (b ++ y) =
  match String.compare a b with
  | Eq => String.compare x y
  | c => c
  end.
Proof.
  revert b. induction a as [| c a IH]; intros [| c' b] L;
    try discriminate L; simpl.
  - reflexivity.
  - injection L as L. destruct (Ascii.compare c c'); [apply IH, L | |];
      reflexivity.
Qed.

Lemma compare_refl (s : string) : String.compare s s = Eq.
Proof.
  induction s as [| c s IH]; simpl; [reflexivity|].
  assert (E : Ascii.compare c c = Eq).
  { unfold Ascii.compare. apply N.compare_refl. }
  rewrite E. exact IH.
Qed.

Lemma pair_le_date_le (a b : string * jsnum) :
  String.length (fst a) = String.length (fst b) -> pair_le a b -> date_le a b.
Proof.
  unfold pair_le, date_le, pair_to_string, String.leb. intros L.
  rewrite (compare_app_same_length _ _ _ _ L).
  destruct (String.compare (fst a) (fst b)); auto.
Qed.

Lemma sorted_breakdown (le : string * jsnum -> string * jsnum -> bool)
    (o : Js.obj dval) :
  (forall a b, le a b = true \/ le b a = true) ->
  NoDup (keys o) ->
  Forall not_an_index (keys o) ->
  let b := Js.fromEntries
             (Js.stable_sort le
                (List.map (fun kv => (fst kv, roundBucket (snd kv)))
                          (Js.entries o))) in
  Js.entries b = b /\ Sorted (fun x y => le x y = true) b /\
  Permutation b (rounded o).
Proof.
  intros Ht N F b.
  pose proof (breakdown_perm le o N) as P. fold b in P.
  set (l := Js.stable_sort le
              (List.map (fun kv => (fst kv, roundBucket (snd kv)))
                        (Js.entries o))) in *.
  assert (Pl : Permutation l (rounded o)).
  { eapply perm_trans; [apply stable_sort_perm|].
    apply Permutation_map, entries_perm. }
  assert (Nl : NoDup (keys l)).
  { apply (Permutation_NoDup (l := keys (rounded o))).
    - apply Permutation_sym, keys_perm, Pl.
    - rewrite rounded_keys. exact N. }
  assert (E : b = l) by (apply fromEntries_NoDup, Nl).
  split; [|split; [|exact P]].
  - apply entries_no_index. rewrite Forall_forall. intros kv Hin.
    assert (Hk : In (fst kv) (keys o)).
    { rewrite <- rounded_keys.
      apply (Permutation_in _ (keys_perm _ _ P)). apply in_map. exact Hin. }
    rewrite Forall_forall in F. exact (F _ Hk).
  - rewrite E. apply stable_sort_Sorted. exact Ht.
Qed.

Lemma loop_keys (entries : list TimeEntry) T D P st st' :
  weekly_loop entries 0 [] [] st = (Return (T, D, P), st') ->
  (forall k, In k (keys D) -> exists e, In e entries /\ entry_date e = k) /\
  (forall k, In k (keys P) -> exists e, In e entries /\ entry_project e = k).
Proof.
  intros L. split; intros k Hin.
  - destruct (weekly_loop_buckets _ _ _ _ _ _ _ _ _ L k) as [HD _].
    destruct (has_key entry_date k entries) eqn:Hk.
    + unfold has_key in Hk. apply existsb_exists in Hk.
      destruct Hk as (e & He & Ee). exists e. split; [exact He|].
      apply String.eqb_eq, Ee.
    + exfalso. simpl in HD. rewrite bumps_none, Hk in HD.
      apply (proj1 (get_None D k) HD Hin).
  - destruct (weekly_loop_buckets _ _ _ _ _ _ _ _ _ L k) as [_ HP].
    destruct (has_key entry_project k entries) eqn:Hk.
    + unfold has_key in Hk. apply existsb_exists in Hk.
      destruct Hk as (e & He & Ee). exists e. split; [exact He|].
      apply String.eqb_eq, Ee.
    + exfalso. simpl in HP. rewrite bumps_none, Hk in HP.
      apply (proj1 (get_None P k) HP Hin).
Qed.

End OrderFacts.

Section Ordering.
Import ObjFacts BucketFacts OrderFacts.

(** X8.  When no date is an array index, the daily breakdown enumerates in
    the order of the default sort (by the text of the pair), which is the
    ascending order of the dates when they all have the same length; when
    no project name is an array index or the name of a member objects
    inherit, the hours of the project breakdown are numbers and it
    enumerates by descending hours. *)
Theorem breakdowns_enumerated_in_order (w : World) (off : Z)
    (st st' : ClientState) (s : WeeklySummary)
    (H : getWeeklyEntries w off st = (Return s, st')) :
  (Forall (fun e => not_an_index (entry_date e)) (entries s) ->
   Sorted pair_le (Js.entries (daily_breakdown s)) /\
   (forall n,
      Forall (fun e => String.length (entry_date e) = n) (entries s) ->
      Sorted date_le (Js.entries (daily_breakdown s)))) /\
  (Forall (fun e => not_an_index (entry_project e)) (entries s) ->
   Forall (fun e => Js.inherited (entry_project e) = false) (entries s) ->
   Sorted hours_ge (Js.entries (project_breakdown s))).
Proof.
  destruct (summary_shape w off st st' s H)
    as (monday & sunday & T & D & P & _ & _ & _ & _ & L & _ & _ & _
        & ED & EP & _).
  destruct (weekly_loop_inv _ _ _ _ _ _ _ _ _ L)
    as (_ & _ & ND & NP & _ & GP).
  destruct (loop_keys _ _ _ _ _ _ L) as [KD KP].
  split.
  - intros F. rewrite Forall_forall in F.
    assert (FD : Forall not_an_index (keys D)).
    { rewrite Forall_forall. intros k Hk.
      destruct (KD k Hk) as (e & He & <-). exact (F e He). }
    destruct (sorted_breakdown
                (fun a b => String.leb (pair_to_string a) (pair_to_string b))
                D (fun a b => String.leb_total _ _)
                (ND ltac:(constructor)) FD) as (E & S & Pm).
    rewrite <- ED in E, S, Pm. rewrite E.
    split; [exact S|].
    intros n Fn. rewrite Forall_forall in Fn.
    apply (Sorted_impl_in pair_le date_le); [|exact S].
    assert (Len : forall a, In a (daily_breakdown s) ->
                            String.length (fst a) = n).
    { intros a Ha.
      assert (Hk : In (fst a) (keys D)).
      { rewrite <- rounded_keys.
        apply (Permutation_in _ (keys_perm _ _ Pm)). apply in_map. exact Ha. }
      destruct (KD _ Hk) as (e & He & <-). exact (Fn e He). }
    intros a b Ha Hb. apply pair_le_date_le.
    rewrite (Len a Ha), (Len b Hb). reflexivity.
  - intros F Fp. rewrite Forall_forall in F.
    assert (FP : Forall not_an_index (keys P)).
    { rewrite Forall_forall. intros k Hk.
      destruct (KP k Hk) as (e & He & <-). exact (F e He). }
    assert (Tot : forall a b : string * jsnum,
               hours_not_below a b = true \/ hours_not_below b a = true).
    { intros a b. unfold hours_not_below.
      destruct (snd a) as [x |], (snd b) as [y |]; auto.
      destruct (Z.leb_spec y x); [left | right];
        [reflexivity | apply Z.leb_le; lia]. }
    destruct (sorted_breakdown hours_not_below P Tot
                (NP ltac:(constructor)) FP) as (E & S & Pm).
    rewrite <- EP in E, S, Pm. rewrite E.
    destruct (GP Fp ltac:(constructor)) as [NnP _].
    assert (Nums : forall a, In a (project_breakdown s) ->
                             exists x, snd a = Num x).
    { intros a Ha. apply (Permutation_in _ Pm) in Ha.
      unfold rounded in Ha. apply in_map_iff in Ha.
      destruct Ha as (kv & <- & Hkv).
      unfold nonneg in NnP. rewrite Forall_forall in NnP.
      destruct (NnP kv Hkv) as (z & Ez & _). rewrite Ez. simpl.
      eexists. reflexivity. }
    apply (Sorted_impl_in (fun x y => hours_not_below x y = true) hours_ge);
      [|exact S].
    intros a b Ha Hb Hab. unfold hours_not_below in Hab. unfold hours_ge.
    destruct (Nums a Ha) as (x & Ex). destruct (Nums b Hb) as (y & Ey).
    rewrite Ex, Ey in *. apply Z.leb_le, Hab.
Qed.

Lemma breakdowns_enumerated_in_order_witness :
  getWeeklyEntries five_days 0 fresh =
    (Return five_days_summary,
     {| workspaceId := None;
        sent := [GET_time_entries 1793577600000 1794182399999] |}) /\
  Forall (fun e => not_an_index (entry_date e)) (entries five_days_summary) /\
  Forall (fun e => String.length (entry_date e) = 10%nat)
         (entries five_days_summary) /\
  Sorted date_le (Js.entries (daily_breakdown five_days_summary)).
Proof.
  assert (F : Forall (fun e => not_an_index (entry_date e))
                     (entries five_days_summary))
    by (repeat constructor).
  assert (Fn : Forall (fun e => String.length (entry_date e) = 10%nat)
                      (entries five_days_summary))
    by (repeat constructor).
  split; [exact five_days_weekly|]. split; [exact F|]. split; [exact Fn|].
  destruct (breakdowns_enumerated_in_order _ _ _ _ _ five_days_weekly)
    as [Hd _].
  exact (proj2 (Hd F) 10%nat Fn).
Defined.

End Ordering.

Section Labels.
Import JSDate DateFacts WindowFacts OrderFacts.

Lemma Day_UTC (z : Zone) (d time : Z) :
  Day (UTC z (MakeDate d time)) =
  d + (time - offset_at_local z (MakeDate d time)) / msPerDay.
Proof.
  unfold UTC, Day. unfold MakeDate at 1.
  replace (d * msPerDay + time - offset_at_local z (MakeDate d time))
    with ((time - offset_at_local z (MakeDate d time)) + d * msPerDay) by lia.
  rewrite Z.div_add by (unfold msPerDay; lia). lia.
Qed.

(** X4.  [week_starting] and [week_ending] are the UTC calendar dates of
    the two ends of the window, which are local times: the first is the
    date of the local Monday moved by the offset from UTC at its midnight,
    the second that of the local Sunday moved by the offset at its last
    millisecond.  East of Greenwich the week is labelled from the Sunday
    before; west of it, to the Monday after. *)
Theorem week_labels_are_utc_dates (w : World) (off : Z)
    (st st' : ClientState) (s : WeeklySummary)
    (H : getWeeklyEntries w off st = (Return s, st')) :
  exists monday sunday,
    week_window (zone w) (now w) off = Some (monday, sunday) /\
    week_starting s = isoDate monday /\
    week_ending s = isoDate sunday /\
    (window_regular (zone w) (now w) off ->
     let d := mondayDay (zone w) (now w) off in
     Day monday =
       d + (- offset_at_local (zone w) (MakeDate d 0)) / msPerDay /\
     Day sunday =
       d + 6 + (86399999
                - offset_at_local (zone w) (MakeDate (d + 6) 86399999))
               / msPerDay).
Proof.
  destruct (summary_shape w off st st' s H)
    as (monday & sunday & T & D & P & Em & Es & _ & _ & _ & Ws & We & _).
  exists monday, sunday.
  split; [apply week_window_Some; split; assumption|].
  split; [exact Ws|]. split; [exact We|].
  intros R d.
  destruct (window_local _ _ _ _ _ R Em Es) as (_ & _ & Um & Us).
  fold d in Um, Us. rewrite Um, Us, !Day_UTC. split; reflexivity.
Qed.

End Labels.

Lemma week_labels_are_utc_dates_witness :
  exists s st' monday sunday,
    getWeeklyEntries east_world 0 fresh = (Return s, st') /\
    week_window (zone east_world) (now east_world) 0 = Some (monday, sunday) /\
    week_starting s = JSDate.isoDate monday /\
    week_ending s = JSDate.isoDate sunday.
Proof.
  destruct (getWeeklyEntries east_world 0 fresh) as [[s | e] st'] eqn:E;
    [|vm_compute in E; discriminate E].
  destruct (week_labels_are_utc_dates east_world 0 fresh st' s E)
    as (monday & sunday & Hw & Hs & He & _).
  exists s, st', monday, sunday.
  split; [reflexivity|]. split; [exact Hw|]. split; [exact Hs | exact He].
Defined.

(** The labels of a week computed an hour east of Greenwich. *)
Lemma week_labels_east_example :
  exists s st',
    getWeeklyEntries east_world 0 fresh = (Return s, st') /\
    week_starting s = "2026-11-01" /\ week_ending s = "2026-11-08".
Proof. eexists. eexists. vm_compute. repeat split. Qed.

(** X9.  A week without entries is not an error: weekly answers with the
    header, a total of 0 hours, neither breakdown section and a count of
    0, after the one request for the entries of the window. *)
Theorem weekly_without_entries (w : World) (off : Z) (st : ClientState)
    (monday sunday : Z)
    (Hw : week_window (zone w) (now w) off = Some (monday, sunday))
    (Hr : forall a b, reply_time_entries w a b = Ok200 (Some [])) :
  handle_call w "toggl_weekly" (weekly_args off) st =
  (Return (((week_label off ++ " Week Summary (" ++ JSDate.isoDate monday
              ++ " to " ++ JSDate.isoDate sunday ++ ")" ++ nl)
             ++ "Total: 0 hours" ++ nl ++ nl)
            ++ nl ++ "Total entries: 0"),
   {| workspaceId := workspaceId st;
      sent := GET_time_entries monday sunday :: sent st |}).
Proof.
  apply DateFacts.week_window_Some in Hw. destruct Hw as [Em Es].
  unfold handle_call, try_catch.
  change (dispatch w "toggl_weekly" (weekly_args off))
    with (toggl_weekly w (weekly_args off)).
  unfold toggl_weekly.
  change (WeeklyEntriesSchema_parse (weekly_args off)) with (@ret Z off).
  rewrite (bind_return _ _ st st off eq_refl).
  assert (G : getWeeklyEntries w off st =
              (Return {| week_starting := JSDate.isoDate monday;
                         week_ending := JSDate.isoDate sunday;
                         total_hours := 0;
                         daily_breakdown := [];
                         project_breakdown := [];
                         entry_count := 0;
                         entries := [] |},
               {| workspaceId := workspaceId st;
                  sent := GET_time_entries monday sunday :: sent st |})).
  { unfold getWeeklyEntries. cbv zeta. rewrite Em, Es.
    unfold getEntriesForDateRange. rewrite Hr. rewrite bind_call_ok.
    reflexivity. }
  rewrite (bind_return _ _ _ _ _ G). reflexivity.
Qed.

Lemma weekly_without_entries_witness :
  week_window (zone quiet_world) (now quiet_world) (-3)
    = Some (1791763200000, 1792367999999) /\
  (forall a b, reply_time_entries quiet_world a b = Ok200 (Some [])) /\
  fst (handle_call quiet_world "toggl_weekly" (weekly_args (-3)) fresh) =
  Return ((("3 weeks ago Week Summary (2026-10-12 to 2026-10-18)" ++ nl)
            ++ "Total: 0 hours" ++ nl ++ nl) ++ nl ++ "Total entries: 0").
Proof.
  assert (Hw : week_window (zone quiet_world) (now quiet_world) (-3)
               = Some (1791763200000, 1792367999999))
    by (vm_compute; reflexivity).
  assert (Hr : forall a b, reply_time_entries quiet_world a b = Ok200 (Some []))
    by (intros a b; reflexivity).
  split; [exact Hw|]. split; [exact Hr|].
  rewrite (weekly_without_entries quiet_world (-3) fresh _ _ Hw Hr).
  vm_compute. reflexivity.
Defined.

(** X19.  A week offset that takes the window out of the range of time
    values is not refused as a parameter: the dates are invalid,
    formatting them throws before any request is made, and weekly fails
    with the internal error "Invalid time value". *)
Theorem weekly_fails_out_of_range (w : World) (off : Z) (st : ClientState)
    (Hw : week_window (zone w) (now w) off = None) :
  handle_call w "toggl_weekly" (weekly_args off) st =
  (Throw (McpError InternalError "Invalid time value"), st).
Proof. exact (proj2 (weekly_invalid_window w off st Hw)). Qed.

Lemma weekly_fails_out_of_range_witness :
  week_window (zone quiet_world) (now quiet_world) 100000000 = None /\
  handle_call quiet_world "toggl_weekly" (weekly_args 100000000) fresh =
  (Throw (McpError InternalError "Invalid time value"), fresh).
Proof.
  assert (Hw : week_window (zone quiet_world) (now quiet_world) 100000000
               = None) by (vm_compute; reflexivity).
  split; [exact Hw|].
  exact (weekly_fails_out_of_range quiet_world 100000000 fresh Hw).
Defined.

Section Accuracy.

(** X6.  For a total below [2 ^ 50] seconds the hours computed are within
    half a hundredth of [seconds / 3600] (18 seconds in 36ths of a
    hundredth), never negative, and exact when the seconds are a whole
    number of hundredths of an hour. *)
Theorem hours_within_half_hundredth (s : Z) (H : 0 <= s < 2 ^ 50) :
  - 18 <= 36 * roundHours s - s <= 18 /\
  0 <= roundHours s /\
  (s mod 36 = 0 -> roundHours s = s / 36).
Proof.
  pose proof (roundHours_error s H) as E.
  split; [exact E|]. split; [lia|].
  intros M.
  pose proof (Z.div_mod s 36 ltac:(lia)) as D. rewrite M in D. lia.
Qed.

Lemma hours_within_half_hundredth_witness :
  0 <= 5400 < 2 ^ 50 /\ roundHours 5400 = 150.
Proof.
  assert (H : 0 <= 5400 < 2 ^ 50) by (split; [lia | reflexivity]).
  split; [exact H|].
  exact (proj2 (proj2 (hours_within_half_hundredth 5400 H)) eq_refl).
Defined.

End Accuracy.

Section TodayStop.
Import JSDate DateFacts WindowFacts.



End TodayStop.

Lemma translate_axios (w : World) (status : option Z) (message : string) :
  translate (AxiosError status message) =
  throw (if is_401 status
         then McpError InvalidRequest
                "Invalid Toggl API key. Check your TOGGL_API_KEY environment variable."
         else McpError InternalError
                (if String.eqb message "" then "An unexpected error occurred"
                 else message)).
Proof.
  destruct status as [z |]; [|reflexivity]. unfold is_401.
  destruct (Z.eqb_spec z 401) as [-> | NE]; [reflexivity|].
  unfold translate, exn_message.
  destruct z as [| p | p]; try reflexivity.
  do 9 (try destruct p as [p | p |]); try reflexivity.
  exfalso. apply NE. reflexivity.
Qed.

(** X17.  delete makes no check of its own: a refusal by the service comes
    back as an internal error carrying the service's message, or as an
    invalid request asking for the API key when the status is 401. *)
Theorem delete_surfaces_remote_errors (w : World) (ws n : Z)
    (requests : list Request) (status : option Z) (message : string)
    (Hws : ws <> 0)
    (Hr : reply_delete w ws n = Failed status message) :
  handle_call w "toggl_delete" (delete_args n) (cached ws requests) =
  (Throw (if is_401 status
          then McpError InvalidRequest
                 "Invalid Toggl API key. Check your TOGGL_API_KEY environment variable."
          else McpError InternalError
                 (if String.eqb message "" then "An unexpected error occurred"
                  else message)),
   cached ws (DELETE_time_entry ws n :: requests)).
Proof.
  assert (G : getWorkspaceId w (cached ws requests)
              = (Return ws, cached ws requests)).
  { unfold getWorkspaceId, bind, get_workspaceId_field, cached. simpl.
    destruct (Z.eqb_spec ws 0); [contradiction | reflexivity]. }
  assert (D : toggl_delete w (delete_args n) (cached ws requests) =
              (Throw (AxiosError status message),
               cached ws (DELETE_time_entry ws n :: requests))).
  { unfold toggl_delete.
    change (DeleteEntrySchema_parse (delete_args n)) with (@ret Z n).
    rewrite (bind_return _ _ _ _ n eq_refl).
    unfold deleteEntry. rewrite (bind_return _ _ _ _ _ G).
    apply bind_throw. unfold call. rewrite Hr. reflexivity. }
  unfold handle_call, try_catch.
  change (dispatch w "toggl_delete" (delete_args n))
    with (toggl_delete w (delete_args n)).
  rewrite D, (translate_axios w). reflexivity.
Qed.

Lemma delete_surfaces_remote_errors_witness :
  77 <> 0 /\
  reply_delete gone_world 77 12 =
    Failed (Some 404) "Request failed with status code 404" /\
  handle_call gone_world "toggl_delete" (delete_args 12) (cached 77 []) =
  (Throw (McpError InternalError "Request failed with status code 404"),
   cached 77 [DELETE_time_entry 77 12]).
Proof.
  assert (Hws : 77 <> 0) by discriminate.
  split; [exact Hws|]. split; [reflexivity|].
  exact (delete_surfaces_remote_errors gone_world 77 12 []
           (Some 404) "Request failed with status code 404" Hws eq_refl).
Defined.
